(** * elfo: reading and writing ELF headers

    A shallow embedding of [elfo/_util.py] and [elfo/__init__.py].
    Python integers are [Z], byte strings are [list byte], raised
    exceptions are the [Err] branch of [result], and a raw file object is
    the list of bytes that remain to be read. *)

From Stdlib Require Import ZArith List String Ascii Bool Lia.
From Stdlib Require Import Strings.Byte Strings.HexString Strings.BinaryString.
From Stdlib Require Import Numbers.DecimalString.
Import ListNotations.
Local Open Scope string_scope.
Local Open Scope list_scope.
Local Open Scope Z_scope.

Notation "a +s+ b" := (String.append a b) (at level 60, right associativity).

(* ===================================================================== *)
(** ** Exceptions *)
(* ===================================================================== *)

Inductive exn : Type :=
| NotAnELF                       (* elfo.NotAnELF *)
| ELFException (msg : string)    (* elfo.ELFException *)
| ValueError (msg : string)
| TypeError (msg : string)
| AttributeError (msg : string)
| AssertionError
| StructError.                   (* struct.error *)

Inductive result (A : Type) : Type :=
| Ok (a : A)
| Err (e : exn).
Arguments Ok {A} a.
Arguments Err {A} e.

Definition bind {A B : Type} (m : result A) (k : A -> result B) : result B :=
  match m with
  | Ok a => k a
  | Err e => Err e
  end.

Notation "x <- m ;; k" := (bind m (fun x => k))
  (at level 61, m at next level, right associativity).
Notation "' p <- m ;; k" := (bind m (fun x => match x with p => k end))
  (at level 61, p pattern, m at next level, right associativity).

Definition is_ok {A : Type} (r : result A) : bool :=
  match r with Ok _ => true | Err _ => false end.

Fixpoint mapM {A B : Type} (f : A -> result B) (l : list A) : result (list B) :=
  match l with
  | [] => Ok []
  | a :: l' => b <- f a ;; bs <- mapM f l' ;; Ok (b :: bs)
  end.

(* ===================================================================== *)
(** ** Python integers and their subclasses ([_util.py]) *)
(* ===================================================================== *)

(** [str(n)] and the [x] and [bin] renderings of a plain integer. *)
Definition str_int (v : Z) : string := NilZero.string_of_int (Z.to_int v).

Definition format_x (v : Z) : string :=
  match v with
  | Z0 => "0"
  | Zpos p => HexString.Raw.of_pos p ""
  | Zneg p => "-" +s+ HexString.Raw.of_pos p ""
  end.

Definition py_bin (v : Z) : string := BinaryString.of_Z v.

(** The four classes of integers that the library produces. *)
Inductive pytype : Type := t_int | t_EnumItem | t_EnumFlagItem | t_FlagMatch.

(** A named constant: the integer and the name that [_EnumItem.__new__]
    stores next to it. *)
Record named : Type := mkNamed { n_value : Z; n_name : string }.

Inductive pyint : Type :=
| Int (v : Z)                                  (* int *)
| EnumItem (i : named)                         (* _EnumItem(int) *)
| EnumFlagItem (i : named)                     (* _EnumFlagItem(_EnumItem) *)
| FlagMatch (v : Z) (flags : list named).      (* _FlagMatch(int, _Printable) *)

Definition type_of (x : pyint) : pytype :=
  match x with
  | Int _ => t_int
  | EnumItem _ => t_EnumItem
  | EnumFlagItem _ => t_EnumFlagItem
  | FlagMatch _ _ => t_FlagMatch
  end.

(** [int(x)] *)
Definition int_of (x : pyint) : Z :=
  match x with
  | Int v => v
  | EnumItem i => n_value i
  | EnumFlagItem i => n_value i
  | FlagMatch v _ => v
  end.

(** [x.name]; only the two item classes carry one. *)
Definition name_of (x : pyint) : option string :=
  match x with
  | EnumItem i | EnumFlagItem i => Some (n_name i)
  | _ => None
  end.

Definition pytype_eqb (a b : pytype) : bool :=
  match a, b with
  | t_int, t_int | t_EnumItem, t_EnumItem
  | t_EnumFlagItem, t_EnumFlagItem | t_FlagMatch, t_FlagMatch => true
  | _, _ => false
  end.

(** [issubclass(a, b)], from the class statements:
    [_EnumItem(int)], [_EnumFlagItem(_EnumItem)], [_FlagMatch(int, _Printable)]. *)
Definition issubclass (a b : pytype) : bool :=
  match a, b with
  | _, t_int => true
  | t_EnumItem, t_EnumItem => true
  | t_EnumFlagItem, (t_EnumItem | t_EnumFlagItem) => true
  | t_FlagMatch, t_FlagMatch => true
  | _, _ => false
  end.

(** [self & other]: no class overrides [__and__], so it is [int.__and__]. *)
Definition py_and (a b : pyint) : Z := Z.land (int_of a) (int_of b).

(** [bool(n)] *)
Definition py_bool (n : Z) : bool := negb (n =? 0).

(** The [__eq__] that class [t] gives its instances: [_EnumFlagItem]
    defines [bool(self & other)], the three others inherit [int.__eq__]. *)
Definition eq_method (t : pytype) (self other : pyint) : bool :=
  match t with
  | t_EnumFlagItem => py_bool (py_and self other)
  | _ => int_of self =? int_of other
  end.

(** [v == w].  When the class of [w] is a proper subclass of the class of
    [v], Python asks [w] first; neither [__eq__] here ever answers
    [NotImplemented] for an integer operand. *)
Definition py_eq (v w : pyint) : bool :=
  if negb (pytype_eqb (type_of v) (type_of w)) && issubclass (type_of w) (type_of v)
  then eq_method (type_of w) w v
  else eq_method (type_of v) v w.

(** [_EnumFlagItem.__ne__]: [not self == other]; the other classes
    inherit the default, the negation of [==]. *)
Definition py_ne (v w : pyint) : bool := negb (py_eq v w).

(** [int.__hash__] of CPython on a 64-bit build. *)
Definition int_hash (v : Z) : Z :=
  let h := Z.sgn v * (Z.abs v mod (2 ^ 61 - 1)) in
  if h =? -1 then -2 else h.

(** The [__hash__] of each class.  [_EnumFlagItem] defines [__eq__] and no
    [__hash__], so Python sets its [__hash__] to [None]; the three others
    inherit [int.__hash__]. *)
Definition hash_method (t : pytype) : option (Z -> Z) :=
  match t with
  | t_EnumFlagItem => None
  | _ => Some int_hash
  end.

(** [hash(x)] *)
Definition py_hash (x : pyint) : result Z :=
  match hash_method (type_of x) with
  | Some h => Ok (h (int_of x))
  | None => Err (TypeError "unhashable type: '_EnumFlagItem'")
  end.

(** [repr(x)]: [_EnumItem.__repr__], [_EnumFlagItem.__repr__], and
    [int.__repr__] for the two others ([int] comes before [_Printable] in
    the bases of [_FlagMatch]). *)
Definition py_repr (x : pyint) : string :=
  match x with
  | Int v => str_int v
  | EnumItem i => "<" +s+ n_name i +s+ ": " +s+ str_int (n_value i) +s+ ">"
  | EnumFlagItem i => "<" +s+ n_name i +s+ ": " +s+ py_bin (n_value i) +s+ ">"
  | FlagMatch v _ => str_int v
  end.

(** [_FlagMatch._values]: for each known flag, [flag == self]. *)
Definition _values (x : pyint) : list (string * bool) :=
  match x with
  | FlagMatch v flags =>
      map (fun f => (n_name f, py_eq (EnumFlagItem f) (FlagMatch v flags))) flags
  | _ => []
  end.

(* ===================================================================== *)
(** ** Enumeration classes ([_EnumMeta], [_Enum]) *)
(* ===================================================================== *)

(** The [item_cls] keyword of a class statement. *)
Inductive item_class : Type := cls_EnumItem | cls_EnumFlagItem.

(** A class built by [_EnumMeta]: its name, its item class and the integer
    attributes of its body, in the order of the class body.  The other
    entries of [vars(cls)] (strings, [None], the item class) are not
    integers: they equal no integer and are no [_EnumItem]. *)
Record EnumClass : Type := mkEnum {
  cls_name : string;
  item_cls : item_class;
  cls_body : list (string * Z)
}.

(** [item_cls(value, f'{name}.{key}')] in [_EnumMeta.__new__]. *)
Definition make_item (c : EnumClass) (kv : string * Z) : pyint :=
  let i := mkNamed (snd kv) (cls_name c +s+ "." +s+ fst kv) in
  match item_cls c with
  | cls_EnumItem => EnumItem i
  | cls_EnumFlagItem => EnumFlagItem i
  end.

(** The [_EnumItem] instances among [vars(cls).values()]. *)
Definition vars_items (c : EnumClass) : list pyint :=
  map (make_item c) (cls_body c).

(** [cls.key] *)
Definition getattr (c : EnumClass) (key : string) : result pyint :=
  match find (fun kv => String.eqb (fst kv) key) (cls_body c) with
  | Some kv => Ok (make_item c kv)
  | None => Err (AttributeError key)
  end.

Definition flag_items (c : EnumClass) : list named :=
  map (fun kv => mkNamed (snd kv) (cls_name c +s+ "." +s+ fst kv)) (cls_body c).

(** [_Enum.from_value] *)
Definition from_value (c : EnumClass) (value : Z) : result pyint :=
  match item_cls c with
  | cls_EnumFlagItem => Ok (FlagMatch value (flag_items c))
  | cls_EnumItem =>
      match find (fun item => py_eq item (Int value)) (vars_items c) with
      | Some item => Ok item
      | None =>
          Err (ValueError ("Item not found for 0x" +s+ format_x value
                           +s+ " in " +s+ cls_name c))
      end
  end.

(** [_Enum.from_value_fallback] *)
Definition from_value_fallback (c : EnumClass) (value : Z) : result pyint :=
  match from_value c value with
  | Err (ValueError _) => Ok (Int value)
  | r => r
  end.

(* ===================================================================== *)
(** ** The [struct] module, for the formats that the library builds *)
(* ===================================================================== *)

Inductive byteorder : Type := LittleEndian | BigEndian.

Definition byte_to_Z (b : byte) : Z := Z.of_N (Byte.to_N b).

Definition byte_of_Z (v : Z) : byte :=
  match Byte.of_N (Z.to_N (v mod 256)) with
  | Some b => b
  | None => x00
  end.

(** Unsigned integer of a byte string, least significant byte first. *)
Fixpoint decode_le (bs : list byte) : Z :=
  match bs with
  | [] => 0
  | b :: bs' => byte_to_Z b + 256 * decode_le bs'
  end.

Fixpoint encode_le (n : nat) (v : Z) : list byte :=
  match n with
  | O => []
  | S n' => byte_of_Z v :: encode_le n' (v / 256)
  end.

Definition decode_uint (o : byteorder) (bs : list byte) : Z :=
  match o with
  | LittleEndian => decode_le bs
  | BigEndian => decode_le (rev bs)
  end.

Definition encode_uint (o : byteorder) (n : nat) (v : Z) : list byte :=
  match o with
  | LittleEndian => encode_le n v
  | BigEndian => rev (encode_le n v)
  end.

(** Size in bytes of a format character; the library uses [B], [H], [I]
    and [Q], whose native sizes on the supported platforms are the
    standard ones. *)
Definition code_size (c : ascii) : result nat :=
  if Ascii.eqb c "B" then Ok 1%nat
  else if Ascii.eqb c "H" then Ok 2%nat
  else if Ascii.eqb c "I" then Ok 4%nat
  else if Ascii.eqb c "Q" then Ok 8%nat
  else Err StructError.

(** A parsed format: byte order, whether fields are aligned (native mode)
    and the field sizes. *)
Record layout : Type := mkLayout {
  l_order : byteorder;
  l_align : bool;
  l_sizes : list nat
}.

(** The first character selects the mode; without one of the five mode
    characters the format is native: the byte order of the host, with
    alignment. *)
Definition parse_format (host : byteorder) (fmt : string) : result layout :=
  match fmt with
  | String c rest =>
      if Ascii.eqb c "<" then
        sizes <- mapM code_size (list_ascii_of_string rest) ;;
        Ok (mkLayout LittleEndian false sizes)
      else if Ascii.eqb c ">" || Ascii.eqb c "!" then
        sizes <- mapM code_size (list_ascii_of_string rest) ;;
        Ok (mkLayout BigEndian false sizes)
      else if Ascii.eqb c "=" then
        sizes <- mapM code_size (list_ascii_of_string rest) ;;
        Ok (mkLayout host false sizes)
      else if Ascii.eqb c "@" then
        sizes <- mapM code_size (list_ascii_of_string rest) ;;
        Ok (mkLayout host true sizes)
      else
        sizes <- mapM code_size (list_ascii_of_string fmt) ;;
        Ok (mkLayout host true sizes)
  | EmptyString => Ok (mkLayout host true [])
  end.

(** Bytes skipped before a field of size [n] at offset [pos]. *)
Definition padding (al : bool) (pos n : nat) : nat :=
  if al then ((n - pos mod n) mod n)%nat else O.

Fixpoint layout_end (al : bool) (pos : nat) (sizes : list nat) : nat :=
  match sizes with
  | [] => pos
  | n :: rest => layout_end al (pos + padding al pos n + n) rest
  end.

Fixpoint unpack_fields (o : byteorder) (al : bool) (pos : nat)
    (sizes : list nat) (data : list byte) : list Z :=
  match sizes with
  | [] => []
  | n :: rest =>
      let data' := skipn (padding al pos n) data in
      decode_uint o (firstn n data')
        :: unpack_fields o al (pos + padding al pos n + n) rest (skipn n data')
  end.

Fixpoint pack_fields (o : byteorder) (al : bool) (pos : nat)
    (sizes : list nat) (vals : list Z) : result (list byte) :=
  match sizes, vals with
  | [], [] => Ok []
  | n :: rest, v :: vs =>
      if (0 <=? v) && (v <? 256 ^ Z.of_nat n) then
        tl <- pack_fields o al (pos + padding al pos n + n) rest vs ;;
        Ok (repeat x00 (padding al pos n) ++ encode_uint o n v ++ tl)
      else Err StructError
  | _, _ => Err StructError
  end.

Module struct.

Definition calcsize (host : byteorder) (fmt : string) : result Z :=
  l <- parse_format host fmt ;;
  Ok (Z.of_nat (layout_end (l_align l) 0 (l_sizes l))).

(** [struct.unpack]: the buffer must have exactly the size of the format. *)
Definition unpack (host : byteorder) (fmt : string) (data : list byte)
  : result (list Z) :=
  l <- parse_format host fmt ;;
  if Nat.eqb (List.length data) (layout_end (l_align l) 0 (l_sizes l))
  then Ok (unpack_fields (l_order l) (l_align l) 0 (l_sizes l) data)
  else Err StructError.

(** [struct.pack]: as many values as fields, each in the range of its
    field. *)
Definition pack (host : byteorder) (fmt : string) (vals : list Z)
  : result (list byte) :=
  l <- parse_format host fmt ;;
  pack_fields (l_order l) (l_align l) 0 (l_sizes l) vals.

End struct.

(* ===================================================================== *)
(** ** Byte strings and raw file objects *)
(* ===================================================================== *)

(** [data[start:stop]] with Python's treatment of negative and
    out-of-range indices. *)
Definition slice_index (len i : Z) : Z :=
  if i <? 0 then Z.max (len + i) 0 else Z.min i len.

Definition py_slice {A : Type} (data : list A) (start stop : Z) : list A :=
  let len := Z.of_nat (List.length data) in
  let lo := slice_index len start in
  let hi := slice_index len stop in
  firstn (Z.to_nat (hi - lo)) (skipn (Z.to_nat lo) data).

(** A raw file object is the bytes that have not been read yet. *)
Definition file : Type := list byte.

(** [fd.read(n)], as a regular file or an in-memory buffer answers: the
    next [n] bytes, or all that remain if there are fewer; everything for a
    negative [n]. *)
Definition read (n : Z) (fd : file) : list byte * file :=
  if n <? 0 then (fd, []) else (firstn (Z.to_nat n) fd, skipn (Z.to_nat n) fd).

(** [fd.read()] *)
Definition read_all (fd : file) : list byte * file := (fd, []).

Definition bytes_eqb (a b : list byte) : bool :=
  if list_eq_dec Byte.byte_eq_dec a b then true else false.

(** ['\x7fELF'] *)
Definition ELFMAG : list byte := [x7f; x45; x4c; x46].

(** [_unpack(description, fd)], on a host of byte order [host]. *)
Definition _unpack (host : byteorder) (description : string) (fd : file)
  : result (list Z * file) :=
  size <- struct.calcsize host description ;;
  let '(data, fd) := read size fd in
  match data with
  | [] => Err AssertionError
  | _ => vals <- struct.unpack host description data ;; Ok (vals, fd)
  end.

(* ===================================================================== *)
(** ** The constants of [elfo._data] *)
(* ===================================================================== *)

(** The nine enumeration classes that [elfo/__init__.py] imports from
    [elfo._data].  That module is not among the sources; its classes are
    taken as a parameter, so that what is proved holds whatever the tables
    contain. *)
Record Data : Type := mkData {
  EI : EnumClass;
  ELFCLASS : EnumClass;
  ELFDATA : EnumClass;
  EM : EnumClass;
  ET : EnumClass;
  EV : EnumClass;
  OSABI : EnumClass;
  SHF : EnumClass;
  SHT : EnumClass
}.

(* ===================================================================== *)
(** ** [elfo/__init__.py] *)
(* ===================================================================== *)

(** [ELFHeader.types.e_ident] *)
Record e_ident : Type := mk_e_ident {
  file_identification : list byte;
  file_class : pyint;
  data_encoding : pyint;
  file_version : Z;
  os_abi : pyint;
  abi_version : Z
}.

(** [ELFHeader] *)
Record ELFHeader : Type := mkELFHeader {
  h_e_ident : e_ident;
  e_type : pyint;
  e_machine : pyint;
  e_version : pyint;
  e_entry : Z;
  e_phoff : Z;
  e_shoff : Z;
  e_flags : Z;
  e_ehsize : Z;
  e_phentsize : Z;
  e_phnum : Z;
  e_shentsize : Z;
  e_shnum : Z;
  e_shstrndx : Z
}.

(** [ELFSectionHeader] *)
Record ELFSectionHeader : Type := mkELFSectionHeader {
  sh_e_ident : e_ident;
  sh_name : Z;
  sh_type : pyint;
  sh_flags : pyint;
  sh_addr : Z;
  sh_offset : Z;
  sh_size : Z;
  sh_link : Z;
  sh_info : Z;
  sh_addralign : Z;
  sh_entsize : Z
}.

(** [ELFProgramHeader] *)
Record ELFProgramHeader : Type := mkELFProgramHeader {
  p_e_ident : e_ident;
  p_type : Z;
  p_flags : Z;
  p_offset : Z;
  p_vaddr : Z;
  p_paddr : Z;
  p_filesz : Z;
  p_memsz : Z;
  p_align : Z
}.

(** [ELF] *)
Record ELF : Type := mkELF {
  header : ELFHeader;
  section_headers : list ELFSectionHeader;
  program_headers : list ELFProgramHeader;
  data : list byte
}.

(** [range(count)] *)
Definition range (count : Z) : list Z := map Z.of_nat (seq 0 (Z.to_nat count)).

Section Elfo.

Variable D : Data.
(** Byte order of the machine that runs the library: what [struct] uses
    for a format without a mode character. *)
Variable host : byteorder.

(** *** [ELFHeader.types.e_ident] *)

(** The generated [__init__] followed by [__post_init__]. *)
Definition e_ident_init (magic : list byte) (fc de fv oa av : Z)
  : result e_ident :=
  fc' <- from_value (ELFCLASS D) fc ;;
  de' <- from_value (ELFDATA D) de ;;
  oa' <- from_value (OSABI D) oa ;;
  Ok (mk_e_ident magic fc' de' fv oa' av).

(** [EI.NIDENT - EI.PAD + 1] *)
Definition pad_length : result Z :=
  nident <- getattr (EI D) "NIDENT" ;;
  pad <- getattr (EI D) "PAD" ;;
  Ok (int_of nident - int_of pad + 1).

Definition e_ident_from_fd (fd : file) : result (e_ident * file) :=
  let '(magic, fd) := read 4 fd in
  if negb (bytes_eqb magic ELFMAG) then Err NotAnELF
  else
    '(vals, fd) <- _unpack host "BBBBB" fd ;;
    obj <- match vals with
           | [fc; de; fv; oa; av] => e_ident_init ELFMAG fc de fv oa av
           | _ => Err (TypeError "__init__() arguments")
           end ;;
    n <- pad_length ;;
    let '(_, fd) := read n fd in
    Ok (obj, fd).

(** The [endianess] property. *)
Definition endianess (self : e_ident) : result string :=
  lsb <- getattr (ELFDATA D) "LSB" ;;
  if py_eq (data_encoding self) lsb then Ok "<"
  else
    lsb' <- getattr (ELFDATA D) "LSB" ;;
    if py_eq (data_encoding self) lsb' then Ok ">"
    else Err (ValueError ("Unkown endianess: " +s+ py_repr (data_encoding self))).

(** The [native] property. *)
Definition native (self : e_ident) : result string :=
  c32 <- getattr (ELFCLASS D) "_32" ;;
  if py_eq (file_class self) c32 then Ok "I"
  else
    c64 <- getattr (ELFCLASS D) "_64" ;;
    if py_eq (file_class self) c64 then Ok "Q"
    else Err (ValueError ("Unkown class: " +s+ py_repr (file_class self))).

Definition e_ident_bytes (self : e_ident) : result (list byte) :=
  packed <- struct.pack host "BBBBB"
              [int_of (file_class self); int_of (data_encoding self);
               file_version self; int_of (os_abi self); abi_version self] ;;
  n <- pad_length ;;
  Ok (file_identification self ++ packed ++ repeat x00 (Z.to_nat n)).

(** *** [_DeriveSerialization] *)

(** What a subclass provides: its [_format] and its constructor, which
    receives the identification block and the unpacked integers. *)
Class DeriveSerialization (T : Type) : Type := {
  _format : e_ident -> result string;
  init : e_ident -> list Z -> result T
}.

Section Derive.
Context {T : Type} `{DeriveSerialization T}.

Definition from_bytes (bs : list byte) (ident : e_ident) : result T :=
  fmt <- _format ident ;;
  vals <- struct.unpack host fmt bs ;;
  init ident vals.

Definition size (ident : e_ident) : result Z :=
  fmt <- _format ident ;;
  struct.calcsize host fmt.

Definition from_fd (fd : file) (ident : e_ident) : result (T * file) :=
  data_format <- _format ident ;;
  n <- struct.calcsize host data_format ;;
  let '(bs, fd) := read n fd in
  match bs with
  | [] => Err AssertionError
  | _ => obj <- from_bytes bs ident ;; Ok (obj, fd)
  end.

Definition multiple_from_bytes (bs : list byte) (count : Z) (ident : e_ident)
  : result (list T) :=
  size <- size ident ;;
  mapM (fun i => from_bytes (py_slice bs (i * size) ((i + 1) * size)) ident)
       (range count).
End Derive.

(** *** [ELFSectionHeader] *)

Definition ELFSectionHeader_format (ident : e_ident) : result string :=
  e <- endianess ident ;;
  n1 <- native ident ;; n2 <- native ident ;;
  n3 <- native ident ;; n4 <- native ident ;;
  n5 <- native ident ;; n6 <- native ident ;;
  Ok (e +s+ "II" +s+ n1 +s+ n2 +s+ n3 +s+ n4 +s+ "II" +s+ n5 +s+ n6).

Definition ELFSectionHeader_init (ident : e_ident) (args : list Z)
  : result ELFSectionHeader :=
  match args with
  | [name; type; flags; addr; offset; sz; link; info; addralign; entsize] =>
      type' <- from_value_fallback (SHT D) type ;;
      flags' <- from_value (SHF D) flags ;;
      Ok (mkELFSectionHeader ident name type' flags' addr offset sz link info
            addralign entsize)
  | _ => Err (TypeError "__init__() arguments")
  end.

#[export] Instance ELFSectionHeader_derive : DeriveSerialization ELFSectionHeader :=
  {| _format := ELFSectionHeader_format; init := ELFSectionHeader_init |}.

(** The derived class methods, as [ELFSectionHeader.size] and so on. *)
Definition ELFSectionHeader_size := size (T := ELFSectionHeader).
Definition ELFSectionHeader_from_bytes := from_bytes (T := ELFSectionHeader).
Definition ELFSectionHeader_multiple_from_bytes :=
  multiple_from_bytes (T := ELFSectionHeader).

(** *** [ELFProgramHeader] *)

Definition ELFProgramHeader_init (ident : e_ident) (args : list Z)
  : result ELFProgramHeader :=
  if negb (Nat.eqb (List.length args) 8) then
    Err (ValueError ("Required 8 arguments, got "
                     +s+ str_int (Z.of_nat (List.length args))))
  else
    c32 <- getattr (ELFCLASS D) "_32" ;;
    if py_eq (file_class ident) c32 then
      match args with
      | [type; offset; vaddr; paddr; filesz; memsz; flags; align] =>
          Ok (mkELFProgramHeader ident type flags offset vaddr paddr filesz
                memsz align)
      | _ => Err (ValueError "unpack")
      end
    else
      c64 <- getattr (ELFCLASS D) "_64" ;;
      if py_eq (file_class ident) c64 then
        match args with
        | [type; flags; offset; vaddr; paddr; filesz; memsz; align] =>
            Ok (mkELFProgramHeader ident type flags offset vaddr paddr filesz
                  memsz align)
        | _ => Err (ValueError "unpack")
        end
      else Err (ValueError ("Unkown class: " +s+ py_repr (file_class ident))).

Definition ELFProgramHeader_format (ident : e_ident) : result string :=
  c32 <- getattr (ELFCLASS D) "_32" ;;
  if py_eq (file_class ident) c32 then Ok "IIIIIIII"
  else
    c64 <- getattr (ELFCLASS D) "_64" ;;
    if py_eq (file_class ident) c64 then Ok "IIQQQQQQ"
    else Err (ValueError ("Unkown class: " +s+ py_repr (file_class ident))).

#[export] Instance ELFProgramHeader_derive : DeriveSerialization ELFProgramHeader :=
  {| _format := ELFProgramHeader_format; init := ELFProgramHeader_init |}.

Definition ELFProgramHeader_size := size (T := ELFProgramHeader).
Definition ELFProgramHeader_from_bytes := from_bytes (T := ELFProgramHeader).
Definition ELFProgramHeader_multiple_from_bytes :=
  multiple_from_bytes (T := ELFProgramHeader).

(** *** [ELFHeader] *)

Definition ELFHeader_len (self : ELFHeader) : result Z :=
  c32 <- getattr (ELFCLASS D) "_32" ;;
  if py_eq (file_class (h_e_ident self)) c32 then Ok 52
  else
    c64 <- getattr (ELFCLASS D) "_64" ;;
    if py_eq (file_class (h_e_ident self)) c64 then Ok 64
    else Err (ValueError ("Unkown class: "
                          +s+ py_repr (file_class (h_e_ident self)))).

(** The generated [__init__] followed by [__post_init__]. *)
Definition ELFHeader_init (ident : e_ident) (args : list Z) : result ELFHeader :=
  match args with
  | [type; machine; version; entry; phoff; shoff; flags; ehsize; phentsize;
     phnum; shentsize; shnum; shstrndx] =>
      type' <- from_value (ET D) type ;;
      machine' <- from_value (EM D) machine ;;
      version' <- from_value_fallback (EV D) version ;;
      let self := mkELFHeader ident type' machine' version' entry phoff shoff
                    flags ehsize phentsize phnum shentsize shnum shstrndx in
      n <- ELFHeader_len self ;;
      if negb (e_ehsize self =? n) then
        n' <- ELFHeader_len self ;;
        Err (ELFException ("Invalid e_ehsize, got `" +s+ str_int (e_ehsize self)
                           +s+ "` but was expecting `" +s+ str_int n' +s+ "`"))
      else
        s <- ELFSectionHeader_size (h_e_ident self) ;;
        if negb (e_shentsize self =? s) then
          s' <- ELFSectionHeader_size (h_e_ident self) ;;
          Err (ELFException ("Invalid e_shentsize, got `"
                             +s+ str_int (e_shentsize self)
                             +s+ "` but was expecting `" +s+ str_int s' +s+ "`"))
        else Ok self
  | _ => Err (TypeError "__init__() arguments")
  end.

Definition ELFHeader_format (ident : e_ident) : result string :=
  e <- endianess ident ;;
  n1 <- native ident ;; n2 <- native ident ;; n3 <- native ident ;;
  Ok (e +s+ "HHI" +s+ n1 +s+ n2 +s+ n3 +s+ "IHHHHHH").

Definition ELFHeader_from_fd (fd : file) : result (ELFHeader * file) :=
  '(ident, fd) <- e_ident_from_fd fd ;;
  fmt <- ELFHeader_format ident ;;
  '(vals, fd) <- _unpack host fmt fd ;;
  obj <- ELFHeader_init ident vals ;;
  Ok (obj, fd).

Definition ELFHeader_bytes (self : ELFHeader) : result (list byte) :=
  ib <- e_ident_bytes (h_e_ident self) ;;
  fmt <- ELFHeader_format (h_e_ident self) ;;
  packed <- struct.pack host fmt
              [int_of (e_type self); int_of (e_machine self);
               int_of (e_version self); e_entry self; e_phoff self;
               e_shoff self; e_flags self; e_ehsize self; e_phentsize self;
               e_phnum self; e_shentsize self; e_shnum self; e_shstrndx self] ;;
  Ok (ib ++ packed).

(** *** [ELF] *)

Definition ELF_from_fd (fd : file) : result ELF :=
  '(hdr, fd) <- ELFHeader_from_fd fd ;;
  let '(body, fd) := read_all fd in
  match body with
  | [] => Err AssertionError
  | _ =>
      (* section headers *)
      n <- ELFHeader_len hdr ;;
      let offset := e_shoff hdr - n in
      shdrs <- ELFSectionHeader_multiple_from_bytes
                 (py_slice body offset (offset + e_shentsize hdr * e_shnum hdr))
                 (e_shnum hdr) (h_e_ident hdr) ;;
      (* program headers *)
      n <- ELFHeader_len hdr ;;
      let offset := e_phoff hdr - n in
      phdrs <- ELFProgramHeader_multiple_from_bytes
                 (py_slice body offset (offset + e_phentsize hdr * e_phnum hdr))
                 (e_phnum hdr) (h_e_ident hdr) ;;
      Ok (mkELF hdr shdrs phdrs body)
  end.

Definition ELF_len (self : ELF) : result Z :=
  n <- ELFHeader_len (header self) ;;
  Ok (n + Z.of_nat (List.length (data self))).

Definition ELF_bytes (self : ELF) : result (list byte) :=
  hb <- ELFHeader_bytes (header self) ;;
  Ok (hb ++ data self).

End Elfo.


(* ===================================================================== *)
(** ** A table of constants to run the code on *)
(* ===================================================================== *)

(** Modelled from the spec: the module [elfo._data], which holds the
    tables of named constants, is not among the sources, and the
    specification leaves the tables to an external collaborator.  The
    instance below is used only to evaluate the code on concrete inputs.
    It has a 16-byte identification block (four magic bytes, five fields
    and [EI.NIDENT - EI.PAD + 1 = 7] padding bytes), the two file classes,
    the two data encodings and a flag enumeration for the section flags,
    as the specification describes them; the numbers are those of the ELF
    format. *)
Definition sample_data : Data := {|
  EI := mkEnum "EI" cls_EnumItem
          [("MAG0", 0); ("MAG1", 1); ("MAG2", 2); ("MAG3", 3); ("CLASS", 4);
           ("DATA", 5); ("VERSION", 6); ("OSABI", 7); ("ABIVERSION", 8);
           ("PAD", 10); ("NIDENT", 16)];
  ELFCLASS := mkEnum "ELFCLASS" cls_EnumItem [("NONE", 0); ("_32", 1); ("_64", 2)];
  ELFDATA := mkEnum "ELFDATA" cls_EnumItem [("NONE", 0); ("LSB", 1); ("MSB", 2)];
  EM := mkEnum "EM" cls_EnumItem [("NONE", 0); ("_386", 3); ("X86_64", 62)];
  ET := mkEnum "ET" cls_EnumItem
          [("NONE", 0); ("REL", 1); ("EXEC", 2); ("DYN", 3); ("CORE", 4)];
  EV := mkEnum "EV" cls_EnumItem [("NONE", 0); ("CURRENT", 1)];
  OSABI := mkEnum "OSABI" cls_EnumItem [("NONE", 0); ("LINUX", 3)];
  SHF := mkEnum "SHF" cls_EnumFlagItem
           [("WRITE", 1); ("ALLOC", 2); ("EXECINSTR", 4);
            ("MASKOS", 267386880); ("MASKPROC", 4026531840)];
  SHT := mkEnum "SHT" cls_EnumItem
           [("NULL", 0); ("PROGBITS", 1); ("SYMTAB", 2); ("STRTAB", 3)]
|}.

Definition zeros (n : nat) : list byte := repeat x00 n.

(** The fixed fields of the header of the minimal 64-bit file with one
    section header and no program header: [e_ehsize = 64],
    [e_shentsize = 64], [e_shnum = 1], section table offset [shoff], every
    other field zero. *)
Definition minimal_fields (shoff : byte) : list byte :=
  zeros 2 ++ zeros 2 ++ zeros 4                   (* e_type e_machine e_version *)
  ++ zeros 8 ++ zeros 8                           (* e_entry e_phoff *)
  ++ (shoff :: zeros 7)                           (* e_shoff *)
  ++ zeros 4                                      (* e_flags *)
  ++ [x40; x00] ++ zeros 2 ++ zeros 2             (* e_ehsize e_phentsize e_phnum *)
  ++ [x40; x00] ++ [x01; x00] ++ zeros 2.         (* e_shentsize e_shnum e_shstrndx *)

(** The buffer of that file: the 16-byte identification block with class
    byte [c] and encoding byte [e], the fixed fields, and 64 zero bytes for
    the section header. *)
Definition minimal_elf (c e shoff : byte) : list byte :=
  ELFMAG ++ [c; e; x00; x00; x00] ++ zeros 7 ++ minimal_fields shoff ++ zeros 64.

(** The same file with arbitrary bytes [pad] as the padding of its
    identification block (64-bit, little-endian, section table at 64). *)
Definition padded_elf (pad : list byte) : list byte :=
  ELFMAG ++ [x02; x01; x00; x00; x00] ++ pad ++ minimal_fields x40 ++ zeros 64.

(** The identification block of a 64-bit little-endian file, resolved in
    [sample_data]. *)
Definition sample_ident : e_ident :=
  mk_e_ident ELFMAG (EnumItem (mkNamed 2 "ELFCLASS._64"))
    (EnumItem (mkNamed 1 "ELFDATA.LSB")) 0 (EnumItem (mkNamed 0 "OSABI.NONE")) 0.

(** The identification block of a 32-bit little-endian file, resolved in
    [sample_data]. *)
Definition sample_ident32 : e_ident :=
  mk_e_ident ELFMAG (EnumItem (mkNamed 1 "ELFCLASS._32"))
    (EnumItem (mkNamed 1 "ELFDATA.LSB")) 0 (EnumItem (mkNamed 0 "OSABI.NONE")) 0.

(** A 64-bit file with no section header and one program header at offset
    64, whose [e_phentsize] is 64 although a program header has 56 bytes,
    and whose body is the 56 bytes of that program header. *)
Definition long_phentsize_elf : list byte :=
  ELFMAG ++ [x02; x01; x01; x00; x00] ++ zeros 7
  ++ zeros 2 ++ zeros 2 ++ zeros 4                (* e_type e_machine e_version *)
  ++ zeros 8                                      (* e_entry *)
  ++ (x40 :: zeros 7)                             (* e_phoff *)
  ++ zeros 8                                      (* e_shoff *)
  ++ zeros 4                                      (* e_flags *)
  ++ [x40; x00] ++ [x40; x00] ++ [x01; x00]       (* e_ehsize e_phentsize e_phnum *)
  ++ [x40; x00] ++ zeros 2 ++ zeros 2             (* e_shentsize e_shnum e_shstrndx *)
  ++ ([x01; x00; x00; x00] ++ zeros 52).

(** A 64-bit header whose type 0x1234 is in no table and whose [e_ehsize]
    is 52. *)
Definition bad_type_and_size_header : list byte :=
  ELFMAG ++ [x02; x01; x00; x00; x00] ++ zeros 7
  ++ [x34; x12] ++ zeros 2 ++ zeros 4             (* e_type e_machine e_version *)
  ++ zeros 8 ++ zeros 8 ++ zeros 8                (* e_entry e_phoff e_shoff *)
  ++ zeros 4                                      (* e_flags *)
  ++ [x34; x00] ++ zeros 2 ++ zeros 2             (* e_ehsize e_phentsize e_phnum *)
  ++ [x40; x00] ++ zeros 2 ++ zeros 2.            (* e_shentsize e_shnum e_shstrndx *)

(** ** The class of a file, for stating properties *)

Inductive elf_class : Type := Class32 | Class64.

(** The two tests on [file_class] that [native], [ELFHeader.__len__],
    [ELFProgramHeader.__init__] and [ELFProgramHeader._format] all make. *)
Definition class_of (D : Data) (ident : e_ident) : result elf_class :=
  c32 <- getattr (ELFCLASS D) "_32" ;;
  if py_eq (file_class ident) c32 then Ok Class32
  else
    c64 <- getattr (ELFCLASS D) "_64" ;;
    if py_eq (file_class ident) c64 then Ok Class64
    else Err (ValueError ("Unkown class: " +s+ py_repr (file_class ident))).

(** Sizes in bytes of the three records, per class. *)
Definition header_size (c : elf_class) : Z :=
  match c with Class32 => 52 | Class64 => 64 end.

Definition section_entry_size (c : elf_class) : Z :=
  match c with Class32 => 40 | Class64 => 64 end.

Definition program_entry_size (c : elf_class) : Z :=
  match c with Class32 => 32 | Class64 => 56 end.

(** The formats that [ELFHeader._format] and [ELFSectionHeader._format]
    join for a little-endian file of each class. *)
Definition header_format (c : elf_class) : string :=
  match c with Class32 => "<HHIIIIIHHHHHH" | Class64 => "<HHIQQQIHHHHHH" end.

Definition section_format (c : elf_class) : string :=
  match c with Class32 => "<IIIIIIIIII" | Class64 => "<IIQQQQIIQQ" end.

Definition program_format (c : elf_class) : string :=
  match c with Class32 => "IIIIIIII" | Class64 => "IIQQQQQQ" end.

(** The integers that [ELFHeader.__bytes__] packs. *)
Definition header_fields (h : ELFHeader) : list Z :=
  [int_of (e_type h); int_of (e_machine h); int_of (e_version h); e_entry h;
   e_phoff h; e_shoff h; e_flags h; e_ehsize h; e_phentsize h; e_phnum h;
   e_shentsize h; e_shnum h; e_shstrndx h].

(** The integers that [e_ident.__bytes__] packs. *)
Definition ident_fields (i : e_ident) : list Z :=
  [int_of (file_class i); int_of (data_encoding i); file_version i;
   int_of (os_abi i); abi_version i].

(** The block that [e_ident.from_fd] builds from the five integers it
    unpacks. *)
Definition ident_of_fields (D : Data) (vals : list Z) : result e_ident :=
  match vals with
  | [fc; de; fv; oa; av] => e_ident_init D ELFMAG fc de fv oa av
  | _ => Err (TypeError "__init__() arguments")
  end.

(* ===================================================================== *)
(** ** More of [_util.py] and of [_DeriveSerialization] *)
(* ===================================================================== *)

(** [s * n] for a string. *)
Fixpoint str_repeat (s : string) (n : nat) : string :=
  match n with
  | O => ""
  | S n' => s +s+ str_repeat s n'
  end.

(** [_Printable._pad] *)
Definition _pad (level : nat) : string := str_repeat "  " level.

(** The branch of [value_repr], in [_Printable._repr], for an integer that
    is no [_EnumItem]: the text of the [x] format, with a zero in front
    when the number of its characters is odd, after [0x]. *)
Definition hex_digits (value : Z) : string :=
  let hex_repr := format_x value in
  str_repeat "0" (String.length hex_repr mod 2) +s+ hex_repr.

Definition value_repr_int (value : Z) : string := "0x" +s+ hex_digits value.

(** The characters that the [x] format uses for a digit. *)
Definition is_hex_digit (ch : ascii) : bool :=
  existsb (Ascii.eqb ch) (list_ascii_of_string "0123456789abcdef").

Fixpoint all_chars (p : ascii -> bool) (s : string) : bool :=
  match s with
  | EmptyString => true
  | String ch s' => p ch && all_chars p s'
  end.

(** A Python [dict] with integer keys: the entries in the order in which
    their keys were first set. *)
Definition dict (V : Type) : Type := list (Z * V).

(** [d[k] = v] *)
Fixpoint dict_set {V : Type} (d : dict V) (k : Z) (v : V) : dict V :=
  match d with
  | [] => [(k, v)]
  | (k', v') :: d' =>
      if k' =? k then (k, v) :: d' else (k', v') :: dict_set d' k v
  end.

(** [d.get(k)] *)
Definition dict_get {V : Type} (d : dict V) (k : Z) : option V :=
  option_map snd (find (fun kv => fst kv =? k) d).

(** [_EnumMeta.value_dict]: [{int(value): value for value in ...}]. *)
Definition value_dict (c : EnumClass) : dict pyint :=
  fold_left (fun d item => dict_set d (int_of item) item) (vars_items c) [].

(** An argument given to [struct.pack]: an integer, or a
    [dataclasses.Field], which is none. *)
Inductive pack_arg : Type :=
| ArgInt (v : Z)
| ArgField (name : string).

(** [struct.pack] on such arguments: it first counts them against the
    format, and an argument that is no integer is a [struct.error] too. *)
Definition pack_objects (host : byteorder) (fmt : string) (args : list pack_arg)
  : result (list byte) :=
  l <- parse_format host fmt ;;
  if negb (Nat.eqb (List.length args) (List.length (l_sizes l))) then Err StructError
  else
    vals <- mapM (fun a => match a with
                           | ArgInt v => Ok v
                           | ArgField _ => Err StructError
                           end) args ;;
    pack_fields (l_order l) (l_align l) 0 (l_sizes l) vals.

(** [dataclasses.fields] of the two record classes: one [Field] for each
    annotated attribute, [_e_ident] included. *)
Definition ELFSectionHeader_fields : list string :=
  ["_e_ident"; "sh_name"; "sh_type"; "sh_flags"; "sh_addr"; "sh_offset";
   "sh_size"; "sh_link"; "sh_info"; "sh_addralign"; "sh_entsize"].

Definition ELFProgramHeader_fields : list string :=
  ["_e_ident"; "p_type"; "p_flags"; "p_offset"; "p_vaddr"; "p_paddr";
   "p_filesz"; "p_memsz"; "p_align"].

(** [_DeriveSerialization.__bytes__], which both record classes inherit:
    [struct.pack(self._format(self._e_ident), *dataclasses.fields(self))]. *)
Definition ELFSectionHeader_bytes (D : Data) (host : byteorder)
    (self : ELFSectionHeader) : result (list byte) :=
  fmt <- ELFSectionHeader_format D (sh_e_ident self) ;;
  pack_objects host fmt (map ArgField ELFSectionHeader_fields).

Definition ELFProgramHeader_bytes (D : Data) (host : byteorder)
    (self : ELFProgramHeader) : result (list byte) :=
  fmt <- ELFProgramHeader_format D (p_e_ident self) ;;
  pack_objects host fmt (map ArgField ELFProgramHeader_fields).

(** The unsigned integer that the [n] bytes at offset [off] of a buffer
    hold, in byte order [o]. *)
Definition field_at (o : byteorder) (bs : list byte) (off n : nat) : Z :=
  decode_uint o (firstn n (skipn off bs)).

(** Where [e_ehsize] and [e_shentsize] stand among the bytes that follow
    the identification block, in the formats [HHI...IHHHHHH] of the two
    classes. *)
Definition ehsize_offset (c : elf_class) : nat :=
  match c with Class32 => 24%nat | Class64 => 36%nat end.

Definition shentsize_offset (c : elf_class) : nat :=
  match c with Class32 => 30%nat | Class64 => 42%nat end.

(** The thirteen integers that the bytes [bh] after the identification
    block hold, field by field, in a little-endian file of class [c]. *)
Definition header_fields_at (c : elf_class) (bh : list byte) : list Z :=
  let f := field_at LittleEndian bh in
  match c with
  | Class32 =>
      [f 0 2; f 2 2; f 4 4; f 8 4; f 12 4; f 16 4; f 20 4;
       f 24 2; f 26 2; f 28 2; f 30 2; f 32 2; f 34 2]%nat
  | Class64 =>
      [f 0 2; f 2 2; f 4 4; f 8 8; f 16 8; f 24 8; f 32 4;
       f 36 2; f 38 2; f 40 2; f 42 2; f 44 2; f 46 2]%nat
  end.

(** The fixed fields of a 64-bit header whose [e_ehsize] is [eh] and whose
    [e_shentsize] is [se], every other field zero, and the header made of
    the identification block of a 64-bit little-endian file and these
    fields. *)
Definition fields_with_sizes (eh se : byte) : list byte :=
  zeros 2 ++ zeros 2 ++ zeros 4                   (* e_type e_machine e_version *)
  ++ zeros 8 ++ zeros 8 ++ zeros 8                (* e_entry e_phoff e_shoff *)
  ++ zeros 4                                      (* e_flags *)
  ++ [eh; x00] ++ zeros 2 ++ zeros 2              (* e_ehsize e_phentsize e_phnum *)
  ++ [se; x00] ++ zeros 2 ++ zeros 2.             (* e_shentsize e_shnum e_shstrndx *)

Definition header_with_sizes (eh se : byte) : list byte :=
  ELFMAG ++ [x02; x01; x00; x00; x00] ++ zeros 7 ++ fields_with_sizes eh se.

(* ===================================================================== *)
(** * Properties *)
(* ===================================================================== *)

(** ** Symbolic values *)

Lemma py_eq_int_int (a b : Z) : py_eq (Int a) (Int b) = (a =? b).
Proof. reflexivity. Qed.

Lemma py_eq_item_int (i : named) (v : Z) :
  py_eq (EnumItem i) (Int v) = (n_value i =? v).
Proof. reflexivity. Qed.

Lemma py_eq_flag_left (f : named) (w : pyint) :
  py_eq (EnumFlagItem f) w = py_bool (Z.land (n_value f) (int_of w)).
Proof. destruct w; reflexivity. Qed.

Lemma py_eq_match_flag (raw : Z) (flags : list named) (f : named) :
  py_eq (FlagMatch raw flags) (EnumFlagItem f) = (raw =? n_value f).
Proof. reflexivity. Qed.

Lemma py_bool_true (n : Z) : py_bool n = true <-> n <> 0.
Proof.
  unfold py_bool. rewrite negb_true_iff, Z.eqb_neq. tauto.
Qed.

Lemma int_of_make_item (c : EnumClass) (kv : string * Z) :
  int_of (make_item c kv) = snd kv.
Proof. unfold make_item. destruct (item_cls c); reflexivity. Qed.

Lemma name_of_make_item (c : EnumClass) (kv : string * Z) :
  name_of (make_item c kv) = Some (cls_name c +s+ "." +s+ fst kv).
Proof. unfold make_item. destruct (item_cls c); reflexivity. Qed.

(** What the search of [from_value] finds in a plain enumeration: the
    first entry of the class body whose value is [v]. *)
Lemma find_vars_items (c : EnumClass) (v : Z) :
  item_cls c = cls_EnumItem ->
  find (fun item => py_eq item (Int v)) (vars_items c)
  = option_map (make_item c) (find (fun kv => snd kv =? v) (cls_body c)).
Proof.
  intros Hc. unfold vars_items.
  induction (cls_body c) as [|kv l IH]; simpl; [reflexivity|].
  assert (E : py_eq (make_item c kv) (Int v) = (snd kv =? v)).
  { unfold make_item. rewrite Hc. reflexivity. }
  rewrite E. destruct (snd kv =? v); [reflexivity | exact IH].
Qed.

Lemma from_value_int_of (c : EnumClass) (v : Z) (r : pyint) :
  from_value c v = Ok r -> int_of r = v.
Proof.
  unfold from_value. destruct (item_cls c) eqn:Hc.
  - rewrite (find_vars_items c v Hc).
    destruct (find _ (cls_body c)) as [kv|] eqn:Hf; simpl; [|discriminate].
    intros [= <-]. rewrite int_of_make_item.
    apply find_some in Hf. now apply Z.eqb_eq.
  - intros [= <-]. reflexivity.
Qed.

Lemma from_value_fallback_ok (c : EnumClass) (v : Z) :
  exists r, from_value_fallback c v = Ok r /\ int_of r = v.
Proof.
  unfold from_value_fallback.
  destruct (from_value c v) as [r|e] eqn:E.
  - exists r. split; [reflexivity|]. eapply from_value_int_of; eauto.
  - unfold from_value in E. destruct (item_cls c); [|discriminate].
    destruct (find _ _); [discriminate|]. injection E as <-.
    exists (Int v). split; reflexivity.
Qed.

Lemma from_value_fallback_int_of (c : EnumClass) (v : Z) (r : pyint) :
  from_value_fallback c v = Ok r -> int_of r = v.
Proof.
  intros H. destruct (from_value_fallback_ok c v) as (r' & E & Hv).
  congruence.
Qed.

(** The hexadecimal rendering in the message of [from_value] determines
    the value, for the values a field can hold. *)
Lemma format_x_inj (v w : Z) :
  0 <= v -> 0 <= w -> format_x v = format_x w -> v = w.
Proof.
  intros Hv Hw E.
  apply (f_equal (fun s => HexString.Raw.to_N s 0%N)) in E.
  destruct v as [|p|p], w as [|q|q]; try lia; simpl in E;
    rewrite ?HexString.Raw.to_N_of_pos in E; simpl in E;
    try discriminate; try reflexivity.
  now injection E as ->.
Qed.

(** C6.  Plain enumerations: when no entry of the class has the raw value,
    strict resolution raises the error whose message contains the value (in
    hexadecimal) and the name of the class, and fallback resolution returns
    the raw integer itself; when an entry has the value, both return the
    first such entry as a named item. *)
Theorem from_value_strict_and_fallback (c : EnumClass) (v : Z) :
  item_cls c = cls_EnumItem ->
  ((forall kv, In kv (cls_body c) -> snd kv <> v) ->
     from_value c v
       = Err (ValueError ("Item not found for 0x" +s+ format_x v
                          +s+ " in " +s+ cls_name c))
     /\ from_value_fallback c v = Ok (Int v)
     /\ int_of (Int v) = v)
  /\ ((exists kv, In kv (cls_body c) /\ snd kv = v) ->
      exists key,
        In (key, v) (cls_body c)
        /\ from_value c v
           = Ok (EnumItem (mkNamed v (cls_name c +s+ "." +s+ key)))
        /\ from_value_fallback c v = from_value c v).
Proof.
  intros Hc. unfold from_value_fallback, from_value. rewrite Hc.
  rewrite (find_vars_items c v Hc). split.
  - intros Hno.
    destruct (find _ (cls_body c)) as [kv|] eqn:Hf; simpl.
    + apply find_some in Hf. destruct Hf as [Hin Hv].
      apply Z.eqb_eq in Hv. now destruct (Hno kv Hin).
    + auto.
  - intros (kv & Hin & Hv).
    destruct (find _ (cls_body c)) as [[key w]|] eqn:Hf; simpl.
    + apply find_some in Hf. destruct Hf as [Hin' Hw].
      apply Z.eqb_eq in Hw. simpl in Hw. subst w.
      exists key. split; [exact Hin'|].
      unfold make_item. rewrite Hc. simpl. auto.
    + pose proof (find_none _ _ Hf kv Hin) as Hn.
      apply Z.eqb_neq in Hn. contradiction.
Qed.

Lemma from_value_strict_and_fallback_witness :
  (from_value (ET sample_data) 7
     = Err (ValueError "Item not found for 0x7 in ET")
   /\ from_value_fallback (ET sample_data) 7 = Ok (Int 7)
   /\ int_of (Int 7) = 7)
  /\ exists key,
       In (key, 3) (cls_body (ET sample_data))
       /\ from_value (ET sample_data) 3
          = Ok (EnumItem (mkNamed 3 ("ET" +s+ "." +s+ key)))
       /\ from_value_fallback (ET sample_data) 3 = from_value (ET sample_data) 3.
Proof.
  destruct (from_value_strict_and_fallback (ET sample_data) 7 eq_refl) as [H7 _].
  destruct (from_value_strict_and_fallback (ET sample_data) 3 eq_refl) as [_ H3].
  split.
  - apply H7. simpl. intros kv H.
    repeat (destruct H as [<- | H]; [simpl; lia|]). destruct H.
  - apply H3. exists ("DYN", 3). simpl. split; [tauto | reflexivity].
Defined.

(** C7 as the code has it.  Resolution of a flags field always succeeds
    with a flag-match carrying the raw value; comparing a known flag
    constant with it is true exactly when the bitwise AND of the flag and
    the raw value is not zero.  For a flag of a single bit that is bitwise
    containment. *)
Theorem flag_match_tests_intersection (c : EnumClass) (raw : Z) :
  item_cls c = cls_EnumFlagItem ->
  exists fm,
    from_value c raw = Ok fm /\ int_of fm = raw
    /\ _values fm
       = map (fun f => (n_name f, py_bool (Z.land (n_value f) raw))) (flag_items c)
    /\ forall f, In f (flag_items c) ->
         (py_eq (EnumFlagItem f) fm = true <-> Z.land (n_value f) raw <> 0)
         /\ (forall k, 0 <= k -> n_value f = 2 ^ k ->
               (py_eq (EnumFlagItem f) fm = true
                <-> Z.land (n_value f) raw = n_value f)).
Proof.
  intros Hc. exists (FlagMatch raw (flag_items c)).
  unfold from_value. rewrite Hc.
  split; [reflexivity|]. split; [reflexivity|]. split.
  - simpl. apply map_ext. intros f. now rewrite py_eq_flag_left.
  - intros f _. split.
    + rewrite py_eq_flag_left. apply py_bool_true.
    + intros k Hk Hf. rewrite py_eq_flag_left, py_bool_true. simpl.
      rewrite Hf. split.
      * intros Hnz. apply Z.bits_inj'. intros n Hn.
        rewrite Z.land_spec, Z.pow2_bits_eqb by lia.
        destruct (Z.eqb_spec k n) as [->|Hkn]; [|reflexivity].
        simpl. destruct (Z.testbit raw n) eqn:Hb; [reflexivity|].
        exfalso. apply Hnz. apply Z.bits_inj'. intros m Hm.
        rewrite Z.land_spec, Z.pow2_bits_eqb, Z.bits_0 by lia.
        destruct (Z.eqb_spec n m) as [->|]; [now rewrite Hb | reflexivity].
      * intros E. rewrite E.
        pose proof (Z.pow_pos_nonneg 2 k). lia.
Qed.

Lemma flag_match_tests_intersection_witness :
  exists fm,
    from_value (SHF sample_data) 6 = Ok fm /\ int_of fm = 6
    /\ _values fm
       = map (fun f => (n_name f, py_bool (Z.land (n_value f) 6)))
             (flag_items (SHF sample_data))
    /\ forall f, In f (flag_items (SHF sample_data)) ->
         (py_eq (EnumFlagItem f) fm = true <-> Z.land (n_value f) 6 <> 0)
         /\ (forall k, 0 <= k -> n_value f = 2 ^ k ->
               (py_eq (EnumFlagItem f) fm = true
                <-> Z.land (n_value f) 6 = n_value f)).
Proof. exact (flag_match_tests_intersection (SHF sample_data) 6 eq_refl). Defined.

(** C7 as stated fails: the section flag [MASKOS] has several bits; with a
    raw value that holds only one of them the comparison is true, yet the
    bits of the flag are not contained in the raw value. *)
Lemma flag_match_not_containment :
  exists f fm,
    In f (flag_items (SHF sample_data))
    /\ from_value (SHF sample_data) 1048576 = Ok fm
    /\ ~ (py_eq (EnumFlagItem f) fm = true
          <-> (n_value f <> 0 /\ Z.land (n_value f) (int_of fm) = n_value f)).
Proof.
  exists (mkNamed 267386880 "SHF.MASKOS").
  exists (FlagMatch 1048576 (flag_items (SHF sample_data))).
  split; [simpl; tauto|]. split; [reflexivity|].
  intros [H _]. specialize (H eq_refl). destruct H as [_ H].
  vm_compute in H. discriminate.
Qed.

Lemma py_hash_flag_item (f : named) :
  py_hash (EnumFlagItem f) = Err (TypeError "unhashable type: '_EnumFlagItem'").
Proof. reflexivity. Qed.

Lemma py_eq_flag_own_int (f : named) :
  py_eq (EnumFlagItem f) (Int (n_value f)) = py_bool (n_value f)
  /\ py_eq (Int (n_value f)) (EnumFlagItem f) = py_bool (n_value f).
Proof.
  split; unfold py_eq, eq_method, py_and; simpl; now rewrite Z.land_diag.
Qed.

(** C8 as the code has it.  Whatever symbolic resolution returns (a named
    item of a plain enumeration, or the flag-match of a flag enumeration)
    equals its underlying integer, in both orders, and hashes as that
    integer; a named item keeps the name [Class.key] of its entry.  The
    named flag constants that a flag-match carries keep name and integer,
    but their [==] is bitwise intersection, so such a constant equals its
    own integer only when it is not zero, and it has no hash. *)
Theorem resolved_values_behave_as_integers (c : EnumClass) (v : Z) (r : pyint) :
  from_value c v = Ok r ->
  int_of r = v
  /\ py_eq r (Int v) = true /\ py_eq (Int v) r = true
  /\ py_hash r = py_hash (Int v)
  /\ (item_cls c = cls_EnumItem ->
      exists key, In (key, v) (cls_body c)
                  /\ r = EnumItem (mkNamed v (cls_name c +s+ "." +s+ key)))
  /\ (item_cls c = cls_EnumFlagItem ->
      r = FlagMatch v (flag_items c)
      /\ forall f, In f (flag_items c) ->
           name_of (EnumFlagItem f) = Some (n_name f)
           /\ int_of (EnumFlagItem f) = n_value f
           /\ py_eq (EnumFlagItem f) (Int (n_value f)) = py_bool (n_value f)
           /\ py_eq (Int (n_value f)) (EnumFlagItem f) = py_bool (n_value f)
           /\ py_hash (EnumFlagItem f)
              = Err (TypeError "unhashable type: '_EnumFlagItem'")).
Proof.
  intros H. pose proof (from_value_int_of c v r H) as Hv.
  unfold from_value in H. destruct (item_cls c) eqn:Hc.
  - rewrite (find_vars_items c v Hc) in H.
    destruct (find _ (cls_body c)) as [[key w]|] eqn:Hf; simpl in H; [|discriminate].
    injection H as <-. apply find_some in Hf. destruct Hf as [Hin Hw].
    apply Z.eqb_eq in Hw. simpl in Hw. subst w.
    unfold make_item in *. rewrite Hc in *. simpl.
    unfold py_eq, py_hash. simpl. rewrite Z.eqb_refl.
    repeat split; try discriminate.
    intros _. exists key. split; [exact Hin | reflexivity].
  - injection H as <-. unfold py_eq, py_hash. simpl. rewrite Z.eqb_refl.
    repeat split; try discriminate; try apply py_eq_flag_own_int.
Qed.

Lemma resolved_values_behave_as_integers_witness :
  int_of (EnumItem (mkNamed 62 "EM.X86_64")) = 62
  /\ py_eq (EnumItem (mkNamed 62 "EM.X86_64")) (Int 62) = true
  /\ py_eq (Int 62) (EnumItem (mkNamed 62 "EM.X86_64")) = true
  /\ py_hash (EnumItem (mkNamed 62 "EM.X86_64")) = py_hash (Int 62).
Proof.
  pose proof (resolved_values_behave_as_integers (EM sample_data) 62
                (EnumItem (mkNamed 62 "EM.X86_64")) eq_refl) as H.
  tauto.
Defined.

(** C8 as stated fails for the named flag constants: the flag [SHF.WRITE]
    has no hash, and a flag constant of value zero does not equal its own
    integer. *)
Lemma flag_constant_not_an_integer :
  (exists item,
      getattr (SHF sample_data) "WRITE" = Ok item
      /\ name_of item = Some "SHF.WRITE"
      /\ py_hash item <> py_hash (Int (int_of item)))
  /\ py_eq (make_item (mkEnum "PF" cls_EnumFlagItem [("NONE", 0)]) ("NONE", 0))
           (Int 0) = false.
Proof.
  split; [|reflexivity].
  exists (EnumFlagItem (mkNamed 1 "SHF.WRITE")).
  split; [reflexivity|]. split; [reflexivity|]. discriminate.
Qed.

(** C10.  With the named flag constant on the left, [==] is the bitwise
    intersection with the right operand; with the flag-match on the left
    it is equality of the integers.  For the raw value 3 and the flag
    [SHF.WRITE] the two orders disagree. *)
Theorem flag_equality_not_symmetric :
  (forall (f : named) (raw : Z) (flags : list named),
      py_eq (EnumFlagItem f) (FlagMatch raw flags)
        = negb (Z.land (n_value f) raw =? 0)
      /\ py_eq (FlagMatch raw flags) (EnumFlagItem f) = (raw =? n_value f))
  /\ exists flag fm,
       getattr (SHF sample_data) "WRITE" = Ok flag
       /\ from_value (SHF sample_data) 3 = Ok fm
       /\ py_eq flag fm = true
       /\ py_eq fm flag = false.
Proof.
  split.
  - intros f raw flags. split; reflexivity.
  - exists (EnumFlagItem (mkNamed 1 "SHF.WRITE")).
    exists (FlagMatch 3 (flag_items (SHF sample_data))).
    repeat split.
Qed.

(** ** Byte order *)

(** C3.  The [endianess] property answers ["<"] for the little-endian
    encoding and raises for every other encoding: its second test repeats
    the first, so it never answers [">"].  An identification block that
    declares [ELFDATA.MSB] is decoded, and asking its byte order raises
    [ValueError]. *)
Theorem endianess_never_big_endian :
  (forall (D : Data) (ident : e_ident), endianess D ident <> Ok ">")
  /\ (forall (D : Data) (ident : e_ident) (lsb : pyint),
        getattr (ELFDATA D) "LSB" = Ok lsb ->
        endianess D ident
        = if py_eq (data_encoding ident) lsb then Ok "<"
          else Err (ValueError ("Unkown endianess: "
                                +s+ py_repr (data_encoding ident))))
  /\ exists ident,
       e_ident_from_fd sample_data LittleEndian
         (ELFMAG ++ [x02; x02; x01; x00; x00] ++ zeros 7) = Ok (ident, [])
       /\ getattr (ELFDATA sample_data) "MSB" = Ok (data_encoding ident)
       /\ endianess sample_data ident
          = Err (ValueError "Unkown endianess: <ELFDATA.MSB: 2>").
Proof.
  split; [|split].
  - intros D ident. unfold endianess.
    destruct (getattr (ELFDATA D) "LSB") as [lsb|e]; simpl; [|discriminate].
    destruct (py_eq (data_encoding ident) lsb); discriminate.
  - intros D ident lsb H. unfold endianess. rewrite H. simpl.
    destruct (py_eq (data_encoding ident) lsb); reflexivity.
  - eexists. split; [vm_compute; reflexivity|]. split; reflexivity.
Qed.

(** C4 on the code.  The format of a program header has no byte-order
    character, so [struct] decodes it in the byte order of the host
    whatever the identification block declares, while the format of a
    section header starts with the declared order.  On a big-endian host,
    with a block that declares little-endian, the bytes [01 00 00 00] of
    [p_type] decode to 16777216 and the same bytes of [sh_name] to 1. *)
Theorem program_header_decoded_in_host_order :
  (forall (D : Data) (host : byteorder) (ident : e_ident) (fmt : string),
      ELFProgramHeader_format D ident = Ok fmt ->
      exists sizes, parse_format host fmt = Ok (mkLayout host true sizes))
  /\ exists ident,
       e_ident_from_fd sample_data BigEndian
         (ELFMAG ++ [x02; x01; x01; x00; x00] ++ zeros 7) = Ok (ident, [])
       /\ endianess sample_data ident = Ok "<"
       /\ (exists ph,
             ELFProgramHeader_from_bytes sample_data BigEndian
               ([x01; x00; x00; x00] ++ zeros 52) ident = Ok ph
             /\ p_type ph = 16777216)
       /\ (exists sh,
             ELFSectionHeader_from_bytes sample_data BigEndian
               ([x01; x00; x00; x00] ++ zeros 60) ident = Ok sh
             /\ sh_name sh = 1).
Proof.
  split.
  - intros D host ident fmt. unfold ELFProgramHeader_format.
    destruct (getattr (ELFCLASS D) "_32"); simpl; [|discriminate].
    destruct (py_eq _ _).
    + intros [= <-]. eexists. reflexivity.
    + destruct (getattr (ELFCLASS D) "_64"); simpl; [|discriminate].
      destruct (py_eq _ _); [|discriminate].
      intros [= <-]. eexists. reflexivity.
  - eexists. split; [vm_compute; reflexivity|]. split; [reflexivity|].
    split; eexists; (split; [vm_compute; reflexivity | reflexivity]).
Qed.

(** ** The [struct] codec *)

Lemma byte_to_Z_range (b : byte) : 0 <= byte_to_Z b < 256.
Proof.
  unfold byte_to_Z. pose proof (Byte.to_N_bounded b). lia.
Qed.

Lemma byte_of_to_Z (b : byte) : byte_of_Z (byte_to_Z b) = b.
Proof.
  unfold byte_of_Z. pose proof (byte_to_Z_range b) as R.
  rewrite Z.mod_small by exact R.
  unfold byte_to_Z. rewrite N2Z.id, Byte.of_to_N. reflexivity.
Qed.

Lemma decode_le_range (bs : list byte) :
  0 <= decode_le bs < 256 ^ Z.of_nat (List.length bs).
Proof.
  induction bs as [|b bs IH].
  - simpl. lia.
  - cbn [decode_le List.length]. rewrite Nat2Z.inj_succ, Z.pow_succ_r by lia.
    pose proof (byte_to_Z_range b). lia.
Qed.

Lemma encode_decode_le (bs : list byte) :
  encode_le (List.length bs) (decode_le bs) = bs.
Proof.
  induction bs as [|b bs IH]; [reflexivity|].
  cbn [decode_le List.length encode_le].
  pose proof (byte_to_Z_range b) as R.
  assert (Hm : (byte_to_Z b + 256 * decode_le bs) mod 256 = byte_to_Z b).
  { rewrite (Z.mul_comm 256), Z.mod_add by lia. now apply Z.mod_small. }
  assert (Hd : (byte_to_Z b + 256 * decode_le bs) / 256 = decode_le bs).
  { rewrite (Z.mul_comm 256), Z.div_add by lia.
    rewrite Z.div_small by exact R. lia. }
  rewrite Hd, IH. f_equal.
  unfold byte_of_Z. rewrite Hm. unfold byte_to_Z.
  rewrite N2Z.id, Byte.of_to_N. reflexivity.
Qed.

Lemma decode_uint_range (o : byteorder) (bs : list byte) :
  0 <= decode_uint o bs < 256 ^ Z.of_nat (List.length bs).
Proof.
  destruct o; simpl.
  - apply decode_le_range.
  - rewrite <- length_rev. apply decode_le_range.
Qed.

Lemma encode_decode_uint (o : byteorder) (bs : list byte) :
  encode_uint o (List.length bs) (decode_uint o bs) = bs.
Proof.
  destruct o; simpl.
  - apply encode_decode_le.
  - rewrite <- length_rev, encode_decode_le. apply rev_involutive.
Qed.

(** Packing what was unpacked gives the buffer back, for a layout
    without padding bytes. *)
Lemma pack_unpack_fields (o : byteorder) (al : bool) (sizes : list nat) :
  (forall pos n, In n sizes -> padding al pos n = 0%nat) ->
  forall (pos : nat) (bs : list byte),
    List.length bs = (layout_end al pos sizes - pos)%nat ->
    (pos <= layout_end al pos sizes)%nat ->
    pack_fields o al pos sizes (unpack_fields o al pos sizes bs) = Ok bs.
Proof.
  intros Hpad. induction sizes as [|n sizes IH]; intros pos bs Hlen Hle.
  - simpl in *. destruct bs; [reflexivity|]. simpl in Hlen. lia.
  - cbn [unpack_fields pack_fields layout_end] in *.
    rewrite (Hpad pos n) in * by (left; reflexivity).
    rewrite Nat.add_0_r in *. cbn [skipn repeat app].
    assert (Hmono : forall p l, (p <= layout_end al p l)%nat).
    { intros p l. revert p. induction l as [|m l IHl]; intros p; simpl; [lia|].
      specialize (IHl (p + padding al p m + m)%nat). lia. }
    pose proof (Hmono (pos + n)%nat sizes) as Hm.
    assert (Hn : List.length (firstn n bs) = n) by (rewrite length_firstn; lia).
    pose proof (decode_uint_range o (firstn n bs)) as R. rewrite Hn in R.
    replace ((0 <=? decode_uint o (firstn n bs))
             && (decode_uint o (firstn n bs) <? 256 ^ Z.of_nat n)) with true
      by (symmetry; apply andb_true_iff; split; [apply Z.leb_le | apply Z.ltb_lt]; lia).
    rewrite IH.
    + simpl. rewrite <- Hn at 1. rewrite encode_decode_uint.
      now rewrite firstn_skipn.
    + intros p m Hin. apply Hpad. now right.
    + rewrite length_skipn. lia.
    + lia.
Qed.

Lemma length_unpack_fields (o : byteorder) (al : bool) (sizes : list nat) :
  forall pos bs, List.length (unpack_fields o al pos sizes bs) = List.length sizes.
Proof.
  induction sizes as [|n sizes IH]; intros pos bs; simpl; [reflexivity|].
  now rewrite IH.
Qed.

(** ** Reading from a file *)

Lemma read_app (n : Z) (fd : file) (a : list byte) (b : file) :
  read n fd = (a, b) -> fd = a ++ b.
Proof.
  unfold read. destruct (n <? 0); intros [= <- <-].
  - now rewrite app_nil_r.
  - now rewrite firstn_skipn.
Qed.

Lemma read_app_exact (bs rest : list byte) :
  read (Z.of_nat (List.length bs)) (bs ++ rest) = (bs, rest).
Proof.
  unfold read. destruct (Z.ltb_spec (Z.of_nat (List.length bs)) 0); [lia|].
  rewrite Nat2Z.id, firstn_app, skipn_app, Nat.sub_diag, firstn_all, skipn_all.
  simpl. now rewrite app_nil_r.
Qed.

Lemma _unpack_inv (host : byteorder) (fmt : string) (fd fd' : file) (vals : list Z) :
  _unpack host fmt fd = Ok (vals, fd') ->
  exists l bs,
    parse_format host fmt = Ok l
    /\ fd = bs ++ fd' /\ bs <> []
    /\ List.length bs = layout_end (l_align l) 0 (l_sizes l)
    /\ vals = unpack_fields (l_order l) (l_align l) 0 (l_sizes l) bs.
Proof.
  unfold _unpack, struct.calcsize, struct.unpack.
  destruct (parse_format host fmt) as [l|e] eqn:Hl; simpl; [|discriminate].
  destruct (read _ fd) as [bs rest] eqn:Hr.
  pose proof (read_app _ _ _ _ Hr) as Hfd.
  destruct bs as [|b bs]; [discriminate|].
  destruct (Nat.eqb_spec (List.length (b :: bs))
              (layout_end (l_align l) 0 (l_sizes l))) as [Hlen|]; simpl; [|discriminate].
  intros [= <- <-]. exists l, (b :: bs). repeat split; auto. discriminate.
Qed.

Lemma _unpack_app (host : byteorder) (fmt : string) (l : layout)
    (bs rest : list byte) :
  parse_format host fmt = Ok l ->
  List.length bs = layout_end (l_align l) 0 (l_sizes l) ->
  bs <> [] ->
  _unpack host fmt (bs ++ rest)
  = Ok (unpack_fields (l_order l) (l_align l) 0 (l_sizes l) bs, rest).
Proof.
  intros Hl Hlen Hne. unfold _unpack, struct.calcsize, struct.unpack.
  rewrite Hl. simpl. rewrite <- Hlen, read_app_exact.
  destruct bs as [|b bs]; [contradiction|].
  rewrite Nat.eqb_refl. reflexivity.
Qed.

(** ** Class and formats *)

Section Formats.

Variable D : Data.
Variable host : byteorder.

Lemma native_class_of (ident : e_ident) :
  native D ident
  = (c <- class_of D ident ;;
     Ok (match c with Class32 => "I" | Class64 => "Q" end)).
Proof.
  unfold native, class_of.
  destruct (getattr (ELFCLASS D) "_32"); simpl; [|reflexivity].
  destruct (py_eq _ _); [reflexivity|].
  destruct (getattr (ELFCLASS D) "_64"); simpl; [|reflexivity].
  destruct (py_eq _ _); reflexivity.
Qed.

Lemma ELFHeader_len_class_of (h : ELFHeader) :
  ELFHeader_len D h = (c <- class_of D (h_e_ident h) ;; Ok (header_size c)).
Proof.
  unfold ELFHeader_len, class_of.
  destruct (getattr (ELFCLASS D) "_32"); simpl; [|reflexivity].
  destruct (py_eq _ _); [reflexivity|].
  destruct (getattr (ELFCLASS D) "_64"); simpl; [|reflexivity].
  destruct (py_eq _ _); reflexivity.
Qed.

Lemma ELFProgramHeader_format_class_of (ident : e_ident) :
  ELFProgramHeader_format D ident
  = (c <- class_of D ident ;;
     Ok (match c with Class32 => "IIIIIIII" | Class64 => "IIQQQQQQ" end)).
Proof.
  unfold ELFProgramHeader_format, class_of.
  destruct (getattr (ELFCLASS D) "_32"); simpl; [|reflexivity].
  destruct (py_eq _ _); [reflexivity|].
  destruct (getattr (ELFCLASS D) "_64"); simpl; [|reflexivity].
  destruct (py_eq _ _); reflexivity.
Qed.

Lemma endianess_ok (ident : e_ident) (e : string) :
  endianess D ident = Ok e -> e = "<".
Proof.
  unfold endianess.
  destruct (getattr (ELFDATA D) "LSB") as [lsb|]; simpl; [|discriminate].
  destruct (py_eq _ lsb); [congruence | discriminate].
Qed.

Lemma ELFHeader_format_inv (ident : e_ident) (fmt : string) :
  ELFHeader_format D ident = Ok fmt ->
  exists c, endianess D ident = Ok "<" /\ class_of D ident = Ok c
            /\ fmt = header_format c.
Proof.
  unfold ELFHeader_format. rewrite native_class_of.
  destruct (endianess D ident) as [e|] eqn:He; simpl; [|discriminate].
  apply endianess_ok in He. subst e.
  destruct (class_of D ident) as [c|]; simpl; [|discriminate].
  intros [= <-]. exists c. destruct c; auto.
Qed.

Lemma ELFHeader_format_of_class (ident : e_ident) (c : elf_class) :
  endianess D ident = Ok "<" -> class_of D ident = Ok c ->
  ELFHeader_format D ident = Ok (header_format c).
Proof.
  intros He Hc. unfold ELFHeader_format. rewrite native_class_of, He, Hc.
  destruct c; reflexivity.
Qed.

Lemma ELFSectionHeader_format_of_class (ident : e_ident) (c : elf_class) :
  endianess D ident = Ok "<" -> class_of D ident = Ok c ->
  ELFSectionHeader_format D ident = Ok (section_format c).
Proof.
  intros He Hc. unfold ELFSectionHeader_format.
  rewrite native_class_of, He, Hc. destruct c; reflexivity.
Qed.

Lemma ELFSectionHeader_size_of_class (ident : e_ident) (c : elf_class) :
  endianess D ident = Ok "<" -> class_of D ident = Ok c ->
  ELFSectionHeader_size D host ident = Ok (section_entry_size c).
Proof.
  intros He Hc. unfold ELFSectionHeader_size, size. simpl.
  rewrite (ELFSectionHeader_format_of_class ident c He Hc).
  destruct c; reflexivity.
Qed.

Lemma ELFProgramHeader_size_of_class (ident : e_ident) (c : elf_class) :
  class_of D ident = Ok c ->
  ELFProgramHeader_size D host ident = Ok (program_entry_size c).
Proof.
  intros Hc. unfold ELFProgramHeader_size, size. simpl.
  rewrite ELFProgramHeader_format_class_of, Hc.
  destruct c; reflexivity.
Qed.

End Formats.

(** ** The file header *)

Section Header.

Variable D : Data.
Variable host : byteorder.

(** A header that the constructor accepts: its fields are the decoded
    integers and its two size fields are the sizes of its class. *)
Lemma ELFHeader_init_inv (ident : e_ident) (args : list Z) (h : ELFHeader) :
  ELFHeader_init D host ident args = Ok h ->
  exists c,
    class_of D ident = Ok c /\ endianess D ident = Ok "<"
    /\ h_e_ident h = ident /\ args = header_fields h
    /\ e_ehsize h = header_size c
    /\ e_shentsize h = section_entry_size c.
Proof.
  unfold ELFHeader_init.
  do 14 (destruct args as [|? args]; try discriminate).
  destruct (from_value (ET D) z) as [t|] eqn:Ht; simpl; [|discriminate].
  destruct (from_value (EM D) z0) as [m|] eqn:Hm; simpl; [|discriminate].
  destruct (from_value_fallback (EV D) z1) as [v|] eqn:Hv; simpl; [|discriminate].
  rewrite ELFHeader_len_class_of. simpl.
  destruct (class_of D ident) as [c|] eqn:Hc; simpl; [|discriminate].
  destruct (Z.eqb_spec z6 (header_size c)) as [E1|]; simpl; [|discriminate].
  destruct (ELFSectionHeader_size D host ident) as [s|] eqn:Hsz; simpl; [|discriminate].
  assert (He : endianess D ident = Ok "<").
  { unfold ELFSectionHeader_size, size in Hsz. simpl in Hsz.
    unfold ELFSectionHeader_format in Hsz.
    destruct (endianess D ident) as [e|] eqn:He; [|discriminate].
    now rewrite (endianess_ok D ident e He). }
  rewrite (ELFSectionHeader_size_of_class D host ident c He Hc) in Hsz.
  injection Hsz as <-.
  destruct (Z.eqb_spec z9 (section_entry_size c)) as [E2|]; simpl; [|discriminate].
  intros [= <-]. exists c. unfold header_fields. simpl.
  rewrite (from_value_int_of _ _ _ Ht), (from_value_int_of _ _ _ Hm),
    (from_value_fallback_int_of _ _ _ Hv).
  auto 10.
Qed.

Lemma ELFHeader_from_fd_inv (fd rest : file) (h : ELFHeader) :
  ELFHeader_from_fd D host fd = Ok (h, rest) ->
  exists ident fd1 fmt args,
    e_ident_from_fd D host fd = Ok (ident, fd1)
    /\ ELFHeader_format D ident = Ok fmt
    /\ _unpack host fmt fd1 = Ok (args, rest)
    /\ ELFHeader_init D host ident args = Ok h.
Proof.
  unfold ELFHeader_from_fd.
  destruct (e_ident_from_fd D host fd) as [[ident fd1]|] eqn:H1; simpl; [|discriminate].
  destruct (ELFHeader_format D ident) as [fmt|] eqn:H2; simpl; [|discriminate].
  destruct (_unpack host fmt fd1) as [[args fd2]|] eqn:H3; simpl; [|discriminate].
  destruct (ELFHeader_init D host ident args) as [h'|] eqn:Hi; simpl; [|discriminate].
  intros [= <- <-]. exists ident, fd1, fmt, args. auto.
Qed.

Lemma ELFHeader_init_wrong_ehsize (ident : e_ident) (c : elf_class)
    (ty ma ve en po so fl eh pe pn se sn sx : Z) :
  class_of D ident = Ok c ->
  is_ok (from_value (ET D) ty) = true ->
  is_ok (from_value (EM D) ma) = true ->
  eh <> header_size c ->
  ELFHeader_init D host ident [ty; ma; ve; en; po; so; fl; eh; pe; pn; se; sn; sx]
  = Err (ELFException
           ("Invalid e_ehsize, got `" +s+ str_int eh
            +s+ "` but was expecting `" +s+ str_int (header_size c) +s+ "`")).
Proof.
  intros Hc Ht Hm Hne. unfold ELFHeader_init.
  destruct (from_value (ET D) ty) as [t|]; [|discriminate].
  destruct (from_value (EM D) ma) as [m|]; [|discriminate]. simpl.
  destruct (from_value_fallback_ok (EV D) ve) as (v & Hv & _). rewrite Hv. simpl.
  rewrite !ELFHeader_len_class_of. simpl. rewrite Hc. simpl.
  apply Z.eqb_neq in Hne. rewrite Hne. reflexivity.
Qed.

Lemma ELFHeader_init_wrong_shentsize (ident : e_ident) (c : elf_class)
    (ty ma ve en po so fl eh pe pn se sn sx : Z) :
  class_of D ident = Ok c ->
  endianess D ident = Ok "<" ->
  is_ok (from_value (ET D) ty) = true ->
  is_ok (from_value (EM D) ma) = true ->
  eh = header_size c ->
  se <> section_entry_size c ->
  ELFHeader_init D host ident [ty; ma; ve; en; po; so; fl; eh; pe; pn; se; sn; sx]
  = Err (ELFException
           ("Invalid e_shentsize, got `" +s+ str_int se
            +s+ "` but was expecting `"
            +s+ str_int (section_entry_size c) +s+ "`")).
Proof.
  intros Hc He Ht Hm -> Hne. unfold ELFHeader_init.
  destruct (from_value (ET D) ty) as [t|]; [|discriminate].
  destruct (from_value (EM D) ma) as [m|]; [|discriminate]. simpl.
  destruct (from_value_fallback_ok (EV D) ve) as (v & Hv & _). rewrite Hv. simpl.
  rewrite !ELFHeader_len_class_of. simpl. rewrite Hc. simpl.
  rewrite Z.eqb_refl. simpl.
  rewrite (ELFSectionHeader_size_of_class D host ident c He Hc). simpl.
  apply Z.eqb_neq in Hne. rewrite Hne. reflexivity.
Qed.

Lemma ELFHeader_init_unknown_type (ident : e_ident)
    (ty ma ve en po so fl eh pe pn se sn sx : Z) (e : exn) :
  from_value (ET D) ty = Err e ->
  ELFHeader_init D host ident [ty; ma; ve; en; po; so; fl; eh; pe; pn; se; sn; sx]
  = Err e.
Proof. intros Ht. unfold ELFHeader_init. rewrite Ht. reflexivity. Qed.

Lemma ELFHeader_init_unknown_machine (ident : e_ident)
    (ty ma ve en po so fl eh pe pn se sn sx : Z) (e : exn) :
  is_ok (from_value (ET D) ty) = true ->
  from_value (EM D) ma = Err e ->
  ELFHeader_init D host ident [ty; ma; ve; en; po; so; fl; eh; pe; pn; se; sn; sx]
  = Err e.
Proof.
  intros Ht Hm. unfold ELFHeader_init.
  destruct (from_value (ET D) ty) as [t|]; [|discriminate].
  rewrite Hm. reflexivity.
Qed.

End Header.

(** ** Slices and tables of records *)

Lemma in_range (count i : Z) : In i (range count) <-> 0 <= i < count.
Proof.
  unfold range. rewrite in_map_iff. split.
  - intros (n & <- & Hin). apply in_seq in Hin. lia.
  - intros Hi. exists (Z.to_nat i). split; [lia|]. apply in_seq. lia.
Qed.

Lemma slice_index_bounds (len i : Z) : 0 <= len -> 0 <= slice_index len i <= len.
Proof. unfold slice_index. destruct (i <? 0) eqn:E; lia. Qed.

Lemma py_slice_length {A : Type} (l : list A) (a b : Z) :
  Z.of_nat (List.length (py_slice l a b))
  = Z.max 0 (slice_index (Z.of_nat (List.length l)) b
             - slice_index (Z.of_nat (List.length l)) a).
Proof.
  unfold py_slice.
  pose proof (slice_index_bounds (Z.of_nat (List.length l)) a ltac:(lia)).
  pose proof (slice_index_bounds (Z.of_nat (List.length l)) b ltac:(lia)).
  rewrite length_firstn, length_skipn. lia.
Qed.

(** The slice of entry [i] in a buffer of [len] bytes, for entries of [s]
    bytes. *)
Lemma entry_slice_length {A : Type} (l : list A) (s i : Z) :
  0 < s -> 0 <= i ->
  Z.of_nat (List.length (py_slice l (i * s) ((i + 1) * s)))
  = Z.max 0 (Z.min ((i + 1) * s) (Z.of_nat (List.length l))
             - Z.min (i * s) (Z.of_nat (List.length l))).
Proof.
  intros Hs Hi. rewrite py_slice_length. unfold slice_index.
  destruct (Z.ltb_spec ((i + 1) * s) 0); [nia|].
  destruct (Z.ltb_spec (i * s) 0); [nia|]. reflexivity.
Qed.

Lemma mapM_not_ok {A B : Type} (f : A -> result B) (l : list A) (x : A) :
  In x l -> is_ok (f x) = false -> is_ok (mapM f l) = false.
Proof.
  induction l as [|a l IH]; simpl; [tauto|].
  intros [->|Hin] Hx.
  - destruct (f x); [discriminate | reflexivity].
  - destruct (f a); [|reflexivity]. simpl.
    specialize (IH Hin Hx). destruct (mapM f l); [discriminate | reflexivity].
Qed.

Lemma mapM_first_error {A B : Type} (f : A -> result B) (l : list A) (x : A) (e : exn) :
  (forall y, In y l -> is_ok (f y) = true \/ f y = Err e) ->
  In x l -> f x = Err e -> mapM f l = Err e.
Proof.
  induction l as [|a l IH]; simpl; [tauto|].
  intros Hall Hin Hx.
  destruct (Hall a (or_introl eq_refl)) as [Hok|Herr].
  - destruct (f a) as [b|] eqn:Ha; [|discriminate]. simpl.
    destruct Hin as [->|Hin]; [congruence|].
    rewrite (IH (fun y Hy => Hall y (or_intror Hy)) Hin Hx). reflexivity.
  - rewrite Herr. reflexivity.
Qed.

Lemma mapM_length {A B : Type} (f : A -> result B) (l : list A) (r : list B) :
  mapM f l = Ok r -> List.length r = List.length l.
Proof.
  revert r. induction l as [|a l IH]; simpl; intros r.
  - intros [= <-]. reflexivity.
  - destruct (f a); simpl; [|discriminate].
    destruct (mapM f l) as [bs|]; simpl; [|discriminate].
    intros [= <-]. simpl. now rewrite (IH bs eq_refl).
Qed.

Section Tables.

Variable host : byteorder.
Context {T : Type} `{DeriveSerialization T}.

Lemma from_bytes_eval (bs : list byte) (ident : e_ident) (fmt : string) (l : layout) :
  _format ident = Ok fmt -> parse_format host fmt = Ok l ->
  from_bytes host bs ident
  = if Nat.eqb (List.length bs) (layout_end (l_align l) 0 (l_sizes l))
    then init ident (unpack_fields (l_order l) (l_align l) 0 (l_sizes l) bs)
    else Err StructError.
Proof.
  intros Hf Hl. unfold from_bytes, struct.unpack. rewrite Hf. simpl.
  rewrite Hl. simpl. destruct (Nat.eqb _ _); reflexivity.
Qed.

(** A buffer with fewer bytes than [count] records makes the table
    decode fail: the slice of some entry is short and [struct.unpack]
    refuses it.  The error is that of [struct] when the constructor
    cannot fail. *)
Lemma multiple_from_bytes_short (bs : list byte) (count : Z) (ident : e_ident)
    (fmt : string) (l : layout) :
  _format ident = Ok fmt -> parse_format host fmt = Ok l ->
  (0 < layout_end (l_align l) 0 (l_sizes l))%nat ->
  Z.of_nat (List.length bs)
    < count * Z.of_nat (layout_end (l_align l) 0 (l_sizes l)) ->
  is_ok (multiple_from_bytes host bs count ident) = false
  /\ ((forall vals, List.length vals = List.length (l_sizes l) ->
                    is_ok (init ident vals) = true) ->
      multiple_from_bytes host bs count ident = Err StructError).
Proof.
  intros Hf Hl Hpos Hshort.
  set (s := Z.of_nat (layout_end (l_align l) 0 (l_sizes l))) in *.
  assert (Hs : 0 < s) by (unfold s; lia).
  unfold multiple_from_bytes, size, struct.calcsize. rewrite Hf. simpl.
  rewrite Hl. simpl. fold s.
  set (i := Z.of_nat (List.length bs) / s).
  assert (Hi : 0 <= i) by (apply Z.div_pos; lia).
  assert (Hilo : i * s <= Z.of_nat (List.length bs))
    by (unfold i; rewrite Z.mul_comm; apply Z.mul_div_le; lia).
  assert (Hihi : Z.of_nat (List.length bs) < (i + 1) * s).
  { unfold i. pose proof (Z.mod_pos_bound (Z.of_nat (List.length bs)) s Hs).
    pose proof (Z.div_mod (Z.of_nat (List.length bs)) s ltac:(lia)). lia. }
  assert (Hin : In i (range count)) by (apply in_range; nia).
  assert (Herr : from_bytes host (py_slice bs (i * s) ((i + 1) * s)) ident
                 = Err StructError).
  { rewrite (from_bytes_eval _ ident fmt l Hf Hl).
    destruct (Nat.eqb_spec (List.length (py_slice bs (i * s) ((i + 1) * s)))
                (layout_end (l_align l) 0 (l_sizes l))) as [E|]; [|reflexivity].
    exfalso. apply (f_equal Z.of_nat) in E. fold s in E.
    rewrite entry_slice_length in E by lia. lia. }
  split.
  - eapply mapM_not_ok; [exact Hin|]. now rewrite Herr.
  - intros Hinit. eapply mapM_first_error; [|exact Hin|exact Herr].
    intros j _. rewrite (from_bytes_eval _ ident fmt l Hf Hl).
    destruct (Nat.eqb _ _); [left|right; reflexivity].
    apply Hinit. apply length_unpack_fields.
Qed.

End Tables.

(** ** The container *)

Section Container.

Variable D : Data.
Variable host : byteorder.

Lemma section_layout (c : elf_class) :
  exists sizes,
    parse_format host (section_format c) = Ok (mkLayout LittleEndian false sizes)
    /\ List.length sizes = 10%nat
    /\ Z.of_nat (layout_end false 0 sizes) = section_entry_size c.
Proof. destruct c; eexists; repeat split. Qed.

Lemma program_layout (c : elf_class) :
  exists sizes,
    parse_format host (program_format c) = Ok (mkLayout host true sizes)
    /\ List.length sizes = 8%nat
    /\ Z.of_nat (layout_end true 0 sizes) = program_entry_size c.
Proof. destruct c; eexists; repeat split. Qed.

Lemma ELFSectionHeader_init_ok (ident : e_ident) (vals : list Z) :
  item_cls (SHF D) = cls_EnumFlagItem ->
  List.length vals = 10%nat ->
  is_ok (ELFSectionHeader_init D ident vals) = true.
Proof.
  intros Hflag Hlen. unfold ELFSectionHeader_init.
  do 11 (destruct vals as [|? vals]; try discriminate).
  destruct (from_value_fallback_ok (SHT D) z0) as (t & Ht & _). rewrite Ht.
  simpl. unfold from_value. rewrite Hflag. reflexivity.
Qed.

Lemma ELFProgramHeader_init_ok (ident : e_ident) (c : elf_class) (vals : list Z) :
  class_of D ident = Ok c ->
  List.length vals = 8%nat ->
  is_ok (ELFProgramHeader_init D ident vals) = true.
Proof.
  intros Hc Hlen. unfold ELFProgramHeader_init. rewrite Hlen. simpl.
  unfold class_of in Hc.
  destruct (getattr (ELFCLASS D) "_32") as [c32|]; simpl in *; [|discriminate].
  do 9 (destruct vals as [|? vals]; try discriminate).
  destruct (py_eq (file_class ident) c32); [reflexivity|].
  destruct (getattr (ELFCLASS D) "_64") as [c64|]; simpl in *; [|discriminate].
  destruct (py_eq (file_class ident) c64); [reflexivity | discriminate].
Qed.

(** The container decode once the header is read. *)
Lemma ELF_from_fd_eval (fd body : file) (h : ELFHeader) (c : elf_class) :
  ELFHeader_from_fd D host fd = Ok (h, body) -> body <> [] ->
  class_of D (h_e_ident h) = Ok c ->
  ELF_from_fd D host fd
  = (shdrs <- ELFSectionHeader_multiple_from_bytes D host
                (py_slice body (e_shoff h - header_size c)
                   (e_shoff h - header_size c + e_shentsize h * e_shnum h))
                (e_shnum h) (h_e_ident h) ;;
     phdrs <- ELFProgramHeader_multiple_from_bytes D host
                (py_slice body (e_phoff h - header_size c)
                   (e_phoff h - header_size c + e_phentsize h * e_phnum h))
                (e_phnum h) (h_e_ident h) ;;
     Ok (mkELF h shdrs phdrs body)).
Proof.
  intros Hh Hne Hc. unfold ELF_from_fd. rewrite Hh. simpl.
  destruct body as [|b body]; [contradiction|].
  rewrite !ELFHeader_len_class_of, Hc. reflexivity.
Qed.

(** C9 as the code has it.  The code has no range check of its own: each
    table is cut from the body with a slice, which Python clamps to the
    body, and an entry whose slice is short makes [struct.unpack] raise.
    So, once the header is decoded and the body is not empty: when the
    slice of the section table has fewer bytes than its entries need the
    parse fails, with [struct.error] when the section flags are a flag
    enumeration; this is the case whenever the table has an entry, starts
    at or after the start of the body and ends beyond its end.  When the
    section table decodes and the slice of the program table has fewer
    bytes than its entries need, the parse fails with [struct.error];
    this is the case whenever [e_phentsize] is the size of a program
    header and the table has an entry, starts at or after the start of
    the body and ends beyond its end. *)
Theorem short_table_fails (fd body : file) (h : ELFHeader) :
  ELFHeader_from_fd D host fd = Ok (h, body) -> body <> [] ->
  exists c,
    class_of D (h_e_ident h) = Ok c
    /\ let soff := e_shoff h - header_size c in
       let sdata := py_slice body soff (soff + e_shentsize h * e_shnum h) in
       let poff := e_phoff h - header_size c in
       let pdata := py_slice body poff (poff + e_phentsize h * e_phnum h) in
       (Z.of_nat (List.length sdata) < e_shnum h * section_entry_size c ->
        is_ok (ELF_from_fd D host fd) = false
        /\ (item_cls (SHF D) = cls_EnumFlagItem ->
            ELF_from_fd D host fd = Err StructError))
       /\ (0 <= soff -> 1 <= e_shnum h ->
           Z.of_nat (List.length body) < soff + e_shentsize h * e_shnum h ->
           Z.of_nat (List.length sdata) < e_shnum h * section_entry_size c)
       /\ (is_ok (ELFSectionHeader_multiple_from_bytes D host sdata
                    (e_shnum h) (h_e_ident h)) = true ->
           Z.of_nat (List.length pdata) < e_phnum h * program_entry_size c ->
           ELF_from_fd D host fd = Err StructError)
       /\ (e_phentsize h = program_entry_size c ->
           0 <= poff -> 1 <= e_phnum h ->
           Z.of_nat (List.length body) < poff + e_phentsize h * e_phnum h ->
           Z.of_nat (List.length pdata) < e_phnum h * program_entry_size c).
Proof.
  intros Hh Hne.
  destruct (ELFHeader_from_fd_inv D host fd body h Hh)
    as (ident & fd1 & fmt & args & _ & _ & _ & Hi).
  destruct (ELFHeader_init_inv D host ident args h Hi)
    as (c & Hc & He & E & _ & _ & Hse).
  subst ident. exists c. split; [exact Hc|].
  rewrite (ELF_from_fd_eval fd body h c Hh Hne Hc). cbv zeta.
  destruct (section_layout c) as (ss & Hsl & Hsn & Hsz).
  destruct (program_layout c) as (ps & Hpl & Hpn & Hpz).
  pose proof (ELFSectionHeader_format_of_class D _ c He Hc) as Hsf.
  assert (Hpf : ELFProgramHeader_format D (h_e_ident h) = Ok (program_format c)).
  { rewrite ELFProgramHeader_format_class_of, Hc. destruct c; reflexivity. }
  assert (Hspos : 0 < section_entry_size c) by (destruct c; reflexivity).
  assert (Hppos : 0 < program_entry_size c) by (destruct c; reflexivity).
  split; [|split; [|split]].
  - intros Hshort.
    destruct (multiple_from_bytes_short host (H := ELFSectionHeader_derive D)
                (py_slice body (e_shoff h - header_size c)
                   (e_shoff h - header_size c + e_shentsize h * e_shnum h))
                (e_shnum h) (h_e_ident h) _ _ Hsf Hsl) as [Hno Hst].
    + simpl. lia.
    + simpl. rewrite Hsz. exact Hshort.
    + unfold ELFSectionHeader_multiple_from_bytes. split.
      * destruct (multiple_from_bytes _ _ _ _); [discriminate | reflexivity].
      * intros Hflag. rewrite Hst; [reflexivity|].
        intros vals Hlen. simpl. apply ELFSectionHeader_init_ok; [exact Hflag|].
        simpl in Hlen. congruence.
  - intros H0 H1 Hout. rewrite py_slice_length. unfold slice_index.
    rewrite Hse in *.
    destruct (Z.ltb_spec (e_shoff h - header_size c
                          + section_entry_size c * e_shnum h) 0); [nia|].
    destruct (Z.ltb_spec (e_shoff h - header_size c) 0); [lia|]. nia.
  - intros Hsec Hshort.
    destruct (ELFSectionHeader_multiple_from_bytes D host _ _ _) as [shdrs|];
      [|discriminate]. simpl.
    destruct (multiple_from_bytes_short host (H := ELFProgramHeader_derive D)
                (py_slice body (e_phoff h - header_size c)
                   (e_phoff h - header_size c + e_phentsize h * e_phnum h))
                (e_phnum h) (h_e_ident h) _ _ Hpf Hpl) as [_ Hst].
    + simpl. lia.
    + simpl. rewrite Hpz. exact Hshort.
    + unfold ELFProgramHeader_multiple_from_bytes. rewrite Hst; [reflexivity|].
      intros vals Hlen. simpl. apply (ELFProgramHeader_init_ok _ c); [exact Hc|].
      simpl in Hlen. congruence.
  - intros Hpe H0 H1 Hout. rewrite py_slice_length. unfold slice_index.
    rewrite Hpe in *.
    destruct (Z.ltb_spec (e_phoff h - header_size c
                          + program_entry_size c * e_phnum h) 0); [nia|].
    destruct (Z.ltb_spec (e_phoff h - header_size c) 0); [lia|]. nia.
Qed.

End Container.

(** ** Round trip *)

Section RoundTrip.

Variable D : Data.
Variable host : byteorder.

Lemma ident_layout :
  parse_format host "BBBBB" = Ok (mkLayout host true [1; 1; 1; 1; 1]%nat).
Proof. reflexivity. Qed.

Lemma no_padding_bytes (pos n : nat) :
  In n [1; 1; 1; 1; 1]%nat -> padding true pos n = 0%nat.
Proof.
  intros Hin. assert (n = 1%nat) as -> by (simpl in Hin; intuition congruence).
  unfold padding. now rewrite !Nat.mod_1_r.
Qed.

Lemma ident_of_fields_inv (vals : list Z) (i : e_ident) :
  ident_of_fields D vals = Ok i ->
  file_identification i = ELFMAG /\ ident_fields i = vals.
Proof.
  unfold ident_of_fields, e_ident_init.
  do 6 (destruct vals as [|? vals]; try discriminate).
  destruct (from_value (ELFCLASS D) z) as [fc|] eqn:Hfc; simpl; [|discriminate].
  destruct (from_value (ELFDATA D) z0) as [de|] eqn:Hde; simpl; [|discriminate].
  destruct (from_value (OSABI D) z2) as [oa|] eqn:Hoa; simpl; [|discriminate].
  intros [= <-]. unfold ident_fields. simpl.
  rewrite (from_value_int_of _ _ _ Hfc), (from_value_int_of _ _ _ Hde),
    (from_value_int_of _ _ _ Hoa). auto.
Qed.

(** Reading a block from a buffer laid out as magic, five bytes, padding
    of the right length and a rest: the padding bytes play no part. *)
Lemma e_ident_from_fd_app (b5 pad rest : list byte) (n : Z) :
  List.length b5 = 5%nat -> pad_length D = Ok n -> 0 <= n ->
  List.length pad = Z.to_nat n ->
  e_ident_from_fd D host (ELFMAG ++ b5 ++ pad ++ rest)
  = (obj <- ident_of_fields D (unpack_fields host true 0 [1; 1; 1; 1; 1]%nat b5) ;;
     Ok (obj, rest)).
Proof.
  intros H5 Hn H0 Hpad. unfold e_ident_from_fd.
  change 4 with (Z.of_nat (List.length ELFMAG)). rewrite read_app_exact.
  change (negb (bytes_eqb ELFMAG ELFMAG)) with false. cbv iota.
  rewrite (_unpack_app host "BBBBB" _ b5 (pad ++ rest) ident_layout);
    [|exact H5|destruct b5; [discriminate H5 | discriminate]].
  simpl l_order. simpl l_align. simpl l_sizes. cbn [bind].
  unfold ident_of_fields.
  destruct (match unpack_fields host true 0 [1; 1; 1; 1; 1]%nat b5 with
            | [fc; de; fv; oa; av] => e_ident_init D ELFMAG fc de fv oa av
            | _ => Err (TypeError "__init__() arguments")
            end) as [obj|e]; [|reflexivity].
  cbn [bind]. rewrite Hn. cbn [bind].
  replace n with (Z.of_nat (List.length pad)) by lia.
  rewrite read_app_exact. reflexivity.
Qed.

Lemma e_ident_from_fd_inv (fd fd1 : file) (i : e_ident) :
  e_ident_from_fd D host fd = Ok (i, fd1) -> fd1 <> [] ->
  exists b5 pad n,
    fd = ELFMAG ++ b5 ++ pad ++ fd1
    /\ List.length b5 = 5%nat
    /\ pad_length D = Ok n /\ 0 <= n /\ List.length pad = Z.to_nat n
    /\ ident_of_fields D (unpack_fields host true 0 [1; 1; 1; 1; 1]%nat b5) = Ok i.
Proof.
  unfold e_ident_from_fd. intros H Hne.
  destruct (read 4 fd) as [magic fd0] eqn:Hr.
  apply read_app in Hr.
  destruct (bytes_eqb magic ELFMAG) eqn:Hm; simpl in H; [|discriminate].
  unfold bytes_eqb in Hm.
  destruct (list_eq_dec Byte.byte_eq_dec magic ELFMAG) as [->|]; [|discriminate].
  destruct (_unpack host "BBBBB" fd0) as [[vals fd0']|] eqn:Hu; simpl in H; [|discriminate].
  apply _unpack_inv in Hu. destruct Hu as (l & b5 & Hl & Hfd0 & _ & Hlen & Hvals).
  rewrite ident_layout in Hl. injection Hl as <-. simpl in Hlen, Hvals.
  fold (ident_of_fields D vals) in H.
  destruct (ident_of_fields D vals) as [obj|] eqn:Hobj; simpl in H; [|discriminate].
  destruct (pad_length D) as [n|] eqn:Hn; simpl in H; [|discriminate].
  destruct (read n fd0') as [pad fd1'] eqn:Hp.
  injection H as <- <-.
  pose proof (read_app _ _ _ _ Hp) as Hfd0'.
  unfold read in Hp. destruct (Z.ltb_spec n 0) as [Hneg|Hpos].
  - injection Hp as _ <-. contradiction.
  - injection Hp as <- <-.
    exists b5, (firstn (Z.to_nat n) fd0'), n.
    repeat split; auto.
    + now rewrite Hr, Hfd0, <- Hfd0'.
    + rewrite length_firstn. apply Nat.min_l.
      destruct (Nat.le_gt_cases (Z.to_nat n) (List.length fd0')) as [Hle|Hgt]; [exact Hle|].
      exfalso. apply Hne. apply skipn_all2. lia.
    + now subst vals.
Qed.

Lemma e_ident_bytes_of_fields (b5 : list byte) (i : e_ident) (n : Z) :
  List.length b5 = 5%nat -> pad_length D = Ok n ->
  ident_of_fields D (unpack_fields host true 0 [1; 1; 1; 1; 1]%nat b5) = Ok i ->
  e_ident_bytes D host i = Ok (ELFMAG ++ b5 ++ zeros (Z.to_nat n)).
Proof.
  intros H5 Hn Hi. apply ident_of_fields_inv in Hi. destruct Hi as [Hmag Hf].
  unfold e_ident_bytes, struct.pack. fold (ident_fields i).
  rewrite ident_layout. cbn [bind l_order l_align l_sizes].
  rewrite Hf, pack_unpack_fields.
  - cbn [bind]. rewrite Hn, Hmag. reflexivity.
  - apply no_padding_bytes.
  - simpl. lia.
  - simpl. lia.
Qed.

Lemma header_layout (c : elf_class) :
  exists sizes,
    parse_format host (header_format c) = Ok (mkLayout LittleEndian false sizes).
Proof. destruct c; eexists; reflexivity. Qed.

Lemma layout_end_le (al : bool) (sizes : list nat) :
  forall pos, (pos <= layout_end al pos sizes)%nat.
Proof.
  induction sizes as [|n sizes IH]; intros pos; simpl; [lia|].
  specialize (IH (pos + padding al pos n + n)%nat). lia.
Qed.

(** What [ELFHeader.__bytes__] gives for a header read from a file: the
    bytes that were read, with the padding of the block set to zero. *)
Lemma ELFHeader_bytes_from_fd (fd body : file) (h : ELFHeader) :
  ELFHeader_from_fd D host fd = Ok (h, body) ->
  exists b5 pad bh n,
    fd = ELFMAG ++ b5 ++ pad ++ bh ++ body
    /\ List.length b5 = 5%nat
    /\ pad_length D = Ok n /\ 0 <= n /\ List.length pad = Z.to_nat n
    /\ ELFHeader_bytes D host h = Ok (ELFMAG ++ b5 ++ zeros (Z.to_nat n) ++ bh)
    /\ e_ident_from_fd D host (ELFMAG ++ b5 ++ zeros (Z.to_nat n) ++ bh ++ body)
       = e_ident_from_fd D host fd.
Proof.
  intros Hh.
  destruct (ELFHeader_from_fd_inv D host fd body h Hh)
    as (ident & fd1 & fmt & args & Hid & Hfmt & Hun & Hi).
  destruct (ELFHeader_init_inv D host ident args h Hi)
    as (c & Hc & He & E & Hargs & _ & _).
  destruct (ELFHeader_format_inv D ident fmt Hfmt) as (c' & _ & Hc' & ->).
  assert (c' = c) as -> by congruence.
  destruct (_unpack_inv host _ fd1 body args Hun)
    as (l & bh & Hl & Hfd1 & Hbh & Hlen & Hvals).
  destruct (header_layout c) as (sizes & Hl').
  rewrite Hl' in Hl. injection Hl as <-. simpl in Hlen, Hvals.
  assert (Hne : fd1 <> []).
  { rewrite Hfd1. destruct bh; [contradiction | discriminate]. }
  destruct (e_ident_from_fd_inv fd fd1 ident Hid Hne)
    as (b5 & pad & n & Hfd & H5 & Hn & H0 & Hpad & Hof).
  exists b5, pad, bh, n. subst fd1.
  split; [exact Hfd|]. do 4 (split; [assumption|]). split.
  - unfold ELFHeader_bytes. rewrite E.
    rewrite (e_ident_bytes_of_fields b5 ident n H5 Hn Hof). cbn [bind].
    rewrite Hfmt. cbn [bind]. unfold struct.pack. rewrite Hl'. cbn [bind].
    fold (header_fields h). rewrite <- Hargs, Hvals. simpl l_order.
    simpl l_align. simpl l_sizes.
    rewrite pack_unpack_fields.
    + cbn [bind]. now rewrite <- !app_assoc.
    + reflexivity.
    + lia.
    + apply layout_end_le.
  - rewrite Hfd.
    rewrite (e_ident_from_fd_app b5 pad (bh ++ body) n H5 Hn H0 Hpad).
    apply (e_ident_from_fd_app b5 (zeros (Z.to_nat n)) (bh ++ body) n H5 Hn H0).
    unfold zeros. apply repeat_length.
Qed.

Lemma round_trip_bytes (fd : file) (c : ELF) :
  ELF_from_fd D host fd = Ok c ->
  exists bs,
    ELF_bytes D host c = Ok bs
    /\ ELF_from_fd D host bs = Ok c
    /\ exists pre pad rest,
         fd = pre ++ pad ++ rest
         /\ bs = pre ++ zeros (List.length pad) ++ rest
         /\ List.length pre = 9%nat
         /\ pad_length D = Ok (Z.of_nat (List.length pad)).
Proof.
  intros Hc. pose proof Hc as Hc0. unfold ELF_from_fd in Hc.
  destruct (ELFHeader_from_fd D host fd) as [[h body]|] eqn:Hh; simpl in Hc;
    [|discriminate].
  destruct (ELFHeader_bytes_from_fd fd body h Hh)
    as (b5 & pad & bh & n & Hfd & H5 & Hn & H0 & Hpad & Hb & Hre).
  assert (Hdata : header c = h /\ data c = body).
  { destruct body as [|b body]; [discriminate|].
    destruct (ELFHeader_len D h); simpl in Hc; [|discriminate].
    destruct (ELFSectionHeader_multiple_from_bytes _ _ _ _ _); simpl in Hc;
      [|discriminate].
    destruct (ELFProgramHeader_multiple_from_bytes _ _ _ _ _); simpl in Hc;
      [|discriminate].
    injection Hc as <-. auto. }
  destruct Hdata as [Hhd Hbd].
  exists (ELFMAG ++ b5 ++ zeros (Z.to_nat n) ++ bh ++ body). split; [|split].
  - unfold ELF_bytes. rewrite Hhd, Hb, Hbd. cbn [bind].
    now rewrite <- !app_assoc.
  - rewrite <- Hc0. unfold ELF_from_fd, ELFHeader_from_fd. now rewrite Hre.
  - exists (ELFMAG ++ b5), pad, (bh ++ body). rewrite Hpad.
    split; [exact Hfd|]. split; [reflexivity|]. split.
    + rewrite length_app, H5. reflexivity.
    + rewrite Hn. f_equal. lia.
Qed.

(** C2.  A container obtained from a file serialises, and decoding the
    serialised bytes gives the same container, every field equal.  The
    serialised bytes are those of the file, except that the padding of
    the identification block, which keeps its length, is zero. *)
Theorem decode_encode_round_trip (fd : file) (c : ELF) :
  ELF_from_fd D host fd = Ok c ->
  exists bs,
    ELF_bytes D host c = Ok bs
    /\ ELF_from_fd D host bs = Ok c
    /\ exists pre pad rest,
         fd = pre ++ pad ++ rest
         /\ bs = pre ++ zeros (List.length pad) ++ rest
         /\ List.length pre = 9%nat
         /\ pad_length D = Ok (Z.of_nat (List.length pad)).
Proof. exact (round_trip_bytes fd c). Qed.

End RoundTrip.


(** ** The minimal file *)

Lemma is_ok_inv {A : Type} (r : result A) : is_ok r = true -> exists a, r = Ok a.
Proof. destruct r as [a|]; [eauto | discriminate]. Qed.

Lemma unpack_five_bytes (host : byteorder) (a b c d e : byte) :
  unpack_fields host true 0 [1; 1; 1; 1; 1]%nat [a; b; c; d; e]
  = [byte_to_Z a; byte_to_Z b; byte_to_Z c; byte_to_Z d; byte_to_Z e].
Proof.
  destruct host; cbn; now rewrite !Z.add_0_r.
Qed.

Section Minimal.

Variable D : Data.
Variable host : byteorder.

(** The header of the minimal file decodes, whatever its section table
    offset [shoff]; [so] is the integer that the eight bytes of [e_shoff]
    hold. *)
Lemma minimal_header_parses (c e shoff : byte) (so : Z) (ident : e_ident) :
  pad_length D = Ok 7 ->
  e_ident_init D ELFMAG (byte_to_Z c) (byte_to_Z e) 0 0 0 = Ok ident ->
  endianess D ident = Ok "<" ->
  class_of D ident = Ok Class64 ->
  is_ok (from_value (ET D) 0) = true ->
  is_ok (from_value (EM D) 0) = true ->
  _unpack host (header_format Class64) (minimal_fields shoff ++ zeros 64)
  = Ok ([0; 0; 0; 0; 0; so; 0; 64; 0; 0; 64; 1; 0], zeros 64) ->
  exists t m v,
    ELFHeader_from_fd D host (minimal_elf c e shoff)
    = Ok (mkELFHeader ident t m v 0 0 so 0 64 0 0 64 1 0, zeros 64).
Proof.
  intros Hpad Hid He Hc Het Hem Hun.
  apply is_ok_inv in Het, Hem.
  destruct Het as [t Ht]. destruct Hem as [m Hm].
  destruct (from_value_fallback_ok (EV D) 0) as (v & Hv & _).
  exists t, m, v.
  assert (Hident : e_ident_from_fd D host (minimal_elf c e shoff)
                   = Ok (ident, minimal_fields shoff ++ zeros 64)).
  { unfold minimal_elf.
    rewrite (e_ident_from_fd_app D host [c; e; x00; x00; x00] (zeros 7) _ 7
               eq_refl Hpad) by (lia || reflexivity).
    rewrite unpack_five_bytes. change (byte_to_Z x00) with 0.
    unfold ident_of_fields. rewrite Hid. reflexivity. }
  unfold ELFHeader_from_fd. rewrite Hident. cbn [bind].
  rewrite (ELFHeader_format_of_class D ident Class64 He Hc). cbn [bind].
  rewrite Hun. cbn [bind].
  unfold ELFHeader_init. rewrite Ht, Hm, Hv. cbn [bind].
  rewrite !ELFHeader_len_class_of. cbn [h_e_ident]. rewrite Hc. cbn.
  rewrite (ELFSectionHeader_size_of_class D host ident Class64 He Hc).
  reflexivity.
Qed.

Lemma native_Q_class (ident : e_ident) :
  native D ident = Ok "Q" -> class_of D ident = Ok Class64.
Proof.
  rewrite native_class_of.
  destruct (class_of D ident) as [[]|]; simpl; congruence.
Qed.

(** With the section table offset left at zero the minimal file never
    parses, whatever the tables: the slice [body[-64:0]] of the table is
    empty and the one section header cannot be unpacked. *)
Lemma minimal_elf_zero_offset_never_parses (c e : byte) (ident : e_ident) :
  pad_length D = Ok 7 ->
  e_ident_init D ELFMAG (byte_to_Z c) (byte_to_Z e) 0 0 0 = Ok ident ->
  endianess D ident = Ok "<" ->
  native D ident = Ok "Q" ->
  is_ok (from_value (ET D) 0) = true ->
  is_ok (from_value (EM D) 0) = true ->
  is_ok (ELF_from_fd D host (minimal_elf c e x00)) = false.
Proof.
  intros Hpad Hid He Hnat Het Hem.
  pose proof (native_Q_class ident Hnat) as Hc.
  destruct (minimal_header_parses c e x00 0 ident Hpad Hid He Hc Het Hem eq_refl)
    as (t & m & v & Hh).
  rewrite (ELF_from_fd_eval D host _ (zeros 64) _ Class64 Hh); [|discriminate|exact Hc].
  cbn [h_e_ident e_shnum e_shoff e_shentsize].
  destruct (multiple_from_bytes_short host (H := ELFSectionHeader_derive D)
              (py_slice (zeros 64) (0 - header_size Class64)
                 (0 - header_size Class64 + 64 * 1))
              1 ident (section_format Class64)
              (mkLayout LittleEndian false [4; 4; 8; 8; 8; 8; 4; 4; 8; 8]%nat)
              (ELFSectionHeader_format_of_class D ident Class64 He Hc) eq_refl)
    as [Hno _].
  - simpl. lia.
  - simpl. lia.
  - unfold ELFSectionHeader_multiple_from_bytes.
    destruct (multiple_from_bytes _ _ _ _); [discriminate | reflexivity].
Qed.

(** C1, with the section table placed after the header.  Take tables in
    which the identification block has 16 bytes, the class byte [c] and
    the encoding byte [e] resolve to a block that is 64-bit and
    little-endian, and zero resolves as a type, as a machine and as
    section flags.  Then the buffer made of that block, a header whose
    fields are zero except [e_shoff = 64], [e_ehsize = 64],
    [e_shentsize = 64] and [e_shnum = 1], and 64 zero bytes, parses; the
    container has no program header and one section header, and
    serialising it gives the buffer back. *)
Theorem minimal_elf_round_trip (c e : byte) (ident : e_ident) :
  pad_length D = Ok 7 ->
  e_ident_init D ELFMAG (byte_to_Z c) (byte_to_Z e) 0 0 0 = Ok ident ->
  endianess D ident = Ok "<" ->
  native D ident = Ok "Q" ->
  is_ok (from_value (ET D) 0) = true ->
  is_ok (from_value (EM D) 0) = true ->
  is_ok (from_value (SHF D) 0) = true ->
  exists elf,
    ELF_from_fd D host (minimal_elf c e x40) = Ok elf
    /\ program_headers elf = []
    /\ List.length (section_headers elf) = 1%nat
    /\ ELF_bytes D host elf = Ok (minimal_elf c e x40).
Proof.
  intros Hpad Hid He Hnat Het Hem Hshf.
  pose proof (native_Q_class ident Hnat) as Hc.
  destruct (minimal_header_parses c e x40 64 ident Hpad Hid He Hc Het Hem eq_refl)
    as (t & m & v & Hh).
  apply is_ok_inv in Hshf. destruct Hshf as [fl Hfl].
  destruct (from_value_fallback_ok (SHT D) 0) as (st & Hst & _).
  set (h := mkELFHeader ident t m v 0 0 64 0 64 0 0 64 1 0) in *.
  set (sh := mkELFSectionHeader ident 0 st fl 0 0 0 0 0 0 0).
  assert (Helf : ELF_from_fd D host (minimal_elf c e x40)
                 = Ok (mkELF h [sh] [] (zeros 64))).
  { rewrite (ELF_from_fd_eval D host _ (zeros 64) h Class64 Hh); [|discriminate|exact Hc].
    unfold ELFSectionHeader_multiple_from_bytes, ELFProgramHeader_multiple_from_bytes,
      multiple_from_bytes.
    fold (ELFSectionHeader_size D host (h_e_ident h)).
    fold (ELFProgramHeader_size D host (h_e_ident h)).
    subst h. cbn [h_e_ident].
    rewrite (ELFSectionHeader_size_of_class D host ident Class64 He Hc).
    rewrite (ELFProgramHeader_size_of_class D host ident Class64 Hc).
    cbn [bind e_shnum e_phnum e_shoff e_phoff e_shentsize e_phentsize].
    change (range 1) with [0]. change (range 0) with (@nil Z).
    cbn [mapM bind].
    rewrite (from_bytes_eval host (H := ELFSectionHeader_derive D) _ ident
               (section_format Class64)
               (mkLayout LittleEndian false [4; 4; 8; 8; 8; 8; 4; 4; 8; 8]%nat)
               (ELFSectionHeader_format_of_class D ident Class64 He Hc) eq_refl).
    change (init ident _) with
      (ELFSectionHeader_init D ident [0; 0; 0; 0; 0; 0; 0; 0; 0; 0]).
    unfold ELFSectionHeader_init. rewrite Hst, Hfl. reflexivity. }
  exists (mkELF h [sh] [] (zeros 64)).
  split; [exact Helf|]. split; [reflexivity|]. split; [reflexivity|].
  destruct (round_trip_bytes D host _ _ Helf)
    as (bs & Hbs & _ & pre & pad & rest & Hfd & -> & Hpre & Hn).
  rewrite Hbs. f_equal.
  rewrite Hpad in Hn. injection Hn as Hn.
  assert (Hlen : List.length pad = 7%nat) by lia.
  assert (Hp : pad = zeros 7).
  { pose proof (f_equal (fun l => firstn 7 (skipn 9 l)) Hfd) as Hf.
    cbv beta in Hf.
    rewrite skipn_app, Hpre, Nat.sub_diag in Hf.
    rewrite (skipn_all2 (n := 9) pre) in Hf by lia.
    cbn [skipn app] in Hf.
    rewrite firstn_app, Hlen, Nat.sub_diag in Hf.
    rewrite (firstn_all2 (n := 7) pad) in Hf by lia.
    cbn [firstn] in Hf. rewrite app_nil_r in Hf. now symmetry. }
  rewrite Hfd, Hp. reflexivity.
Qed.

End Minimal.

(** ** The code on concrete files *)

Lemma minimal_elf_round_trip_witness :
  exists elf,
    ELF_from_fd sample_data LittleEndian (minimal_elf x02 x01 x40) = Ok elf
    /\ program_headers elf = []
    /\ List.length (section_headers elf) = 1%nat
    /\ ELF_bytes sample_data LittleEndian elf = Ok (minimal_elf x02 x01 x40).
Proof.
  apply (minimal_elf_round_trip sample_data LittleEndian x02 x01 sample_ident);
    reflexivity.
Defined.

(** C1 as stated fails: with every field zero except the magic, the class,
    the encoding, [e_ehsize = 64], [e_shentsize = 64] and [e_shnum = 1],
    the section table offset is 0; the slice for the table is
    [body[-64:0]], which is empty, and unpacking the one section header
    raises [struct.error]. *)
Lemma minimal_elf_zero_offset_fails :
  ELF_from_fd sample_data LittleEndian (minimal_elf x02 x01 x00) = Err StructError
  /\ ELF_from_fd sample_data BigEndian (minimal_elf x02 x01 x00) = Err StructError.
Proof. split; vm_compute; reflexivity. Qed.

Lemma decode_encode_round_trip_witness :
  exists elf,
    ELF_from_fd sample_data LittleEndian (padded_elf (repeat xff 7)) = Ok elf
    /\ exists bs,
         ELF_bytes sample_data LittleEndian elf = Ok bs
         /\ ELF_from_fd sample_data LittleEndian bs = Ok elf
         /\ exists pre pad rest,
              padded_elf (repeat xff 7) = pre ++ pad ++ rest
              /\ bs = pre ++ zeros (List.length pad) ++ rest
              /\ List.length pre = 9%nat
              /\ pad_length sample_data = Ok (Z.of_nat (List.length pad)).
Proof.
  eexists. split; [vm_compute; reflexivity|].
  apply (decode_encode_round_trip sample_data LittleEndian
           (padded_elf (repeat xff 7))).
  vm_compute. reflexivity.
Defined.

(** The content of the padding is not kept: a file whose padding bytes
    are all 255 serialises to the file whose padding bytes are zero. *)
Example padding_content_not_kept :
  exists elf,
    ELF_from_fd sample_data LittleEndian (padded_elf (repeat xff 7)) = Ok elf
    /\ ELF_bytes sample_data LittleEndian elf = Ok (padded_elf (zeros 7))
    /\ padded_elf (zeros 7) <> padded_elf (repeat xff 7).
Proof.
  eexists. split; [vm_compute; reflexivity|]. split; [vm_compute; reflexivity|].
  discriminate.
Qed.

(** C5 as stated fails: this 64-bit header declares [e_ehsize = 52], and
    its type is in no table; the type is resolved before the sizes are
    compared, so decoding raises the [ValueError] of the resolution and
    not the [ELFException] of the size check. *)
Lemma wrong_size_fails_with_other_error :
  exists rest,
    e_ident_from_fd sample_data LittleEndian bad_type_and_size_header
      = Ok (sample_ident, rest)
    /\ _unpack LittleEndian (header_format Class64) rest
       = Ok ([4660; 0; 0; 0; 0; 0; 0; 52; 0; 0; 64; 0; 0], [])
    /\ ELFHeader_from_fd sample_data LittleEndian bad_type_and_size_header
       = Err (ValueError "Item not found for 0x1234 in ET").
Proof.
  eexists. split; [vm_compute; reflexivity|]. split; vm_compute; reflexivity.
Qed.

Lemma short_table_fails_witness :
  ELF_from_fd sample_data LittleEndian (minimal_elf x02 x01 x80) = Err StructError.
Proof.
  destruct (ELFHeader_from_fd sample_data LittleEndian (minimal_elf x02 x01 x80))
    as [[h body]|] eqn:Hh; [|vm_compute in Hh; discriminate].
  pose proof Hh as Hh'. vm_compute in Hh'. injection Hh' as Eh Eb.
  subst h body.
  match type of Hh with _ = Ok (?h, ?body) =>
    destruct (short_table_fails sample_data LittleEndian _ body h Hh
                ltac:(discriminate)) as (c & Hc & Ha & Hb & _)
  end.
  assert (c = Class64) as ->.
  { vm_compute in Hc. now injection Hc. }
  apply Ha; [|reflexivity].
  apply Hb; simpl; lia.
Defined.

(** C9 as stated fails: in this file the program table starts at the
    start of the body and its declared range is 64 bytes ([e_phentsize = 64],
    one entry), beyond the 56 bytes of the body; the slice is clamped to
    the body, a program header needs 56 bytes, and the parse succeeds. *)
Lemma table_beyond_body_parses :
  exists elf,
    ELF_from_fd sample_data LittleEndian long_phentsize_elf = Ok elf
    /\ List.length (program_headers elf) = 1%nat
    /\ e_phoff (header elf) - 64 = 0
    /\ e_phentsize (header elf) * e_phnum (header elf) = 64
    /\ List.length (data elf) = 56%nat.
Proof.
  eexists. split; [vm_compute; reflexivity|]. repeat split.
Qed.

(* ===================================================================== *)
(** * Further properties of the code *)
(* ===================================================================== *)

(** ** Equality of the integer classes *)

Lemma py_eq_not_flag (x y : pyint) :
  type_of x <> t_EnumFlagItem -> type_of y <> t_EnumFlagItem ->
  py_eq x y = (int_of x =? int_of y).
Proof.
  destruct x, y; simpl; intros Hx Hy; try reflexivity;
    try (unfold py_eq; simpl; apply Z.eqb_sym); congruence.
Qed.

(** X1.  Among plain integers, named items of plain enumerations and
    flag-match values, [==] is equality of the underlying integers, in
    whatever order and whatever the classes of the two operands; so it is
    reflexive, symmetric and transitive there. *)
Theorem eq_is_integer_equality_off_flags (x y z : pyint) :
  type_of x <> t_EnumFlagItem ->
  type_of y <> t_EnumFlagItem ->
  type_of z <> t_EnumFlagItem ->
  py_eq x y = (int_of x =? int_of y)
  /\ py_eq x x = true
  /\ py_eq x y = py_eq y x
  /\ (py_eq x y = true -> py_eq y z = true -> py_eq x z = true).
Proof.
  intros Hx Hy Hz.
  rewrite !py_eq_not_flag by assumption.
  rewrite Z.eqb_refl, (Z.eqb_sym (int_of y)).
  repeat split. rewrite !Z.eqb_eq. congruence.
Qed.

Lemma eq_is_integer_equality_off_flags_witness :
  py_eq (EnumItem (mkNamed 2 "ET.EXEC")) (FlagMatch 2 []) = (2 =? 2)
  /\ py_eq (EnumItem (mkNamed 2 "ET.EXEC")) (EnumItem (mkNamed 2 "ET.EXEC")) = true
  /\ py_eq (EnumItem (mkNamed 2 "ET.EXEC")) (FlagMatch 2 [])
     = py_eq (FlagMatch 2 []) (EnumItem (mkNamed 2 "ET.EXEC"))
  /\ (py_eq (EnumItem (mkNamed 2 "ET.EXEC")) (FlagMatch 2 []) = true ->
      py_eq (FlagMatch 2 []) (Int 2) = true ->
      py_eq (EnumItem (mkNamed 2 "ET.EXEC")) (Int 2) = true).
Proof.
  apply (eq_is_integer_equality_off_flags
           (EnumItem (mkNamed 2 "ET.EXEC")) (FlagMatch 2 []) (Int 2));
    simpl; discriminate.
Defined.

(** X2.  A named flag constant compares by intersection with every
    operand, also when it stands on the right of a plain integer, of a
    named item or of another flag constant, because its class is a
    subclass of theirs and is asked first; only a flag-match on the left
    compares as an integer.  So a flag constant equals itself only when it
    is not zero, and this equality is not transitive: 1 and 2 both equal 3
    and do not equal each other. *)
Theorem flag_constant_equality (f : named) (x : pyint) :
  py_eq (EnumFlagItem f) x = py_bool (Z.land (n_value f) (int_of x))
  /\ (type_of x <> t_FlagMatch -> py_eq x (EnumFlagItem f) = py_eq (EnumFlagItem f) x)
  /\ (py_eq (EnumFlagItem f) (EnumFlagItem f) = true <-> n_value f <> 0)
  /\ (py_eq (EnumFlagItem (mkNamed 1 "A")) (EnumFlagItem (mkNamed 3 "AB")) = true
      /\ py_eq (EnumFlagItem (mkNamed 3 "AB")) (EnumFlagItem (mkNamed 2 "B")) = true
      /\ py_eq (EnumFlagItem (mkNamed 1 "A")) (EnumFlagItem (mkNamed 2 "B")) = false).
Proof.
  split; [apply py_eq_flag_left|]. split; [|split].
  - intros Hx. rewrite py_eq_flag_left.
    destruct x; simpl in *; try congruence;
      unfold py_eq, eq_method, py_and; simpl; now rewrite Z.land_comm.
  - rewrite py_eq_flag_left, py_bool_true. simpl. now rewrite Z.land_diag.
  - repeat split.
Qed.

Lemma flag_constant_equality_witness :
  py_eq (Int 6) (EnumFlagItem (mkNamed 2 "SHF.ALLOC"))
  = py_eq (EnumFlagItem (mkNamed 2 "SHF.ALLOC")) (Int 6).
Proof.
  destruct (flag_constant_equality (mkNamed 2 "SHF.ALLOC") (Int 6)) as (_ & H & _).
  apply H. simpl. discriminate.
Defined.

(** ** Resolution *)

(** X3.  Fallback resolution never raises, for a plain and for a flag
    enumeration alike; its result has the raw value as its integer, and it
    is the result of strict resolution whenever that one succeeds. *)
Theorem from_value_fallback_never_raises (c : EnumClass) (v : Z) :
  exists r,
    from_value_fallback c v = Ok r
    /\ int_of r = v
    /\ (forall r', from_value c v = Ok r' -> r = r')
    /\ (item_cls c = cls_EnumFlagItem -> r = FlagMatch v (flag_items c)).
Proof.
  destruct (from_value_fallback_ok c v) as (r & Hr & Hv).
  exists r. split; [exact Hr|]. split; [exact Hv|]. split.
  - intros r' H'. unfold from_value_fallback in Hr. rewrite H' in Hr. congruence.
  - intros Hc. unfold from_value_fallback, from_value in Hr. rewrite Hc in Hr.
    congruence.
Qed.

Lemma NoDup_map_eq {A B : Type} (g : A -> B) (l : list A) (x y : A) :
  NoDup (map g l) -> In x l -> In y l -> g x = g y -> x = y.
Proof.
  induction l as [|a l IH]; simpl; [tauto|].
  intros Hnd Hx Hy E. inversion Hnd as [|? ? Hna Hnd']; subst.
  destruct Hx as [->|Hx], Hy as [->|Hy]; auto.
  - exfalso. apply Hna. rewrite E. now apply in_map.
  - exfalso. apply Hna. rewrite <- E. now apply in_map.
Qed.

Lemma find_first_split {A : Type} (p : A -> bool) (l : list A) (x : A) :
  find p l = Some x ->
  exists l1 l2, l = l1 ++ x :: l2 /\ p x = true
                /\ (forall y, In y l1 -> p y = false).
Proof.
  induction l as [|a l IH]; simpl; [discriminate|].
  destruct (p a) eqn:Ha.
  - intros E. injection E as <-. exists [], l. simpl. repeat split; tauto.
  - intros E. destruct (IH E) as (l1 & l2 & -> & Hx & Hl).
    exists (a :: l1), l2. simpl. repeat split; auto.
    intros y [<-|Hy]; auto.
Qed.

(** X4.  From a name to its value and back.  In a plain enumeration the
    value of a member always resolves, and it resolves to the first
    member of the class body that has this value: every member before it
    has another value.  When no two members share a value it is the
    member itself. *)
Theorem member_value_resolves (c : EnumClass) (key : string) (item : pyint) :
  item_cls c = cls_EnumItem ->
  getattr c key = Ok item ->
  exists item' before after,
    from_value c (int_of item) = Ok item'
    /\ vars_items c = before ++ item' :: after
    /\ (forall m, In m before -> int_of m <> int_of item)
    /\ int_of item' = int_of item
    /\ (NoDup (map snd (cls_body c)) -> item' = item).
Proof.
  intros Hc Hg.
  assert (Hin : In item (vars_items c)).
  { unfold getattr in Hg.
    destruct (find _ (cls_body c)) as [kv|] eqn:Hf; [|discriminate].
    injection Hg as <-. apply find_some in Hf. destruct Hf as [Hin _].
    unfold vars_items. now apply in_map. }
  assert (Hpy : forall m, In m (vars_items c) ->
                          py_eq m (Int (int_of item)) = (int_of m =? int_of item)).
  { intros m Hm. unfold vars_items in Hm. apply in_map_iff in Hm.
    destruct Hm as (kv & <- & _). unfold make_item. rewrite Hc. reflexivity. }
  unfold from_value. rewrite Hc.
  destruct (find (fun i => py_eq i (Int (int_of item))) (vars_items c))
    as [item'|] eqn:Hf.
  - destruct (find_first_split _ _ _ Hf) as (l1 & l2 & E & Hx & Hl).
    assert (Hin' : In item' (vars_items c))
      by (rewrite E; apply in_or_app; right; now left).
    rewrite (Hpy _ Hin') in Hx. apply Z.eqb_eq in Hx.
    exists item', l1, l2. split; [reflexivity|]. split; [exact E|].
    split; [|split; [exact Hx|]].
    + intros m Hm. specialize (Hl m Hm).
      rewrite Hpy in Hl by (rewrite E; apply in_or_app; now left).
      now apply Z.eqb_neq.
    + intros Hnd. unfold vars_items in Hin, Hin'.
      apply in_map_iff in Hin. destruct Hin as (kv & <- & Hkv).
      apply in_map_iff in Hin'. destruct Hin' as (kv' & <- & Hkv').
      rewrite !int_of_make_item in Hx. f_equal. eapply NoDup_map_eq; eauto.
  - pose proof (find_none _ _ Hf item Hin) as Hn. simpl in Hn.
    rewrite (Hpy _ Hin), Z.eqb_refl in Hn. discriminate.
Qed.

Lemma member_value_resolves_witness :
  exists item' before after,
    from_value (ET sample_data) (int_of (EnumItem (mkNamed 3 "ET.DYN"))) = Ok item'
    /\ vars_items (ET sample_data) = before ++ item' :: after
    /\ (forall m, In m before -> int_of m <> int_of (EnumItem (mkNamed 3 "ET.DYN")))
    /\ int_of item' = int_of (EnumItem (mkNamed 3 "ET.DYN"))
    /\ (NoDup (map snd (cls_body (ET sample_data))) ->
        item' = EnumItem (mkNamed 3 "ET.DYN")).
Proof.
  apply (member_value_resolves (ET sample_data) "DYN"); reflexivity.
Defined.

(** ** The dictionary of values *)

Lemma find_app_first {A : Type} (p : A -> bool) (l1 l2 : list A) :
  find p (l1 ++ l2)
  = match find p l1 with Some x => Some x | None => find p l2 end.
Proof.
  induction l1 as [|a l1 IH]; simpl; [reflexivity|].
  destruct (p a); [reflexivity | exact IH].
Qed.

Lemma dict_get_set {V : Type} (d : dict V) (k : Z) (x : V) (k' : Z) :
  dict_get (dict_set d k x) k' = if k =? k' then Some x else dict_get d k'.
Proof.
  unfold dict_get. induction d as [|[k0 v0] d IH]; simpl.
  - destruct (k =? k'); reflexivity.
  - destruct (Z.eqb_spec k0 k) as [->|Hne]; simpl.
    + destruct (k =? k'); reflexivity.
    + destruct (Z.eqb_spec k0 k') as [->|Hne'].
      * destruct (Z.eqb_spec k k'); [congruence | reflexivity].
      * exact IH.
Qed.

Lemma dict_get_fold (l : list pyint) (d : dict pyint) (v : Z) :
  dict_get (fold_left (fun d item => dict_set d (int_of item) item) l d) v
  = match find (fun item => int_of item =? v) (rev l) with
    | Some item => Some item
    | None => dict_get d v
    end.
Proof.
  revert d. induction l as [|a l IH]; intros d; simpl; [reflexivity|].
  rewrite IH, find_app_first, dict_get_set. simpl.
  destruct (find _ (rev l)); [reflexivity|].
  destruct (int_of a =? v); reflexivity.
Qed.

Lemma find_rev_unique {A : Type} (g : A -> Z) (v : Z) (l : list A) :
  NoDup (map g l) ->
  find (fun x => g x =? v) (rev l) = find (fun x => g x =? v) l.
Proof.
  intros Hnd.
  destruct (find (fun x => g x =? v) l) as [x|] eqn:Hl;
    destruct (find (fun x => g x =? v) (rev l)) as [y|] eqn:Hr; try reflexivity.
  - apply find_some in Hl, Hr. destruct Hl as [Hx Ex], Hr as [Hy Ey].
    apply in_rev in Hy. apply Z.eqb_eq in Ex, Ey.
    f_equal. eapply NoDup_map_eq; eauto. congruence.
  - apply find_some in Hl. destruct Hl as [Hx Ex].
    pose proof (find_none _ _ Hr x) as Hn. rewrite <- in_rev in Hn.
    rewrite (Hn Hx) in Ex. discriminate.
  - apply find_some in Hr. destruct Hr as [Hy Ey]. apply in_rev in Hy.
    pose proof (find_none _ _ Hl y Hy) as Hn. simpl in Hn.
    rewrite Hn in Ey. discriminate.
Qed.

Lemma find_py_eq_int (c : EnumClass) (v : Z) :
  item_cls c = cls_EnumItem ->
  forall l,
    find (fun it => py_eq it (Int v)) (map (make_item c) l)
    = find (fun it => int_of it =? v) (map (make_item c) l).
Proof.
  intros Hc. induction l as [|kv l IH]; simpl; [reflexivity|].
  replace (py_eq (make_item c kv) (Int v)) with (int_of (make_item c kv) =? v)
    by (unfold make_item; rewrite Hc; reflexivity).
  now rewrite IH.
Qed.

(** X5.  [value_dict] maps an integer to the last member of the class
    body that has it, and has a key for exactly the values of the
    members.  In a plain enumeration whose members have distinct values,
    looking a value up in it gives what strict resolution returns, and
    the key is missing exactly when strict resolution raises. *)
Theorem value_dict_lookup (c : EnumClass) (v : Z) :
  dict_get (value_dict c) v
    = find (fun item => int_of item =? v) (rev (vars_items c))
  /\ (dict_get (value_dict c) v = None
      <-> forall kv, In kv (cls_body c) -> snd kv <> v)
  /\ (item_cls c = cls_EnumItem -> NoDup (map snd (cls_body c)) ->
      forall item,
        from_value c v = Ok item <-> dict_get (value_dict c) v = Some item).
Proof.
  assert (E : dict_get (value_dict c) v
              = find (fun item => int_of item =? v) (rev (vars_items c))).
  { unfold value_dict. rewrite dict_get_fold.
    destruct (find _ _); reflexivity. }
  split; [exact E|]. split.
  - rewrite E. split.
    + intros Hn kv Hin Hv.
      pose proof (find_none _ _ Hn (make_item c kv)) as H.
      rewrite <- in_rev in H. unfold vars_items in H.
      specialize (H (in_map _ _ _ Hin)). simpl in H.
      rewrite int_of_make_item in H. apply Z.eqb_neq in H. contradiction.
    + intros Hno. destruct (find _ _) as [item|] eqn:Hf; [|reflexivity].
      apply find_some in Hf. destruct Hf as [Hin Hv].
      apply in_rev in Hin. unfold vars_items in Hin.
      apply in_map_iff in Hin. destruct Hin as (kv & <- & Hin).
      rewrite int_of_make_item in Hv. apply Z.eqb_eq in Hv.
      now destruct (Hno kv Hin).
  - intros Hc Hnd item. rewrite E.
    rewrite (find_rev_unique int_of v (vars_items c)).
    + unfold from_value. rewrite Hc.
      pose proof (find_py_eq_int c v Hc (cls_body c)) as Hp'.
      fold (vars_items c) in Hp'.
      rewrite Hp'.
      destruct (find (fun it => int_of it =? v) (vars_items c));
        split; intros H; try discriminate; injection H as ->; reflexivity.
    + unfold vars_items. rewrite map_map.
      erewrite map_ext; [exact Hnd|]. intros kv. apply int_of_make_item.
Qed.

Lemma value_dict_lookup_witness :
  dict_get (value_dict (ET sample_data)) 2 = Some (EnumItem (mkNamed 2 "ET.EXEC")).
Proof.
  destruct (value_dict_lookup (ET sample_data) 2) as (_ & _ & H).
  apply H; [reflexivity | | reflexivity].
  simpl. repeat constructor; simpl; intuition discriminate.
Defined.

(** ** Printing an integer *)

Lemma str_length_append (a b : string) :
  String.length (a +s+ b) = (String.length a + String.length b)%nat.
Proof. induction a as [|ch a IH]; simpl; [reflexivity | now rewrite IH]. Qed.

Lemma str_repeat_zero_length (k : nat) : String.length (str_repeat "0" k) = k.
Proof. induction k as [|k IH]; simpl; [reflexivity | now rewrite IH]. Qed.

Lemma of_pos_hex_digits :
  forall (p : positive) (rest : string),
    all_chars is_hex_digit rest = true ->
    all_chars is_hex_digit (HexString.Raw.of_pos p rest) = true.
Proof.
  fix IH 1. intros p rest H.
  do 4 try destruct p as [p|p|]; cbn;
    try (apply IH; cbn); exact H.
Qed.

Lemma all_chars_append (p : ascii -> bool) (a b : string) :
  all_chars p (a +s+ b) = all_chars p a && all_chars p b.
Proof.
  induction a as [|ch a IH]; simpl; [reflexivity|].
  now rewrite IH, andb_assoc.
Qed.

Lemma all_chars_zeros (k : nat) : all_chars is_hex_digit (str_repeat "0" k) = true.
Proof. induction k as [|k IH]; simpl; [reflexivity | exact IH]. Qed.

(** X6.  What [_Printable] prints after [0x] for a plain integer.  For an
    integer that is not negative it is hexadecimal digits only, an even
    number of them, and they read back to that integer.  The padding
    counts characters, not digits: for a negative integer the minus sign
    is counted, and the zero, if any, goes in front of the sign, so the
    text is the sign and the digits of the absolute value, after a zero
    exactly when these digits are even in number. *)
Theorem printed_hex_digits (v : Z) :
  (0 <= v ->
   all_chars is_hex_digit (hex_digits v) = true
   /\ Nat.even (String.length (hex_digits v)) = true
   /\ HexString.Raw.to_N (hex_digits v) 0%N = Z.to_N v)
  /\ (v < 0 ->
      hex_digits v
      = (if Nat.even (String.length (format_x (- v))) then "0" else "")
          +s+ "-" +s+ format_x (- v)).
Proof.
  unfold hex_digits. split.
  - intros Hv. split; [|split].
    + rewrite all_chars_append, all_chars_zeros. simpl.
      destruct v as [|p|p]; try lia; [reflexivity|].
      simpl. now apply of_pos_hex_digits.
    + rewrite str_length_append, str_repeat_zero_length.
      set (n := String.length (format_x v)).
      apply Nat.even_spec. exists (n / 2 + n mod 2)%nat.
      pose proof (Nat.div_mod_eq n 2). lia.
    + pose proof (Nat.mod_upper_bound (String.length (format_x v)) 2 ltac:(lia)) as Hk.
      destruct (String.length (format_x v) mod 2)%nat as [|[|k]]; [| |lia];
        destruct v as [|p|p]; try lia; simpl;
        rewrite ?HexString.Raw.to_N_of_pos; reflexivity.
  - intros Hv. destruct v as [|p|p]; try lia.
    change (- Z.neg p) with (Z.pos p).
    change (format_x (Z.neg p)) with ("-" +s+ format_x (Z.pos p)).
    set (d := format_x (Z.pos p)).
    change (String.length ("-" +s+ d)) with (S (String.length d)).
    assert (E : (S (String.length d) mod 2
                 = if Nat.even (String.length d) then 1 else 0)%nat).
    { pose proof (Nat.div_mod_eq (S (String.length d)) 2) as Hd.
      pose proof (Nat.mod_upper_bound (S (String.length d)) 2 ltac:(lia)) as Hm.
      destruct (Nat.even (String.length d)) eqn:Ev.
      - apply Nat.even_spec in Ev. destruct Ev as [k Hk]. lia.
      - assert (Ho : Nat.odd (String.length d) = true)
          by (rewrite <- Nat.negb_even, Ev; reflexivity).
        apply Nat.odd_spec in Ho. destruct Ho as [k Hk]. lia. }
    rewrite E. destruct (Nat.even (String.length d)); reflexivity.
Qed.

Lemma printed_hex_digits_witness :
  (all_chars is_hex_digit (hex_digits 291) = true
   /\ Nat.even (String.length (hex_digits 291)) = true
   /\ HexString.Raw.to_N (hex_digits 291) 0%N = Z.to_N 291)
  /\ hex_digits (-1) = "-1"
  /\ hex_digits (-16) = "0-10"
  /\ value_repr_int 291 = "0x0123"
  /\ value_repr_int (-1) = "0x-1".
Proof.
  split; [|split; [|split; [|split; reflexivity]]].
  - destruct (printed_hex_digits 291) as [H _]. apply H. lia.
  - destruct (printed_hex_digits (-1)) as [_ H].
    rewrite H by lia. reflexivity.
  - destruct (printed_hex_digits (-16)) as [_ H].
    rewrite H by lia. reflexivity.
Defined.

(** ** The records *)

Section Records.

Variable D : Data.
Variable host : byteorder.

Lemma native_I_class (ident : e_ident) :
  native D ident = Ok "I" -> class_of D ident = Ok Class32.
Proof.
  rewrite native_class_of.
  destruct (class_of D ident) as [[]|]; simpl; congruence.
Qed.

Lemma native_Q_class64 (ident : e_ident) :
  native D ident = Ok "Q" -> class_of D ident = Ok Class64.
Proof.
  rewrite native_class_of.
  destruct (class_of D ident) as [[]|]; simpl; congruence.
Qed.

Lemma ELFSectionHeader_format_inv (ident : e_ident) (fmt : string) :
  ELFSectionHeader_format D ident = Ok fmt ->
  exists c, endianess D ident = Ok "<" /\ class_of D ident = Ok c
            /\ fmt = section_format c.
Proof.
  unfold ELFSectionHeader_format. rewrite native_class_of.
  destruct (endianess D ident) as [e|] eqn:He; simpl; [|discriminate].
  apply endianess_ok in He. subst e.
  destruct (class_of D ident) as [c|]; simpl; [|discriminate].
  intros [= <-]. exists c. destruct c; auto.
Qed.

(** X7.  Serialising a section header or a program header never gives
    bytes.  The inherited [__bytes__] hands [struct.pack] the
    [dataclasses.Field] objects of the record, one more than the format
    has fields, so it raises [struct.error] whenever the format itself can
    be computed, and the error of the format otherwise. *)
Theorem record_bytes_always_raise (sh : ELFSectionHeader) (ph : ELFProgramHeader) :
  is_ok (ELFSectionHeader_bytes D host sh) = false
  /\ is_ok (ELFProgramHeader_bytes D host ph) = false
  /\ (is_ok (ELFSectionHeader_format D (sh_e_ident sh)) = true ->
      ELFSectionHeader_bytes D host sh = Err StructError)
  /\ (is_ok (ELFProgramHeader_format D (p_e_ident ph)) = true ->
      ELFProgramHeader_bytes D host ph = Err StructError).
Proof.
  assert (Hs : forall fmt, ELFSectionHeader_format D (sh_e_ident sh) = Ok fmt ->
                           ELFSectionHeader_bytes D host sh = Err StructError).
  { intros fmt Hf. unfold ELFSectionHeader_bytes. rewrite Hf. cbn [bind].
    destruct (ELFSectionHeader_format_inv _ _ Hf) as (c & _ & _ & ->).
    destruct c; reflexivity. }
  assert (Hp : forall fmt, ELFProgramHeader_format D (p_e_ident ph) = Ok fmt ->
                           ELFProgramHeader_bytes D host ph = Err StructError).
  { intros fmt Hf. unfold ELFProgramHeader_bytes. rewrite Hf. cbn [bind].
    rewrite ELFProgramHeader_format_class_of in Hf.
    destruct (class_of D (p_e_ident ph)) as [c|]; simpl in Hf; [|discriminate].
    injection Hf as <-. destruct c; reflexivity. }
  repeat split.
  - destruct (ELFSectionHeader_format D (sh_e_ident sh)) as [fmt|] eqn:Hf.
    + now rewrite (Hs fmt eq_refl).
    + unfold ELFSectionHeader_bytes. now rewrite Hf.
  - destruct (ELFProgramHeader_format D (p_e_ident ph)) as [fmt|] eqn:Hf.
    + now rewrite (Hp fmt eq_refl).
    + unfold ELFProgramHeader_bytes. now rewrite Hf.
  - intros H. apply is_ok_inv in H. destruct H as [fmt Hf]. eauto.
  - intros H. apply is_ok_inv in H. destruct H as [fmt Hf]. eauto.
Qed.

(** X8.  A program header has the same fields whichever the class: the
    eight integers in the order of the 32-bit layout (flags seventh) and
    in the order of the 64-bit layout (flags second) build records with
    equal fields.  Any other number of integers raises [ValueError] with
    that number. *)
Theorem program_header_field_order (i32 i64 : e_ident)
    (type flags offset vaddr paddr filesz memsz align : Z) :
  native D i32 = Ok "I" ->
  native D i64 = Ok "Q" ->
  ELFProgramHeader_init D i32 [type; offset; vaddr; paddr; filesz; memsz; flags; align]
    = Ok (mkELFProgramHeader i32 type flags offset vaddr paddr filesz memsz align)
  /\ ELFProgramHeader_init D i64 [type; flags; offset; vaddr; paddr; filesz; memsz; align]
     = Ok (mkELFProgramHeader i64 type flags offset vaddr paddr filesz memsz align)
  /\ forall ident args,
       List.length args <> 8%nat ->
       ELFProgramHeader_init D ident args
       = Err (ValueError ("Required 8 arguments, got "
                          +s+ str_int (Z.of_nat (List.length args)))).
Proof.
  intros H32 H64. apply native_I_class in H32. apply native_Q_class64 in H64.
  unfold class_of in H32, H64. unfold ELFProgramHeader_init. cbn [List.length Nat.eqb negb].
  destruct (getattr (ELFCLASS D) "_32") as [c32|]; simpl in *; [|discriminate].
  split; [|split].
  - destruct (py_eq (file_class i32) c32); [reflexivity|].
    destruct (getattr (ELFCLASS D) "_64"); simpl in *; [|discriminate].
    destruct (py_eq (file_class i32) _); discriminate.
  - destruct (py_eq (file_class i64) c32); [discriminate|].
    destruct (getattr (ELFCLASS D) "_64"); simpl in *; [|discriminate].
    destruct (py_eq (file_class i64) _); [reflexivity | discriminate].
  - intros ident args Hlen. apply Nat.eqb_neq in Hlen. now rewrite Hlen.
Qed.

(** X9.  The sizes of the records.  For a little-endian block of the
    32-bit class a section header has 40 bytes, a program header 32, the
    fixed fields of the file header 36 and [len] of the header is 52; for
    the 64-bit class they are 64, 56, 48 and 64.  The identification block
    in front of the fixed fields accounts for the remaining 16. *)
Theorem record_sizes (ident : e_ident) :
  endianess D ident = Ok "<" ->
  (native D ident = Ok "I" ->
   ELFSectionHeader_size D host ident = Ok 40
   /\ ELFProgramHeader_size D host ident = Ok 32
   /\ (fmt <- ELFHeader_format D ident ;; struct.calcsize host fmt) = Ok 36
   /\ forall h, h_e_ident h = ident -> ELFHeader_len D h = Ok 52)
  /\ (native D ident = Ok "Q" ->
      ELFSectionHeader_size D host ident = Ok 64
      /\ ELFProgramHeader_size D host ident = Ok 56
      /\ (fmt <- ELFHeader_format D ident ;; struct.calcsize host fmt) = Ok 48
      /\ forall h, h_e_ident h = ident -> ELFHeader_len D h = Ok 64).
Proof.
  intros He. split; intros Hn.
  - apply native_I_class in Hn.
    rewrite (ELFSectionHeader_size_of_class D host ident _ He Hn),
      (ELFProgramHeader_size_of_class D host ident _ Hn),
      (ELFHeader_format_of_class D ident _ He Hn).
    repeat split. intros h <-. now rewrite ELFHeader_len_class_of, Hn.
  - apply native_Q_class64 in Hn.
    rewrite (ELFSectionHeader_size_of_class D host ident _ He Hn),
      (ELFProgramHeader_size_of_class D host ident _ Hn),
      (ELFHeader_format_of_class D ident _ He Hn).
    repeat split. intros h <-. now rewrite ELFHeader_len_class_of, Hn.
Qed.

End Records.

(** ** Files that are refused *)

Section Refused.

Variable D : Data.
Variable host : byteorder.

(** X10.  A file whose first four bytes are not the magic, or that has
    fewer than four bytes, is refused with [NotAnELF] by the three
    decoders, whatever follows. *)
Theorem wrong_magic_is_not_an_elf (fd : file) :
  firstn 4 fd <> ELFMAG ->
  e_ident_from_fd D host fd = Err NotAnELF
  /\ ELFHeader_from_fd D host fd = Err NotAnELF
  /\ ELF_from_fd D host fd = Err NotAnELF.
Proof.
  intros Hm.
  assert (E : e_ident_from_fd D host fd = Err NotAnELF).
  { unfold e_ident_from_fd, read. cbn [Z.ltb Z.compare].
    change (Z.to_nat 4) with 4%nat. unfold bytes_eqb.
    destruct (list_eq_dec Byte.byte_eq_dec (firstn 4 fd) ELFMAG); [contradiction|].
    reflexivity. }
  unfold ELF_from_fd, ELFHeader_from_fd. rewrite E. auto.
Qed.

Lemma read_magic (rest : list byte) : read 4 (ELFMAG ++ rest) = (ELFMAG, rest).
Proof. reflexivity. Qed.

Lemma _unpack_short (fmt : string) (l : layout) (fd : file) :
  parse_format host fmt = Ok l ->
  (List.length fd < layout_end (l_align l) 0 (l_sizes l))%nat ->
  _unpack host fmt fd
  = Err (match fd with [] => AssertionError | _ => StructError end).
Proof.
  intros Hl Hlen. unfold _unpack, struct.calcsize, struct.unpack.
  rewrite Hl. cbn [bind]. unfold read.
  destruct (Z.ltb_spec (Z.of_nat (layout_end (l_align l) 0 (l_sizes l))) 0); [lia|].
  rewrite Nat2Z.id, firstn_all2, skipn_all2 by lia.
  destruct fd as [|b fd]; [reflexivity|].
  cbn [bind].
  destruct (Nat.eqb_spec (List.length (b :: fd))
              (layout_end (l_align l) 0 (l_sizes l))); [lia | reflexivity].
Qed.

(** X11.  A file cut short is refused with an assertion or a [struct]
    error, never with an error of the library: cut after the magic or
    inside the five identification bytes, cut inside the fixed fields of
    the header, and cut right after the header, where the body would be
    empty.  The error is [AssertionError] when the cut falls exactly where
    a read starts, and [struct.error] inside a record. *)
Theorem truncated_file_errors :
  (forall bs, (List.length bs < 5)%nat ->
     e_ident_from_fd D host (ELFMAG ++ bs)
       = Err (match bs with [] => AssertionError | _ => StructError end)
     /\ ELF_from_fd D host (ELFMAG ++ bs)
        = Err (match bs with [] => AssertionError | _ => StructError end))
  /\ (forall fd ident rest n,
        e_ident_from_fd D host fd = Ok (ident, rest) ->
        (fmt <- ELFHeader_format D ident ;; struct.calcsize host fmt) = Ok n ->
        Z.of_nat (List.length rest) < n ->
        ELFHeader_from_fd D host fd
          = Err (match rest with [] => AssertionError | _ => StructError end)
        /\ ELF_from_fd D host fd
           = Err (match rest with [] => AssertionError | _ => StructError end))
  /\ (forall fd h,
        ELFHeader_from_fd D host fd = Ok (h, []) ->
        ELF_from_fd D host fd = Err AssertionError).
Proof.
  split; [|split].
  - intros bs Hlen.
    assert (E : e_ident_from_fd D host (ELFMAG ++ bs)
                = Err (match bs with [] => AssertionError | _ => StructError end)).
    { unfold e_ident_from_fd. rewrite read_magic.
      change (negb (bytes_eqb ELFMAG ELFMAG)) with false. cbv iota.
      rewrite (_unpack_short "BBBBB" (mkLayout host true [1; 1; 1; 1; 1]%nat) bs eq_refl)
        by (simpl; lia).
      reflexivity. }
    unfold ELF_from_fd, ELFHeader_from_fd. rewrite E. auto.
  - intros fd ident rest n Hid Hn Hlen.
    destruct (ELFHeader_format D ident) as [fmt|] eqn:Hf; [|discriminate].
    cbn [bind] in Hn. unfold struct.calcsize in Hn.
    destruct (parse_format host fmt) as [l|] eqn:Hl; [|discriminate].
    injection Hn as <-.
    assert (E : ELFHeader_from_fd D host fd
                = Err (match rest with [] => AssertionError | _ => StructError end)).
    { unfold ELFHeader_from_fd. rewrite Hid. cbn [bind]. rewrite Hf. cbn [bind].
      rewrite (_unpack_short fmt l rest Hl) by lia. reflexivity. }
    unfold ELF_from_fd. rewrite E. auto.
  - intros fd h Hh. unfold ELF_from_fd. rewrite Hh. reflexivity.
Qed.

(** X12.  The bytes of the padding of the identification block play no
    part: two files that differ only there decode alike, to the same
    container or to the same error. *)
Theorem padding_bytes_are_ignored (b5 pad pad' rest : list byte) (n : Z) :
  List.length b5 = 5%nat ->
  pad_length D = Ok n -> 0 <= n ->
  List.length pad = Z.to_nat n ->
  List.length pad' = Z.to_nat n ->
  e_ident_from_fd D host (ELFMAG ++ b5 ++ pad ++ rest)
    = e_ident_from_fd D host (ELFMAG ++ b5 ++ pad' ++ rest)
  /\ ELFHeader_from_fd D host (ELFMAG ++ b5 ++ pad ++ rest)
     = ELFHeader_from_fd D host (ELFMAG ++ b5 ++ pad' ++ rest)
  /\ ELF_from_fd D host (ELFMAG ++ b5 ++ pad ++ rest)
     = ELF_from_fd D host (ELFMAG ++ b5 ++ pad' ++ rest).
Proof.
  intros H5 Hn H0 Hp Hp'.
  assert (E : e_ident_from_fd D host (ELFMAG ++ b5 ++ pad ++ rest)
              = e_ident_from_fd D host (ELFMAG ++ b5 ++ pad' ++ rest)).
  { rewrite (e_ident_from_fd_app D host b5 pad rest n H5 Hn H0 Hp).
    now rewrite (e_ident_from_fd_app D host b5 pad' rest n H5 Hn H0 Hp'). }
  unfold ELF_from_fd, ELFHeader_from_fd. rewrite E. auto.
Qed.

(** X13.  Only little-endian files of the two classes are decoded.  When
    the encoding of the identification block is not [ELFDATA.LSB], the
    header and the container raise the [ValueError] of [endianess],
    whatever the rest of the file; when it is, and the class is neither
    [ELFCLASS._32] nor [ELFCLASS._64], they raise the [ValueError] of
    [native]. *)
Theorem unsupported_identification (fd rest : file) (ident : e_ident) (lsb : pyint) :
  e_ident_from_fd D host fd = Ok (ident, rest) ->
  getattr (ELFDATA D) "LSB" = Ok lsb ->
  (py_eq (data_encoding ident) lsb = false ->
   ELFHeader_from_fd D host fd
     = Err (ValueError ("Unkown endianess: " +s+ py_repr (data_encoding ident)))
   /\ ELF_from_fd D host fd
      = Err (ValueError ("Unkown endianess: " +s+ py_repr (data_encoding ident))))
  /\ (py_eq (data_encoding ident) lsb = true ->
      forall c32 c64,
        getattr (ELFCLASS D) "_32" = Ok c32 ->
        getattr (ELFCLASS D) "_64" = Ok c64 ->
        py_eq (file_class ident) c32 = false ->
        py_eq (file_class ident) c64 = false ->
        ELFHeader_from_fd D host fd
          = Err (ValueError ("Unkown class: " +s+ py_repr (file_class ident)))
        /\ ELF_from_fd D host fd
           = Err (ValueError ("Unkown class: " +s+ py_repr (file_class ident)))).
Proof.
  intros Hid Hlsb. split.
  - intros Hne.
    assert (E : ELFHeader_from_fd D host fd
                = Err (ValueError ("Unkown endianess: "
                                   +s+ py_repr (data_encoding ident)))).
    { unfold ELFHeader_from_fd. rewrite Hid. cbn [bind].
      unfold ELFHeader_format, endianess. rewrite Hlsb. cbn [bind].
      rewrite Hne. reflexivity. }
    unfold ELF_from_fd. rewrite E. auto.
  - intros He c32 c64 H32 H64 Hn32 Hn64.
    assert (E : ELFHeader_from_fd D host fd
                = Err (ValueError ("Unkown class: " +s+ py_repr (file_class ident)))).
    { unfold ELFHeader_from_fd. rewrite Hid. cbn [bind].
      unfold ELFHeader_format, endianess, native. rewrite Hlsb. cbn [bind].
      rewrite He. cbn [bind]. rewrite H32. cbn [bind]. rewrite Hn32, H64.
      cbn [bind]. rewrite Hn64. reflexivity. }
    unfold ELF_from_fd. rewrite E. auto.
Qed.

End Refused.

(** ** What a decoded container holds *)

Lemma mapM_Forall {A B : Type} (f : A -> result B) (P : B -> Prop) (l : list A)
    (r : list B) :
  (forall x y, f x = Ok y -> P y) -> mapM f l = Ok r -> Forall P r.
Proof.
  intros HP. revert r. induction l as [|a l IH]; simpl; intros r.
  - intros [= <-]. constructor.
  - destruct (f a) as [b|] eqn:Ha; simpl; [|discriminate].
    destruct (mapM f l) as [bs|]; simpl; [|discriminate].
    intros [= <-]. constructor; eauto.
Qed.

Lemma mapM_nth_error {A B : Type} (f : A -> result B) (l : list A) (r : list B) :
  mapM f l = Ok r ->
  forall i y, nth_error r i = Some y ->
              exists x, nth_error l i = Some x /\ f x = Ok y.
Proof.
  revert r. induction l as [|a l IH]; simpl; intros r.
  - intros [= <-] i y H. destruct i; discriminate.
  - destruct (f a) as [b|] eqn:Ha; simpl; [|discriminate].
    destruct (mapM f l) as [bs|]; simpl; [|discriminate].
    intros [= <-] [|i] y H; simpl in *.
    + injection H as <-. eauto.
    + eapply IH; eauto.
Qed.

Lemma length_range (count : Z) : List.length (range count) = Z.to_nat count.
Proof. unfold range. now rewrite length_map, length_seq. Qed.

Lemma nth_error_range (count : Z) (i : nat) (x : Z) :
  nth_error (range count) i = Some x -> x = Z.of_nat i /\ Z.of_nat i < count.
Proof.
  unfold range. intros H.
  assert (Hi : (i < Z.to_nat count)%nat).
  { assert (Hs : nth_error (map Z.of_nat (seq 0 (Z.to_nat count))) i <> None)
      by congruence.
    apply nth_error_Some in Hs. now rewrite length_map, length_seq in Hs. }
  rewrite nth_error_map, nth_error_seq in H.
  destruct (Nat.ltb_spec i (Z.to_nat count)); [|lia].
  simpl in H. injection H as <-. lia.
Qed.

Section Tables2.

Variable host : byteorder.
Context {T : Type} `{DeriveSerialization T}.

Lemma multiple_from_bytes_entries (bs : list byte) (count : Z) (ident : e_ident)
    (l : list T) :
  multiple_from_bytes host bs count ident = Ok l ->
  exists s,
    size host ident = Ok s
    /\ List.length l = Z.to_nat count
    /\ (forall i x, nth_error l i = Some x ->
          from_bytes host (py_slice bs (Z.of_nat i * s) ((Z.of_nat i + 1) * s)) ident
          = Ok x)
    /\ (forall extra,
          0 < s -> count * s <= Z.of_nat (List.length bs) ->
          multiple_from_bytes host (bs ++ extra) count ident = Ok l).
Proof.
  unfold multiple_from_bytes.
  destruct (size host ident) as [s|] eqn:Hs; simpl; [|discriminate].
  intros Hm. exists s. split; [reflexivity|]. split; [|split].
  - rewrite (mapM_length _ _ _ Hm). apply length_range.
  - intros i x Hx.
    destruct (mapM_nth_error _ _ _ Hm i x Hx) as (j & Hj & Hf).
    apply nth_error_range in Hj. destruct Hj as [-> _]. exact Hf.
  - intros extra Hpos Hfit. rewrite <- Hm.
    assert (Hext : forall i, In i (range count) ->
              py_slice (bs ++ extra) (i * s) ((i + 1) * s)
              = py_slice bs (i * s) ((i + 1) * s)).
    { intros i Hi. apply in_range in Hi.
      unfold py_slice, slice_index. rewrite length_app.
      destruct (Z.ltb_spec (i * s) 0); [nia|].
      destruct (Z.ltb_spec ((i + 1) * s) 0); [nia|].
      rewrite !Z.min_l by nia.
      rewrite skipn_app, firstn_app, length_skipn.
      replace (Z.to_nat ((i + 1) * s - i * s)
               - (List.length bs - Z.to_nat (i * s)))%nat with 0%nat by nia.
      rewrite firstn_O, app_nil_r. reflexivity. }
    clear Hm. induction (range count) as [|i r IH]; simpl; [reflexivity|].
    rewrite (Hext i (or_introl eq_refl)).
    rewrite IH by (intros j Hj; apply Hext; now right). reflexivity.
Qed.

(** X14.  A table that decodes has [count] entries (none when [count] is
    zero or negative), and entry [i] is the record decoded from bytes
    [i * size] to [(i + 1) * size] of the buffer; what follows the last
    entry in the buffer is not looked at. *)
Theorem table_entries (bs : list byte) (count : Z) (ident : e_ident) (l : list T) :
  multiple_from_bytes host bs count ident = Ok l ->
  exists s,
    size host ident = Ok s
    /\ List.length l = Z.to_nat count
    /\ (forall i x, nth_error l i = Some x ->
          from_bytes host (py_slice bs (Z.of_nat i * s) ((Z.of_nat i + 1) * s)) ident
          = Ok x)
    /\ (forall extra,
          0 < s -> count * s <= Z.of_nat (List.length bs) ->
          multiple_from_bytes host (bs ++ extra) count ident = Ok l).
Proof. exact (multiple_from_bytes_entries bs count ident l). Qed.

(** X15.  Reading one record from a file.  When the file starts with the
    bytes of a whole record, [from_fd] hands exactly these bytes to
    [from_bytes], returns what it returns and leaves the rest of the file.
    Conversely whatever [from_fd] returns was decoded by [from_bytes] from
    the first bytes of the file, as many as the record has, and the file
    is left after them.  A file that ends inside the record raises the
    error of [struct]; at the end of the file [AssertionError] is
    raised. *)
Theorem from_fd_reads_one_record (ident : e_ident) :
  (forall bs rest,
      size host ident = Ok (Z.of_nat (List.length bs)) ->
      bs <> [] ->
      from_fd host (bs ++ rest) ident
      = (obj <- from_bytes host bs ident ;; Ok (obj, rest)))
  /\ (forall fd obj rest,
        from_fd host fd ident = Ok (obj, rest) ->
        exists bs,
          fd = bs ++ rest /\ bs <> []
          /\ size host ident = Ok (Z.of_nat (List.length bs))
          /\ from_bytes host bs ident = Ok obj)
  /\ (forall fd n,
        size host ident = Ok n ->
        fd <> [] ->
        Z.of_nat (List.length fd) < n ->
        from_fd host fd ident = Err StructError)
  /\ (is_ok (size host ident) = true ->
      from_fd host [] ident = Err AssertionError).
Proof.
  split; [|split; [|split]].
  - intros bs rest Hs Hne. unfold from_fd. unfold size in Hs.
    destruct (_format ident) as [fmt|] eqn:Hf; simpl in *; [|discriminate].
    rewrite Hs. simpl. rewrite read_app_exact.
    destruct bs as [|b bs]; [contradiction|]. reflexivity.
  - intros fd obj rest.
    unfold from_fd, size, from_bytes, struct.calcsize, struct.unpack.
    destruct (_format ident) as [fmt|] eqn:Hf; simpl; [|discriminate].
    destruct (parse_format host fmt) as [l|] eqn:Hl; simpl; [|discriminate].
    destruct (read _ fd) as [bs fd'] eqn:Hr.
    pose proof (read_app _ _ _ _ Hr) as Hfd.
    destruct bs as [|b bs]; [discriminate|].
    cbn [bind].
    destruct (Nat.eqb_spec (List.length (b :: bs))
                (layout_end (l_align l) 0 (l_sizes l))) as [E|]; [|discriminate].
    cbn [bind].
    destruct (init ident (unpack_fields (l_order l) (l_align l) 0 (l_sizes l)
                            (b :: bs))) as [o|] eqn:Hi; [|discriminate].
    cbn [bind]. intros [= <- <-]. exists (b :: bs).
    split; [exact Hfd|]. split; [discriminate|]. split.
    + now rewrite <- E.
    + destruct (Nat.eqb_spec (List.length (b :: bs))
                  (layout_end (l_align l) 0 (l_sizes l))); [exact Hi | contradiction].
  - intros fd n Hs Hne Hlt.
    unfold from_fd, from_bytes, struct.unpack.
    unfold size, struct.calcsize in Hs.
    destruct (_format ident) as [fmt|] eqn:Hf; simpl in *; [|discriminate].
    unfold struct.calcsize.
    destruct (parse_format host fmt) as [l|] eqn:Hl; simpl in *; [|discriminate].
    injection Hs as Hs. unfold read.
    destruct (Z.ltb_spec (Z.of_nat (layout_end (l_align l) 0 (l_sizes l))) 0); [lia|].
    rewrite Nat2Z.id, firstn_all2, skipn_all2 by lia.
    destruct fd as [|b fd]; [contradiction|].
    cbn [bind].
    destruct (Nat.eqb_spec (List.length (b :: fd))
                (layout_end (l_align l) 0 (l_sizes l))) as [E|]; [|reflexivity].
    rewrite E in Hlt. lia.
  - unfold from_fd, size. destruct (_format ident) as [fmt|]; simpl; [|discriminate].
    destruct (struct.calcsize host fmt) as [n|]; simpl; [|discriminate].
    intros _. unfold read. destruct (n <? 0); [reflexivity|].
    now rewrite firstn_nil.
Qed.

End Tables2.

Section Container2.

Variable D : Data.
Variable host : byteorder.

(** The bytes that decoding a header takes from a file. *)
Lemma ELFHeader_from_fd_layout (fd body : file) (h : ELFHeader) :
  ELFHeader_from_fd D host fd = Ok (h, body) ->
  exists c n pre,
    class_of D (h_e_ident h) = Ok c
    /\ endianess D (h_e_ident h) = Ok "<"
    /\ pad_length D = Ok n /\ 0 <= n
    /\ fd = pre ++ body
    /\ Z.of_nat (List.length pre) = 9 + n + (header_size c - 16)
    /\ e_ehsize h = header_size c
    /\ e_shentsize h = section_entry_size c.
Proof.
  intros Hh.
  destruct (ELFHeader_from_fd_inv D host fd body h Hh)
    as (ident & fd1 & fmt & args & Hid & Hfmt & Hun & Hi).
  destruct (ELFHeader_init_inv D host ident args h Hi)
    as (c & Hc & He & E & _ & Heh & Hse).
  destruct (ELFHeader_format_inv D ident fmt Hfmt) as (c' & _ & Hc' & ->).
  assert (c' = c) as -> by congruence.
  destruct (_unpack_inv host _ fd1 body args Hun)
    as (l & bh & Hl & Hfd1 & Hbh & Hlen & _).
  assert (Hbhlen : Z.of_nat (List.length bh) = header_size c - 16).
  { rewrite Hlen. destruct c; simpl in Hl; injection Hl as <-; reflexivity. }
  assert (Hne : fd1 <> []).
  { rewrite Hfd1. destruct bh; [contradiction | discriminate]. }
  destruct (e_ident_from_fd_inv D host fd fd1 ident Hid Hne)
    as (b5 & pad & n & Hfd & H5 & Hn & H0 & Hpad & _).
  exists c, n, (ELFMAG ++ b5 ++ pad ++ bh). subst ident fd1.
  repeat split; auto.
  - now rewrite Hfd, <- !app_assoc.
  - rewrite !length_app, H5, Hpad. simpl List.length. lia.
Qed.

Lemma ELF_from_fd_inv (fd : file) (elf : ELF) :
  ELF_from_fd D host fd = Ok elf ->
  exists c,
    ELFHeader_from_fd D host fd = Ok (header elf, data elf)
    /\ data elf <> []
    /\ class_of D (h_e_ident (header elf)) = Ok c
    /\ ELFSectionHeader_multiple_from_bytes D host
         (py_slice (data elf) (e_shoff (header elf) - header_size c)
            (e_shoff (header elf) - header_size c
             + e_shentsize (header elf) * e_shnum (header elf)))
         (e_shnum (header elf)) (h_e_ident (header elf))
       = Ok (section_headers elf)
    /\ ELFProgramHeader_multiple_from_bytes D host
         (py_slice (data elf) (e_phoff (header elf) - header_size c)
            (e_phoff (header elf) - header_size c
             + e_phentsize (header elf) * e_phnum (header elf)))
         (e_phnum (header elf)) (h_e_ident (header elf))
       = Ok (program_headers elf).
Proof.
  intros He. pose proof He as He0. unfold ELF_from_fd in He.
  destruct (ELFHeader_from_fd D host fd) as [[h body]|] eqn:Hh; simpl in He;
    [|discriminate].
  destruct (ELFHeader_from_fd_layout fd body h Hh) as (c & _ & _ & Hc & _).
  assert (Hne : body <> []) by (destruct body; [discriminate He | discriminate]).
  rewrite (ELF_from_fd_eval D host fd body h c Hh Hne Hc) in He0.
  destruct (ELFSectionHeader_multiple_from_bytes _ _ _ _ _) as [shdrs|] eqn:Hs;
    simpl in He0; [|discriminate].
  destruct (ELFProgramHeader_multiple_from_bytes _ _ _ _ _) as [phdrs|] eqn:Hp;
    simpl in He0; [|discriminate].
  injection He0 as <-. exists c. simpl. auto.
Qed.

(** X16.  For a decoded container, [len] is the number of bytes of the
    file when the identification block has 16 bytes, and differs from it
    by the difference otherwise: [len] counts 52 or 64 bytes for the
    header whatever was read.  Serialising gives as many bytes as the
    file has. *)
Theorem container_length (fd : file) (elf : ELF) :
  ELF_from_fd D host fd = Ok elf ->
  exists n bs,
    pad_length D = Ok n /\ 0 <= n
    /\ ELF_len D elf = Ok (Z.of_nat (List.length fd) + 7 - n)
    /\ ELF_bytes D host elf = Ok bs
    /\ List.length bs = List.length fd.
Proof.
  intros He.
  destruct (ELF_from_fd_inv fd elf He) as (c & Hh & _ & Hc & _).
  destruct (ELFHeader_from_fd_layout fd _ _ Hh)
    as (c' & n & pre & Hc' & _ & Hn & H0 & Hfd & Hpre & _).
  assert (c' = c) as -> by congruence.
  destruct (round_trip_bytes D host fd elf He)
    as (bs & Hbs & _ & p & pad & rest & Hfd' & -> & _ & _).
  exists n, (p ++ zeros (List.length pad) ++ rest).
  split; [exact Hn|]. split; [exact H0|]. split; [|split; [exact Hbs|]].
  - unfold ELF_len. rewrite ELFHeader_len_class_of, Hc. cbn [bind].
    f_equal. rewrite Hfd, length_app. lia.
  - rewrite Hfd', !length_app. unfold zeros. now rewrite repeat_length.
Qed.

Lemma ELFSectionHeader_init_ident (ident : e_ident) (vals : list Z)
    (sh : ELFSectionHeader) :
  ELFSectionHeader_init D ident vals = Ok sh -> sh_e_ident sh = ident.
Proof.
  unfold ELFSectionHeader_init.
  do 11 (destruct vals as [|? vals]; try discriminate).
  destruct (from_value_fallback (SHT D) z0); simpl; [|discriminate].
  destruct (from_value (SHF D) z1); simpl; [|discriminate].
  now intros [= <-].
Qed.

Lemma ELFProgramHeader_init_ident (ident : e_ident) (vals : list Z)
    (ph : ELFProgramHeader) :
  ELFProgramHeader_init D ident vals = Ok ph -> p_e_ident ph = ident.
Proof.
  unfold ELFProgramHeader_init.
  destruct (negb _); [discriminate|].
  destruct (getattr (ELFCLASS D) "_32"); simpl; [|discriminate].
  destruct (py_eq _ _).
  - do 9 (destruct vals as [|? vals]; try discriminate). now intros [= <-].
  - destruct (getattr (ELFCLASS D) "_64"); simpl; [|discriminate].
    destruct (py_eq _ _); [|discriminate].
    do 9 (destruct vals as [|? vals]; try discriminate). now intros [= <-].
Qed.

(** X17.  What a decoded container holds: as many section headers as
    [e_shnum] and as many program headers as [e_phnum]; every one of them
    carries the identification block of the header; the body is not empty
    and is the end of the file; and the header has the sizes of its
    class. *)
Theorem container_invariants (fd : file) (elf : ELF) :
  ELF_from_fd D host fd = Ok elf ->
  List.length (section_headers elf) = Z.to_nat (e_shnum (header elf))
  /\ List.length (program_headers elf) = Z.to_nat (e_phnum (header elf))
  /\ Forall (fun sh => sh_e_ident sh = h_e_ident (header elf)) (section_headers elf)
  /\ Forall (fun ph => p_e_ident ph = h_e_ident (header elf)) (program_headers elf)
  /\ data elf <> []
  /\ (exists pre, fd = pre ++ data elf)
  /\ ELFHeader_len D (header elf) = Ok (e_ehsize (header elf))
  /\ ELFSectionHeader_size D host (h_e_ident (header elf))
     = Ok (e_shentsize (header elf)).
Proof.
  intros He.
  destruct (ELF_from_fd_inv fd elf He) as (c & Hh & Hne & Hc & Hs & Hp).
  destruct (ELFHeader_from_fd_layout fd _ _ Hh)
    as (c' & n & pre & Hc' & Hend & _ & _ & Hfd & _ & Heh & Hse).
  assert (c' = c) as -> by congruence.
  unfold ELFSectionHeader_multiple_from_bytes, ELFProgramHeader_multiple_from_bytes,
    multiple_from_bytes in Hs, Hp.
  destruct (size host _) as [ss|] eqn:Hss in Hs; simpl in Hs; [|discriminate].
  destruct (size host _) as [ps|] eqn:Hps in Hp; simpl in Hp; [|discriminate].
  split; [|split; [|split; [|split; [|split; [|split; [|split]]]]]].
  - rewrite (mapM_length _ _ _ Hs). apply length_range.
  - rewrite (mapM_length _ _ _ Hp). apply length_range.
  - eapply mapM_Forall; [|exact Hs]. cbv beta. intros i sh.
    unfold from_bytes. simpl.
    destruct (ELFSectionHeader_format D _); simpl; [|discriminate].
    destruct (struct.unpack host _ _); simpl; [|discriminate].
    apply ELFSectionHeader_init_ident.
  - eapply mapM_Forall; [|exact Hp]. cbv beta. intros i ph.
    unfold from_bytes. simpl.
    destruct (ELFProgramHeader_format D _); simpl; [|discriminate].
    destruct (struct.unpack host _ _); simpl; [|discriminate].
    apply ELFProgramHeader_init_ident.
  - exact Hne.
  - now exists pre.
  - now rewrite ELFHeader_len_class_of, Hc, Heh.
  - now rewrite (ELFSectionHeader_size_of_class D host _ c Hend Hc), Hse.
Qed.

End Container2.

(** ** Where the tables are read *)

Lemma py_slice_nonneg {A : Type} (l : list A) (a b : Z) :
  0 <= a -> 0 <= b ->
  py_slice l a b
  = firstn (Z.to_nat (Z.min b (Z.of_nat (List.length l))
                      - Z.min a (Z.of_nat (List.length l))))
      (skipn (Z.to_nat (Z.min a (Z.of_nat (List.length l)))) l).
Proof.
  intros Ha Hb. unfold py_slice, slice_index.
  destruct (Z.ltb_spec a 0); [lia|]. destruct (Z.ltb_spec b 0); [lia|].
  reflexivity.
Qed.

Lemma py_slice_app_pre {A : Type} (pre body : list A) (a b : Z) :
  0 <= a -> 0 <= b ->
  py_slice (pre ++ body) (Z.of_nat (List.length pre) + a)
    (Z.of_nat (List.length pre) + b)
  = py_slice body a b.
Proof.
  intros Ha Hb. rewrite !py_slice_nonneg by lia.
  rewrite length_app, Nat2Z.inj_add, !Z.add_min_distr_l.
  set (L := Z.of_nat (List.length body)).
  replace (Z.of_nat (List.length pre) + Z.min b L
           - (Z.of_nat (List.length pre) + Z.min a L))
    with (Z.min b L - Z.min a L) by lia.
  replace (Z.to_nat (Z.of_nat (List.length pre) + Z.min a L))
    with (List.length pre + Z.to_nat (Z.min a L))%nat by lia.
  rewrite skipn_app, skipn_all2 by lia.
  replace (List.length pre + Z.to_nat (Z.min a L) - List.length pre)%nat
    with (Z.to_nat (Z.min a L)) by lia.
  reflexivity.
Qed.

Lemma py_slice_nested {A : Type} (l : list A) (a b x y : Z) :
  0 <= a -> 0 <= x -> x <= y -> 0 < y ->
  y <= Z.of_nat (List.length (py_slice l a b)) ->
  py_slice (py_slice l a b) x y = py_slice l (a + x) (a + y).
Proof.
  intros Ha Hx Hxy Hy Hlen.
  pose proof (py_slice_length l a b) as Hm.
  pose proof (slice_index_bounds (Z.of_nat (List.length l)) b ltac:(lia)) as Hb.
  set (L := Z.of_nat (List.length l)) in *.
  set (hi := slice_index L b) in *.
  assert (Hlo : slice_index L a = Z.min a L).
  { unfold slice_index. destruct (Z.ltb_spec a 0); [lia | reflexivity]. }
  rewrite Hlo in Hm.
  assert (HaL : a < L) by lia.
  rewrite Z.min_l in Hm by lia.
  rewrite (py_slice_nonneg (py_slice l a b)) by lia.
  rewrite (py_slice_nonneg l (a + x) (a + y)) by lia.
  fold L. rewrite Hm.
  rewrite !Z.min_l by lia.
  unfold py_slice. fold L. fold hi. rewrite Hlo, Z.min_l by lia.
  rewrite skipn_firstn_comm, firstn_firstn, skipn_skipn.
  f_equal; [lia|]. f_equal. lia.
Qed.

Section Location.

Variable D : Data.
Variable host : byteorder.

Lemma entry_within (T : Type) (H : DeriveSerialization T) (bs : list byte)
    (ident : e_ident) (s : Z) (i : nat) (x : T) :
  size host ident = Ok s -> 0 < s ->
  from_bytes host (py_slice bs (Z.of_nat i * s) ((Z.of_nat i + 1) * s)) ident = Ok x ->
  (Z.of_nat i + 1) * s <= Z.of_nat (List.length bs).
Proof.
  unfold size, from_bytes, struct.calcsize, struct.unpack.
  destruct (_format ident) as [fmt|]; simpl; [|discriminate].
  destruct (parse_format host fmt) as [l|]; simpl; [|discriminate].
  intros [= <-] Hs.
  destruct (Nat.eqb_spec
              (List.length (py_slice bs
                 (Z.of_nat i * Z.of_nat (layout_end (l_align l) 0 (l_sizes l)))
                 ((Z.of_nat i + 1) * Z.of_nat (layout_end (l_align l) 0 (l_sizes l)))))
              (layout_end (l_align l) 0 (l_sizes l))) as [E|]; [|discriminate].
  intros _. apply (f_equal Z.of_nat) in E.
  rewrite entry_slice_length in E by lia. nia.
Qed.

(** X18.  In a file whose identification block has 16 bytes, section
    header [i] of the decoded container is the record decoded from the
    bytes of the file at offset [e_shoff + i * e_shentsize], provided the
    table does not start inside the header.  Program header [i] is the
    record decoded at offset [e_phoff + i * size], where [size] is the size
    of a program header: [e_phentsize] does not set the distance between
    entries. *)
Theorem tables_at_file_offsets (fd : file) (elf : ELF) :
  ELF_from_fd D host fd = Ok elf ->
  pad_length D = Ok 7 ->
  (e_ehsize (header elf) <= e_shoff (header elf) ->
   forall i sh,
     nth_error (section_headers elf) i = Some sh ->
     ELFSectionHeader_from_bytes D host
       (py_slice fd
          (e_shoff (header elf) + Z.of_nat i * e_shentsize (header elf))
          (e_shoff (header elf) + (Z.of_nat i + 1) * e_shentsize (header elf)))
       (h_e_ident (header elf)) = Ok sh)
  /\ (e_ehsize (header elf) <= e_phoff (header elf) ->
      forall i ph ps,
        ELFProgramHeader_size D host (h_e_ident (header elf)) = Ok ps ->
        nth_error (program_headers elf) i = Some ph ->
        ELFProgramHeader_from_bytes D host
          (py_slice fd (e_phoff (header elf) + Z.of_nat i * ps)
             (e_phoff (header elf) + (Z.of_nat i + 1) * ps))
          (h_e_ident (header elf)) = Ok ph).
Proof.
  intros He Hpad.
  destruct (ELF_from_fd_inv D host fd elf He) as (c & Hh & _ & Hc & Hs & Hp).
  destruct (ELFHeader_from_fd_layout D host fd _ _ Hh)
    as (c' & n & pre & Hc' & Hend & Hn & _ & Hfd & Hpre & Heh & Hse).
  assert (c' = c) as -> by congruence.
  assert (n = 7) as -> by congruence.
  assert (Hprelen : Z.of_nat (List.length pre) = header_size c) by lia.
  assert (Hspos : 0 < section_entry_size c) by (destruct c; reflexivity).
  assert (Hppos : 0 < program_entry_size c) by (destruct c; reflexivity).
  split.
  - intros Hoff i sh Hi.
    destruct (multiple_from_bytes_entries host (H := ELFSectionHeader_derive D) _ _ _ _ Hs)
      as (s & Hsz & _ & Hent & _).
    fold (ELFSectionHeader_size D host (h_e_ident (header elf))) in Hsz.
    rewrite (ELFSectionHeader_size_of_class D host _ c Hend Hc) in Hsz.
    injection Hsz as <-.
    specialize (Hent i sh Hi).
    pose proof (entry_within _ (ELFSectionHeader_derive D) _ _ _ i sh
                  (ELFSectionHeader_size_of_class D host _ c Hend Hc) Hspos Hent)
      as Hin.
    rewrite py_slice_nested in Hent by lia.
    unfold ELFSectionHeader_from_bytes. rewrite <- Hent. f_equal.
    rewrite Hfd at 1. rewrite Hse.
    replace (e_shoff (header elf) + Z.of_nat i * section_entry_size c)
      with (Z.of_nat (List.length pre)
            + (e_shoff (header elf) - header_size c
               + Z.of_nat i * section_entry_size c)) by lia.
    replace (e_shoff (header elf) + (Z.of_nat i + 1) * section_entry_size c)
      with (Z.of_nat (List.length pre)
            + (e_shoff (header elf) - header_size c
               + (Z.of_nat i + 1) * section_entry_size c)) by lia.
    apply py_slice_app_pre; lia.
  - intros Hoff i ph ps Hps Hi.
    destruct (multiple_from_bytes_entries host (H := ELFProgramHeader_derive D) _ _ _ _ Hp)
      as (s & Hsz & _ & Hent & _).
    fold (ELFProgramHeader_size D host (h_e_ident (header elf))) in Hsz.
    assert (s = ps) as -> by congruence.
    rewrite (ELFProgramHeader_size_of_class D host _ c Hc) in Hps.
    injection Hps as <-.
    specialize (Hent i ph Hi).
    pose proof (entry_within _ (ELFProgramHeader_derive D) _ _ _ i ph
                  (ELFProgramHeader_size_of_class D host _ c Hc) Hppos Hent)
      as Hin.
    rewrite py_slice_nested in Hent by lia.
    unfold ELFProgramHeader_from_bytes. rewrite <- Hent. f_equal.
    rewrite Hfd at 1.
    replace (e_phoff (header elf) + Z.of_nat i * program_entry_size c)
      with (Z.of_nat (List.length pre)
            + (e_phoff (header elf) - header_size c
               + Z.of_nat i * program_entry_size c)) by lia.
    replace (e_phoff (header elf) + (Z.of_nat i + 1) * program_entry_size c)
      with (Z.of_nat (List.length pre)
            + (e_phoff (header elf) - header_size c
               + (Z.of_nat i + 1) * program_entry_size c)) by lia.
    apply py_slice_app_pre; lia.
Qed.

End Location.

(** ** From a header to bytes and back *)

Lemma byte_to_of_Z (v : Z) : byte_to_Z (byte_of_Z v) = v mod 256.
Proof.
  unfold byte_of_Z, byte_to_Z.
  pose proof (Z.mod_pos_bound v 256 ltac:(lia)) as R.
  destruct (Byte.of_N (Z.to_N (v mod 256))) as [b|] eqn:E.
  - apply Byte.to_of_N in E. rewrite E. lia.
  - apply Byte.of_N_None_iff in E. lia.
Qed.

Lemma length_encode_le (n : nat) (v : Z) : List.length (encode_le n v) = n.
Proof. revert v. induction n as [|n IH]; intros v; simpl; [reflexivity | now rewrite IH]. Qed.

Lemma decode_encode_le (n : nat) (v : Z) :
  0 <= v < 256 ^ Z.of_nat n -> decode_le (encode_le n v) = v.
Proof.
  revert v. induction n as [|n IH]; intros v Hv.
  - simpl in *. lia.
  - cbn [encode_le decode_le]. rewrite byte_to_of_Z, IH.
    + pose proof (Z.div_mod v 256 ltac:(lia)). lia.
    + rewrite Nat2Z.inj_succ, Z.pow_succ_r in Hv by lia.
      split; [apply Z.div_pos; lia | apply Z.div_lt_upper_bound; lia].
Qed.

Lemma decode_encode_uint (o : byteorder) (n : nat) (v : Z) :
  0 <= v < 256 ^ Z.of_nat n ->
  decode_uint o (encode_uint o n v) = v /\ List.length (encode_uint o n v) = n.
Proof.
  intros Hv. destruct o; simpl.
  - split; [now apply decode_encode_le | apply length_encode_le].
  - rewrite rev_involutive, length_rev.
    split; [now apply decode_encode_le | apply length_encode_le].
Qed.

Lemma layout_end_ge (al : bool) (sizes : list nat) (pos : nat) :
  (pos <= layout_end al pos sizes)%nat.
Proof.
  revert pos. induction sizes as [|n sizes IH]; intros pos; simpl; [lia|].
  specialize (IH (pos + padding al pos n + n)%nat). lia.
Qed.

(** Unpacking what was packed gives the integers back. *)
Lemma unpack_pack_fields (o : byteorder) (al : bool) (sizes : list nat) :
  forall (pos : nat) (vals : list Z) (bs : list byte),
    pack_fields o al pos sizes vals = Ok bs ->
    unpack_fields o al pos sizes bs = vals
    /\ List.length bs = (layout_end al pos sizes - pos)%nat.
Proof.
  induction sizes as [|n sizes IH]; intros pos vals bs.
  - destruct vals; simpl; [|discriminate]. intros [= <-]. simpl. split; [reflexivity | lia].
  - destruct vals as [|v vs]; simpl; [discriminate|].
    destruct ((0 <=? v) && (v <? 256 ^ Z.of_nat n)) eqn:Hr; [|discriminate].
    apply andb_true_iff in Hr. destruct Hr as [H0 H1].
    apply Z.leb_le in H0. apply Z.ltb_lt in H1.
    destruct (pack_fields o al (pos + padding al pos n + n) sizes vs) as [tl|] eqn:Ht;
      simpl; [|discriminate].
    intros [= <-].
    destruct (IH _ _ _ Ht) as [Hu Hl].
    destruct (decode_encode_uint o n v (conj H0 H1)) as [Hd Hn].
    pose proof (layout_end_ge al sizes (pos + padding al pos n + n)).
    rewrite skipn_app, repeat_length, Nat.sub_diag, skipn_all2
      by (rewrite repeat_length; lia).
    cbn [skipn app].
    rewrite firstn_app, Hn, Nat.sub_diag, firstn_all2, firstn_O, app_nil_r by lia.
    rewrite skipn_app, Hn, Nat.sub_diag, skipn_all2 by lia.
    cbn [skipn app]. rewrite Hd, Hu. split; [reflexivity|].
    rewrite !length_app, repeat_length, Hn, Hl. lia.
Qed.

Section HeaderBytes.

Variable D : Data.
Variable host : byteorder.

(** X19.  From a header to bytes and back.  Take an identification block
    and a header that the constructors accept, and tables whose padding
    length is not negative.  If the header serialises, decoding its bytes,
    followed by anything, gives the header back and leaves what
    follows. *)
Theorem header_encode_decode (fc de fv oa av : Z) (ident : e_ident)
    (args : list Z) (h : ELFHeader) (bs : list byte) (n : Z) :
  e_ident_init D ELFMAG fc de fv oa av = Ok ident ->
  ELFHeader_init D host ident args = Ok h ->
  pad_length D = Ok n -> 0 <= n ->
  ELFHeader_bytes D host h = Ok bs ->
  forall rest, ELFHeader_from_fd D host (bs ++ rest) = Ok (h, rest).
Proof.
  intros Hid Hi Hn H0 Hb rest.
  destruct (ELFHeader_init_inv D host ident args h Hi)
    as (c & Hc & He & E & Hargs & _ & _).
  destruct (ident_of_fields_inv D [fc; de; fv; oa; av] ident Hid) as [Hmag Hf].
  unfold ELFHeader_bytes in Hb. rewrite E in Hb.
  unfold e_ident_bytes, struct.pack in Hb. fold (ident_fields ident) in Hb.
  rewrite (ident_layout host) in Hb. cbn [bind l_order l_align l_sizes] in Hb.
  destruct (pack_fields host true 0 [1; 1; 1; 1; 1]%nat (ident_fields ident))
    as [b5|] eqn:H5; [|discriminate].
  cbn [bind] in Hb. rewrite Hn in Hb. cbn [bind] in Hb.
  rewrite (ELFHeader_format_of_class D ident c He Hc) in Hb. cbn [bind] in Hb.
  destruct (header_layout host c) as (sizes & Hl). rewrite Hl in Hb.
  cbn [bind l_order l_align l_sizes] in Hb. fold (header_fields h) in Hb.
  destruct (pack_fields LittleEndian false 0 sizes (header_fields h))
    as [bh|] eqn:Hh; [|discriminate].
  cbn [bind] in Hb. injection Hb as <-.
  destruct (unpack_pack_fields _ _ _ _ _ _ H5) as [Hu5 Hl5].
  destruct (unpack_pack_fields _ _ _ _ _ _ Hh) as [Huh Hlh].
  simpl in Hl5.
  assert (Hbhlen : List.length bh = layout_end false 0 sizes) by lia.
  assert (Hbhne : bh <> []).
  { intros ->. destruct c; simpl in Hl; injection Hl as <-; discriminate Hbhlen. }
  unfold ELFHeader_from_fd. rewrite Hmag, <- !app_assoc.
  rewrite (e_ident_from_fd_app D host b5 (repeat x00 (Z.to_nat n)) (bh ++ rest) n)
    by (auto; try lia; apply repeat_length).
  rewrite Hu5, Hf. unfold ident_of_fields. rewrite Hid. cbn [bind].
  rewrite (ELFHeader_format_of_class D ident c He Hc). cbn [bind].
  rewrite (_unpack_app host _ _ bh rest Hl) by assumption.
  cbn [bind l_order l_align l_sizes]. rewrite Huh, <- Hargs, Hi. reflexivity.
Qed.

End HeaderBytes.

(** ** The further properties on concrete inputs *)

Lemma record_bytes_always_raise_witness :
  ELFSectionHeader_bytes sample_data LittleEndian
    (mkELFSectionHeader sample_ident 0 (Int 0) (Int 0) 0 0 0 0 0 0 0)
  = Err StructError.
Proof.
  destruct (record_bytes_always_raise sample_data LittleEndian
              (mkELFSectionHeader sample_ident 0 (Int 0) (Int 0) 0 0 0 0 0 0 0)
              (mkELFProgramHeader sample_ident 0 0 0 0 0 0 0 0)) as (_ & _ & H & _).
  apply H. reflexivity.
Defined.

Lemma program_header_field_order_witness :
  ELFProgramHeader_init sample_data sample_ident32 [1; 2; 3; 4; 5; 6; 7; 8]
    = Ok (mkELFProgramHeader sample_ident32 1 7 2 3 4 5 6 8)
  /\ ELFProgramHeader_init sample_data sample_ident [1; 7; 2; 3; 4; 5; 6; 8]
     = Ok (mkELFProgramHeader sample_ident 1 7 2 3 4 5 6 8).
Proof.
  destruct (program_header_field_order sample_data sample_ident32 sample_ident
              1 7 2 3 4 5 6 8 eq_refl eq_refl) as (H1 & H2 & _).
  split; assumption.
Defined.

Lemma record_sizes_witness :
  ELFSectionHeader_size sample_data BigEndian sample_ident32 = Ok 40
  /\ ELFProgramHeader_size sample_data BigEndian sample_ident32 = Ok 32
  /\ ELFSectionHeader_size sample_data BigEndian sample_ident = Ok 64
  /\ ELFProgramHeader_size sample_data BigEndian sample_ident = Ok 56.
Proof.
  destruct (record_sizes sample_data BigEndian sample_ident32 eq_refl) as [H32 _].
  destruct (record_sizes sample_data BigEndian sample_ident eq_refl) as [_ H64].
  destruct (H32 eq_refl) as (A & B & _). destruct (H64 eq_refl) as (C & E & _).
  auto.
Defined.

Lemma wrong_magic_is_not_an_elf_witness :
  ELF_from_fd sample_data LittleEndian [] = Err NotAnELF
  /\ ELF_from_fd sample_data LittleEndian ([x7f; x45; x4c; x47] ++ zeros 124)
     = Err NotAnELF.
Proof.
  split.
  - apply (wrong_magic_is_not_an_elf sample_data LittleEndian []). discriminate.
  - apply (wrong_magic_is_not_an_elf sample_data LittleEndian). discriminate.
Defined.

Lemma truncated_file_errors_witness :
  ELF_from_fd sample_data LittleEndian (ELFMAG ++ []) = Err AssertionError
  /\ ELF_from_fd sample_data LittleEndian (ELFMAG ++ [x02; x01]) = Err StructError
  /\ ELF_from_fd sample_data LittleEndian
       (ELFMAG ++ [x02; x01; x00; x00; x00] ++ zeros 7 ++ minimal_fields x40)
     = Err AssertionError.
Proof.
  destruct (truncated_file_errors sample_data LittleEndian) as (H1 & _ & H3).
  split; [|split].
  - apply (H1 []). simpl. lia.
  - apply (H1 [x02; x01]). simpl. lia.
  - eapply H3. vm_compute. reflexivity.
Defined.

Lemma padding_bytes_are_ignored_witness :
  ELF_from_fd sample_data LittleEndian (padded_elf (repeat xff 7))
  = ELF_from_fd sample_data LittleEndian (padded_elf (zeros 7)).
Proof.
  apply (padding_bytes_are_ignored sample_data LittleEndian
           [x02; x01; x00; x00; x00] (repeat xff 7) (zeros 7)
           (minimal_fields x40 ++ zeros 64) 7); (reflexivity || lia).
Defined.

Lemma unsupported_identification_witness :
  ELF_from_fd sample_data LittleEndian
    (ELFMAG ++ [x02; x02; x00; x00; x00] ++ zeros 7 ++ minimal_fields x40 ++ zeros 64)
  = Err (ValueError "Unkown endianess: <ELFDATA.MSB: 2>")
  /\ ELF_from_fd sample_data LittleEndian
       (ELFMAG ++ [x00; x01; x00; x00; x00] ++ zeros 7 ++ minimal_fields x40 ++ zeros 64)
     = Err (ValueError "Unkown class: <ELFCLASS.NONE: 0>").
Proof.
  split.
  - destruct (unsupported_identification sample_data LittleEndian
                (ELFMAG ++ [x02; x02; x00; x00; x00] ++ zeros 7
                 ++ minimal_fields x40 ++ zeros 64)
                (minimal_fields x40 ++ zeros 64)
                (mk_e_ident ELFMAG (EnumItem (mkNamed 2 "ELFCLASS._64"))
                   (EnumItem (mkNamed 2 "ELFDATA.MSB")) 0
                   (EnumItem (mkNamed 0 "OSABI.NONE")) 0)
                (EnumItem (mkNamed 1 "ELFDATA.LSB")) eq_refl eq_refl) as [H _].
    apply H. reflexivity.
  - destruct (unsupported_identification sample_data LittleEndian
                (ELFMAG ++ [x00; x01; x00; x00; x00] ++ zeros 7
                 ++ minimal_fields x40 ++ zeros 64)
                (minimal_fields x40 ++ zeros 64)
                (mk_e_ident ELFMAG (EnumItem (mkNamed 0 "ELFCLASS.NONE"))
                   (EnumItem (mkNamed 1 "ELFDATA.LSB")) 0
                   (EnumItem (mkNamed 0 "OSABI.NONE")) 0)
                (EnumItem (mkNamed 1 "ELFDATA.LSB")) eq_refl eq_refl) as [_ H].
    apply (H eq_refl (EnumItem (mkNamed 1 "ELFCLASS._32"))
             (EnumItem (mkNamed 2 "ELFCLASS._64"))); reflexivity.
Defined.

Lemma table_entries_witness :
  exists l,
    ELFProgramHeader_multiple_from_bytes sample_data LittleEndian
      (([x01; x00; x00; x00] ++ zeros 52) ++ ([x02; x00; x00; x00] ++ zeros 52))
      2 sample_ident = Ok l
    /\ List.length l = 2%nat
    /\ ELFProgramHeader_multiple_from_bytes sample_data LittleEndian
         ((([x01; x00; x00; x00] ++ zeros 52) ++ ([x02; x00; x00; x00] ++ zeros 52))
          ++ [xff; xff; xff])
         2 sample_ident = Ok l.
Proof.
  assert (H : exists l,
             ELFProgramHeader_multiple_from_bytes sample_data LittleEndian
               (([x01; x00; x00; x00] ++ zeros 52) ++ ([x02; x00; x00; x00] ++ zeros 52))
               2 sample_ident = Ok l)
    by (eexists; vm_compute; reflexivity).
  destruct H as [l H]. exists l. split; [exact H|].
  destruct (table_entries LittleEndian (H := ELFProgramHeader_derive sample_data)
              _ _ _ _ H) as (s & Hs & Hlen & _ & Hext).
  split; [exact Hlen|].
  assert (s = 56) as -> by (vm_compute in Hs; now injection Hs).
  apply Hext; simpl; lia.
Defined.

Lemma from_fd_reads_one_record_witness :
  exists sh,
    from_fd LittleEndian (H := ELFSectionHeader_derive sample_data)
      (([x01; x00; x00; x00; x03; x00; x00; x00] ++ zeros 56) ++ [x2a; x2b])
      sample_ident
    = Ok (sh, [x2a; x2b])
    /\ sh_name sh = 1 /\ int_of (sh_type sh) = 3.
Proof.
  destruct (from_fd_reads_one_record LittleEndian
              (H := ELFSectionHeader_derive sample_data) sample_ident) as [Hread _].
  rewrite (Hread ([x01; x00; x00; x00; x03; x00; x00; x00] ++ zeros 56) [x2a; x2b]
             eq_refl ltac:(discriminate)).
  eexists. split; [vm_compute; reflexivity|]. split; reflexivity.
Defined.

Lemma container_length_witness :
  exists elf,
    ELF_from_fd sample_data LittleEndian (minimal_elf x02 x01 x40) = Ok elf
    /\ ELF_len sample_data elf = Ok 128.
Proof.
  assert (H : exists elf,
             ELF_from_fd sample_data LittleEndian (minimal_elf x02 x01 x40) = Ok elf)
    by (eexists; vm_compute; reflexivity).
  destruct H as [elf H]. exists elf. split; [exact H|].
  destruct (container_length sample_data LittleEndian _ elf H)
    as (n & bs & Hn & _ & Hlen & _).
  assert (n = 7) as -> by (vm_compute in Hn; now injection Hn).
  exact Hlen.
Defined.

Lemma container_invariants_witness :
  exists elf,
    ELF_from_fd sample_data LittleEndian long_phentsize_elf = Ok elf
    /\ List.length (section_headers elf) = Z.to_nat (e_shnum (header elf))
    /\ List.length (program_headers elf) = Z.to_nat (e_phnum (header elf)).
Proof.
  assert (H : exists elf,
             ELF_from_fd sample_data LittleEndian long_phentsize_elf = Ok elf)
    by (eexists; vm_compute; reflexivity).
  destruct H as [elf H]. exists elf. split; [exact H|].
  destruct (container_invariants sample_data LittleEndian _ elf H) as (A & B & _).
  split; assumption.
Defined.

Lemma tables_at_file_offsets_witness :
  exists elf ph,
    ELF_from_fd sample_data LittleEndian long_phentsize_elf = Ok elf
    /\ nth_error (program_headers elf) 0 = Some ph
    /\ ELFProgramHeader_from_bytes sample_data LittleEndian
         (py_slice long_phentsize_elf
            (e_phoff (header elf) + Z.of_nat 0 * 56)
            (e_phoff (header elf) + (Z.of_nat 0 + 1) * 56))
         (h_e_ident (header elf)) = Ok ph.
Proof.
  assert (H : exists elf,
             ELF_from_fd sample_data LittleEndian long_phentsize_elf = Ok elf)
    by (eexists; vm_compute; reflexivity).
  destruct H as [elf H].
  destruct (tables_at_file_offsets sample_data LittleEndian _ elf H eq_refl)
    as [_ Hp].
  pose proof H as H'. vm_compute in H'. injection H' as <-.
  eexists. eexists. split; [exact H|]. split; [reflexivity|].
  apply Hp; [simpl; lia | reflexivity | reflexivity].
Defined.

Lemma header_encode_decode_witness :
  exists h bs,
    ELFHeader_init sample_data LittleEndian sample_ident
      [0; 0; 0; 0; 0; 64; 0; 64; 0; 0; 64; 1; 0] = Ok h
    /\ ELFHeader_bytes sample_data LittleEndian h = Ok bs
    /\ ELFHeader_from_fd sample_data LittleEndian (bs ++ [x2a]) = Ok (h, [x2a]).
Proof.
  assert (Hh : exists h,
             ELFHeader_init sample_data LittleEndian sample_ident
               [0; 0; 0; 0; 0; 64; 0; 64; 0; 0; 64; 1; 0] = Ok h)
    by (eexists; vm_compute; reflexivity).
  destruct Hh as [h Hh].
  assert (Hb : exists bs, ELFHeader_bytes sample_data LittleEndian h = Ok bs).
  { pose proof Hh as Hh'. vm_compute in Hh'. injection Hh' as <-.
    eexists. vm_compute. reflexivity. }
  destruct Hb as [bs Hb]. exists h, bs. split; [exact Hh|]. split; [exact Hb|].
  apply (header_encode_decode sample_data LittleEndian 2 1 0 0 0 sample_ident
           _ h bs 7 eq_refl Hh eq_refl ltac:(lia) Hb).
Defined.

(** ** Where the fields are *)

Lemma unpack_fields_range (o : byteorder) (al : bool) (sizes : list nat) :
  forall pos bs,
    (layout_end al pos sizes - pos <= List.length bs)%nat ->
    Forall2 (fun n v => 0 <= v < 256 ^ Z.of_nat n) sizes
      (unpack_fields o al pos sizes bs).
Proof.
  induction sizes as [|n sizes IH]; intros pos bs Hlen; simpl; constructor.
  - pose proof (layout_end_ge al sizes (pos + padding al pos n + n)) as Hge.
    simpl in Hlen.
    pose proof (decode_uint_range o (firstn n (skipn (padding al pos n) bs))) as R.
    rewrite length_firstn, length_skipn, Nat.min_l in R by lia. exact R.
  - apply IH. simpl in Hlen. rewrite !length_skipn.
    pose proof (layout_end_ge al sizes (pos + padding al pos n + n)). lia.
Qed.

Section Layout.

Variable D : Data.
Variable host : byteorder.

(** X20.  A header decoded from a file holds unsigned integers within
    the width of their fields: 16 bits for the type, the machine, the
    sizes, the counts and the string table index, 32 bits for the version
    and the flags, and 32 or 64 bits, by class, for the entry point and
    the two table offsets. *)
Theorem header_fields_in_range (fd rest : file) (h : ELFHeader) :
  ELFHeader_from_fd D host fd = Ok (h, rest) ->
  exists w,
    (native D (h_e_ident h) = Ok "I" /\ w = 4%nat
     \/ native D (h_e_ident h) = Ok "Q" /\ w = 8%nat)
    /\ Forall2 (fun n v => 0 <= v < 256 ^ Z.of_nat n)
         [2; 2; 4; w; w; w; 4; 2; 2; 2; 2; 2; 2]%nat (header_fields h).
Proof.
  intros Hh.
  destruct (ELFHeader_from_fd_inv D host fd rest h Hh)
    as (ident & fd1 & fmt & args & _ & Hfmt & Hun & Hi).
  destruct (ELFHeader_init_inv D host ident args h Hi)
    as (c & Hc & _ & E & Hargs & _ & _).
  destruct (ELFHeader_format_inv D ident fmt Hfmt) as (c' & _ & Hc' & ->).
  assert (c' = c) as -> by congruence.
  destruct (_unpack_inv host _ fd1 rest args Hun)
    as (l & bh & Hl & _ & _ & Hlen & Hvals).
  rewrite <- Hargs, Hvals, E. clear Hvals.
  exists (match c with Class32 => 4%nat | Class64 => 8%nat end). split.
  - rewrite native_class_of, Hc. destruct c; auto.
  - destruct c; simpl in Hl; injection Hl as <-;
      apply unpack_fields_range; simpl in *; lia.
Qed.

Lemma unpack_fields_cons (o : byteorder) (al : bool) (pos n : nat)
    (rest : list nat) (bs : list byte) (off : nat) :
  unpack_fields o al pos (n :: rest) (skipn off bs)
  = field_at o bs (off + padding al pos n) n
      :: unpack_fields o al (pos + padding al pos n + n) rest
           (skipn (off + padding al pos n + n) bs).
Proof.
  cbn [unpack_fields]. unfold field_at. rewrite !skipn_skipn.
  replace (padding al pos n + off)%nat with (off + padding al pos n)%nat by lia.
  replace (n + (off + padding al pos n))%nat
    with (off + padding al pos n + n)%nat by lia.
  reflexivity.
Qed.

(** X21.  The place of each field of a program header in its bytes: in
    the 32-bit class the eight fields are 4 bytes each and the flags are
    the seventh, at offset 24; in the 64-bit class the flags are the
    second, at offset 4, and the six fields after them are 8 bytes each.
    Every field is read in the byte order of the host. *)
Theorem program_header_wire_layout (ident : e_ident) (bs : list byte) :
  (native D ident = Ok "I" -> List.length bs = 32%nat ->
   ELFProgramHeader_from_bytes D host bs ident
   = Ok (mkELFProgramHeader ident
           (field_at host bs 0 4) (field_at host bs 24 4) (field_at host bs 4 4)
           (field_at host bs 8 4) (field_at host bs 12 4) (field_at host bs 16 4)
           (field_at host bs 20 4) (field_at host bs 28 4)))
  /\ (native D ident = Ok "Q" -> List.length bs = 56%nat ->
      ELFProgramHeader_from_bytes D host bs ident
      = Ok (mkELFProgramHeader ident
              (field_at host bs 0 4) (field_at host bs 4 4) (field_at host bs 8 8)
              (field_at host bs 16 8) (field_at host bs 24 8) (field_at host bs 32 8)
              (field_at host bs 40 8) (field_at host bs 48 8))).
Proof.
  split; intros Hn Hlen.
  - pose proof (native_I_class D ident Hn) as Hc.
    unfold ELFProgramHeader_from_bytes, from_bytes, struct.unpack. simpl _format.
    rewrite ELFProgramHeader_format_class_of, Hc. cbn [bind].
    change (parse_format host "IIIIIIII")
      with (Ok (mkLayout host true [4; 4; 4; 4; 4; 4; 4; 4]%nat)).
    cbn [bind l_order l_align l_sizes]. rewrite Hlen.
    change (Nat.eqb 32 (layout_end true 0 [4; 4; 4; 4; 4; 4; 4; 4]%nat)) with true.
    cbv iota.
    replace (unpack_fields host true 0 [4; 4; 4; 4; 4; 4; 4; 4]%nat bs)
      with (unpack_fields host true 0 [4; 4; 4; 4; 4; 4; 4; 4]%nat (skipn 0 bs))
      by reflexivity.
    rewrite !unpack_fields_cons. cbn [unpack_fields].
    cbn [padding Nat.modulo Nat.divmod Nat.sub Nat.add fst snd].
    cbn [init ELFProgramHeader_derive]. unfold ELFProgramHeader_init.
    cbn [List.length Nat.eqb negb]. unfold class_of in Hc.
    destruct (getattr (ELFCLASS D) "_32") as [c32|]; cbn [bind] in *; [|discriminate].
    destruct (py_eq (file_class ident) c32); [reflexivity|].
    destruct (getattr (ELFCLASS D) "_64"); cbn [bind] in *; [|discriminate].
    destruct (py_eq (file_class ident) _); discriminate.
  - pose proof (native_Q_class64 D ident Hn) as Hc.
    unfold ELFProgramHeader_from_bytes, from_bytes, struct.unpack. simpl _format.
    rewrite ELFProgramHeader_format_class_of, Hc. cbn [bind].
    change (parse_format host "IIQQQQQQ")
      with (Ok (mkLayout host true [4; 4; 8; 8; 8; 8; 8; 8]%nat)).
    cbn [bind l_order l_align l_sizes]. rewrite Hlen.
    change (Nat.eqb 56 (layout_end true 0 [4; 4; 8; 8; 8; 8; 8; 8]%nat)) with true.
    cbv iota.
    replace (unpack_fields host true 0 [4; 4; 8; 8; 8; 8; 8; 8]%nat bs)
      with (unpack_fields host true 0 [4; 4; 8; 8; 8; 8; 8; 8]%nat (skipn 0 bs))
      by reflexivity.
    rewrite !unpack_fields_cons. cbn [unpack_fields].
    cbn [padding Nat.modulo Nat.divmod Nat.sub Nat.add fst snd].
    cbn [init ELFProgramHeader_derive]. unfold ELFProgramHeader_init.
    cbn [List.length Nat.eqb negb]. unfold class_of in Hc.
    destruct (getattr (ELFCLASS D) "_32") as [c32|]; cbn [bind] in *; [|discriminate].
    destruct (py_eq (file_class ident) c32); [discriminate|].
    destruct (getattr (ELFCLASS D) "_64"); cbn [bind] in *; [|discriminate].
    destruct (py_eq (file_class ident) _); [reflexivity | discriminate].
Qed.

(** X22.  The place of each field of a section header in its bytes,
    little-endian: name and type at offsets 0 and 4; then flags, address,
    offset and size, of 4 bytes each from offset 8 in the 32-bit class and
    of 8 bytes each from offset 8 in the 64-bit class; then link and info,
    of 4 bytes each; then alignment and entry size.  A section header
    that decodes was given exactly 40 or 64 bytes; its type and its flags
    hold the integers found at their place. *)
Theorem section_header_wire_layout (ident : e_ident) (bs : list byte)
    (sh : ELFSectionHeader) :
  ELFSectionHeader_from_bytes D host bs ident = Ok sh ->
  (native D ident = Ok "I" ->
   List.length bs = 40%nat
   /\ [sh_name sh; int_of (sh_type sh); int_of (sh_flags sh); sh_addr sh;
       sh_offset sh; sh_size sh; sh_link sh; sh_info sh; sh_addralign sh;
       sh_entsize sh]
      = [field_at LittleEndian bs 0 4; field_at LittleEndian bs 4 4;
         field_at LittleEndian bs 8 4; field_at LittleEndian bs 12 4;
         field_at LittleEndian bs 16 4; field_at LittleEndian bs 20 4;
         field_at LittleEndian bs 24 4; field_at LittleEndian bs 28 4;
         field_at LittleEndian bs 32 4; field_at LittleEndian bs 36 4])
  /\ (native D ident = Ok "Q" ->
      List.length bs = 64%nat
      /\ [sh_name sh; int_of (sh_type sh); int_of (sh_flags sh); sh_addr sh;
          sh_offset sh; sh_size sh; sh_link sh; sh_info sh; sh_addralign sh;
          sh_entsize sh]
         = [field_at LittleEndian bs 0 4; field_at LittleEndian bs 4 4;
            field_at LittleEndian bs 8 8; field_at LittleEndian bs 16 8;
            field_at LittleEndian bs 24 8; field_at LittleEndian bs 32 8;
            field_at LittleEndian bs 40 4; field_at LittleEndian bs 44 4;
            field_at LittleEndian bs 48 8; field_at LittleEndian bs 56 8]).
Proof.
  unfold ELFSectionHeader_from_bytes, from_bytes, struct.unpack. simpl _format.
  destruct (ELFSectionHeader_format D ident) as [fmt|] eqn:Hf; cbn [bind]; [|discriminate].
  destruct (ELFSectionHeader_format_inv D ident fmt Hf) as (c & _ & Hc & ->).
  assert (Hinit : forall vals,
            ELFSectionHeader_init D ident vals = Ok sh ->
            vals = [sh_name sh; int_of (sh_type sh); int_of (sh_flags sh); sh_addr sh;
                    sh_offset sh; sh_size sh; sh_link sh; sh_info sh;
                    sh_addralign sh; sh_entsize sh]).
  { intros vals. unfold ELFSectionHeader_init.
    do 11 (destruct vals as [|? vals]; try discriminate).
    destruct (from_value_fallback (SHT D) z0) as [t|] eqn:Ht; cbn [bind]; [|discriminate].
    destruct (from_value (SHF D) z1) as [f|] eqn:Hfl; cbn [bind]; [|discriminate].
    intros [= <-]. cbn.
    now rewrite (from_value_fallback_int_of _ _ _ Ht), (from_value_int_of _ _ _ Hfl). }
  intros Hsh. split; intros Hn.
  - assert (c = Class32) as ->
      by (pose proof (native_I_class D ident Hn); congruence).
    change (parse_format host (section_format Class32))
      with (Ok (mkLayout LittleEndian false [4; 4; 4; 4; 4; 4; 4; 4; 4; 4]%nat)) in Hsh.
    cbn [bind l_order l_align l_sizes] in Hsh.
    destruct (Nat.eqb_spec (List.length bs)
                (layout_end false 0 [4; 4; 4; 4; 4; 4; 4; 4; 4; 4]%nat)) as [E|];
      [|discriminate].
    split; [exact E|]. cbn [bind init ELFSectionHeader_derive] in Hsh.
    apply Hinit in Hsh. rewrite <- Hsh.
    replace (unpack_fields LittleEndian false 0 [4; 4; 4; 4; 4; 4; 4; 4; 4; 4]%nat bs)
      with (unpack_fields LittleEndian false 0 [4; 4; 4; 4; 4; 4; 4; 4; 4; 4]%nat
              (skipn 0 bs)) by reflexivity.
    rewrite !unpack_fields_cons. reflexivity.
  - assert (c = Class64) as ->
      by (pose proof (native_Q_class64 D ident Hn); congruence).
    change (parse_format host (section_format Class64))
      with (Ok (mkLayout LittleEndian false [4; 4; 8; 8; 8; 8; 4; 4; 8; 8]%nat)) in Hsh.
    cbn [bind l_order l_align l_sizes] in Hsh.
    destruct (Nat.eqb_spec (List.length bs)
                (layout_end false 0 [4; 4; 8; 8; 8; 8; 4; 4; 8; 8]%nat)) as [E|];
      [|discriminate].
    split; [exact E|]. cbn [bind init ELFSectionHeader_derive] in Hsh.
    apply Hinit in Hsh. rewrite <- Hsh.
    replace (unpack_fields LittleEndian false 0 [4; 4; 8; 8; 8; 8; 4; 4; 8; 8]%nat bs)
      with (unpack_fields LittleEndian false 0 [4; 4; 8; 8; 8; 8; 4; 4; 8; 8]%nat
              (skipn 0 bs)) by reflexivity.
    rewrite !unpack_fields_cons. reflexivity.
Qed.

(** X23.  The identification block serialises to its magic, five bytes
    and [EI.NIDENT - EI.PAD + 1] zero bytes (none if that is negative).
    For a block with the four-byte magic and [EI.NIDENT] more than 9, the
    serialised block has [EI.NIDENT] bytes exactly when [EI.PAD] is 10. *)
Theorem ident_block_length (i : e_ident) (bs : list byte) (nident pad : pyint) :
  getattr (EI D) "NIDENT" = Ok nident ->
  getattr (EI D) "PAD" = Ok pad ->
  e_ident_bytes D host i = Ok bs ->
  Z.of_nat (List.length bs)
  = Z.of_nat (List.length (file_identification i)) + 5
    + Z.max 0 (int_of nident - int_of pad + 1)
  /\ (file_identification i = ELFMAG -> 9 < int_of nident ->
      (Z.of_nat (List.length bs) = int_of nident <-> int_of pad = 10)).
Proof.
  intros Hn Hp Hb.
  assert (Hlen : Z.of_nat (List.length bs)
                 = Z.of_nat (List.length (file_identification i)) + 5
                   + Z.max 0 (int_of nident - int_of pad + 1)).
  { unfold e_ident_bytes, struct.pack, pad_length in Hb.
    rewrite (ident_layout host), Hn, Hp in Hb. cbn [bind l_order l_align l_sizes] in Hb.
    destruct (pack_fields host true 0 [1; 1; 1; 1; 1]%nat _) as [b5|] eqn:H5;
      [|discriminate].
    cbn [bind] in Hb. injection Hb as <-.
    destruct (unpack_pack_fields _ _ _ _ _ _ H5) as [_ Hl5]. simpl in Hl5.
    rewrite !length_app, repeat_length, Hl5. lia. }
  split; [exact Hlen|].
  intros Hm H9. rewrite Hlen, Hm. simpl List.length. lia.
Qed.

End Layout.

Lemma header_fields_in_range_witness :
  exists h w,
    ELFHeader_from_fd sample_data LittleEndian (minimal_elf x02 x01 x40)
      = Ok (h, zeros 64)
    /\ Forall2 (fun n v => 0 <= v < 256 ^ Z.of_nat n)
         [2; 2; 4; w; w; w; 4; 2; 2; 2; 2; 2; 2]%nat (header_fields h).
Proof.
  assert (H : exists h,
             ELFHeader_from_fd sample_data LittleEndian (minimal_elf x02 x01 x40)
             = Ok (h, zeros 64))
    by (eexists; vm_compute; reflexivity).
  destruct H as [h H].
  destruct (header_fields_in_range sample_data LittleEndian _ _ h H) as (w & _ & Hr).
  exists h, w. split; [exact H | exact Hr].
Defined.

Lemma program_header_wire_layout_witness :
  ELFProgramHeader_from_bytes sample_data BigEndian
    ([x00; x00; x00; x01; x00; x00; x00; x05] ++ zeros 48) sample_ident
  = Ok (mkELFProgramHeader sample_ident 1 5 0 0 0 0 0 0).
Proof.
  destruct (program_header_wire_layout sample_data BigEndian sample_ident
              ([x00; x00; x00; x01; x00; x00; x00; x05] ++ zeros 48)) as [_ H].
  exact (H eq_refl eq_refl).
Defined.

Lemma section_header_wire_layout_witness :
  exists sh,
    ELFSectionHeader_from_bytes sample_data LittleEndian
      ([x01; x00; x00; x00; x03; x00; x00; x00] ++ zeros 56) sample_ident = Ok sh
    /\ sh_name sh = 1 /\ int_of (sh_type sh) = 3.
Proof.
  assert (H : exists sh,
             ELFSectionHeader_from_bytes sample_data LittleEndian
               ([x01; x00; x00; x00; x03; x00; x00; x00] ++ zeros 56) sample_ident
             = Ok sh)
    by (eexists; vm_compute; reflexivity).
  destruct H as [sh H]. exists sh. split; [exact H|].
  destruct (section_header_wire_layout sample_data LittleEndian _ _ sh H) as [_ H64].
  destruct (H64 eq_refl) as [_ E]. injection E as E1 E2 _.
  split; [exact E1 | exact E2].
Defined.

Lemma ident_block_length_witness :
  exists bs,
    e_ident_bytes sample_data LittleEndian sample_ident = Ok bs
    /\ Z.of_nat (List.length bs) = 16.
Proof.
  assert (H : exists bs, e_ident_bytes sample_data LittleEndian sample_ident = Ok bs)
    by (eexists; vm_compute; reflexivity).
  destruct H as [bs H]. exists bs. split; [exact H|].
  destruct (ident_block_length sample_data LittleEndian sample_ident bs
              (EnumItem (mkNamed 16 "EI.NIDENT")) (EnumItem (mkNamed 10 "EI.PAD"))
              eq_refl eq_refl H) as (_ & Hiff).
  apply (Hiff eq_refl); [simpl; lia | reflexivity].
Defined.

(** ** The size fields of the header *)

Section HeaderSizes.

Variable D : Data.
Variable host : byteorder.

Lemma header_unpack_at (c : elf_class) (l : layout) (bh : list byte) :
  parse_format host (header_format c) = Ok l ->
  unpack_fields (l_order l) (l_align l) 0 (l_sizes l) bh = header_fields_at c bh
  /\ Z.of_nat (layout_end (l_align l) 0 (l_sizes l)) = header_size c - 16.
Proof.
  destruct c; intros E.
  - change (parse_format host (header_format Class32))
      with (Ok (mkLayout LittleEndian false [2; 2; 4; 4; 4; 4; 4; 2; 2; 2; 2; 2; 2]%nat))
      in E.
    injection E as <-. split; [|reflexivity]. cbn [l_order l_align l_sizes].
    replace (unpack_fields LittleEndian false 0
               [2; 2; 4; 4; 4; 4; 4; 2; 2; 2; 2; 2; 2]%nat bh)
      with (unpack_fields LittleEndian false 0
              [2; 2; 4; 4; 4; 4; 4; 2; 2; 2; 2; 2; 2]%nat (skipn 0 bh))
      by reflexivity.
    rewrite !unpack_fields_cons. reflexivity.
  - change (parse_format host (header_format Class64))
      with (Ok (mkLayout LittleEndian false [2; 2; 4; 8; 8; 8; 4; 2; 2; 2; 2; 2; 2]%nat))
      in E.
    injection E as <-. split; [|reflexivity]. cbn [l_order l_align l_sizes].
    replace (unpack_fields LittleEndian false 0
               [2; 2; 4; 8; 8; 8; 4; 2; 2; 2; 2; 2; 2]%nat bh)
      with (unpack_fields LittleEndian false 0
              [2; 2; 4; 8; 8; 8; 4; 2; 2; 2; 2; 2; 2]%nat (skipn 0 bh))
      by reflexivity.
    rewrite !unpack_fields_cons. reflexivity.
Qed.

(** Decoding a header whose identification block is followed by the bytes
    [bh] of the fixed fields is the constructor applied to the integers of
    these bytes. *)
Lemma ELFHeader_from_fd_fields (fd : file) (ident : e_ident) (c : elf_class)
    (bh rest : list byte) :
  e_ident_from_fd D host fd = Ok (ident, bh ++ rest) ->
  endianess D ident = Ok "<" ->
  class_of D ident = Ok c ->
  Z.of_nat (List.length bh) = header_size c - 16 ->
  ELFHeader_from_fd D host fd
  = (h <- ELFHeader_init D host ident (header_fields_at c bh) ;; Ok (h, rest)).
Proof.
  intros Hi He Hc Hl. unfold ELFHeader_from_fd. rewrite Hi. cbn [bind].
  rewrite (ELFHeader_format_of_class D ident c He Hc). cbn [bind].
  destruct (header_layout host c) as [sizes Hp].
  destruct (header_unpack_at c _ bh Hp) as [Hu Hn].
  rewrite (_unpack_app host _ _ bh rest Hp).
  - cbn [bind]. rewrite Hu. reflexivity.
  - lia.
  - intros ->. simpl in Hl. destruct c; simpl in Hl; lia.
Qed.

(** C5 as the code has it.  A header is never accepted with a size field
    that differs from the size of its class, and no size is corrected.
    Every header that decoding returns holds, field by field, the integers
    of the bytes [bh] that follow the identification block in the file
    (after the magic, five bytes and the padding); its [e_ehsize] and
    [e_shentsize] are the two bytes at their offsets, and they are 52 or
    64 and 40 or 64 according to the class.  A file in
    which one of the two differs is never decoded.  The constructor
    resolves the type and the machine first: when both resolve, a wrong
    [e_ehsize] makes decoding raise [ELFException] with the two sizes in
    the message, and so does a wrong [e_shentsize] after a right
    [e_ehsize]; when the type or the machine does not resolve, decoding
    raises the error of the resolution instead.  The same holds of the
    constructor called on thirteen integers. *)
Theorem header_size_fields_validated :
  (forall fd h rest,
      ELFHeader_from_fd D host fd = Ok (h, rest) ->
      exists c n before bh,
        fd = before ++ bh ++ rest
        /\ pad_length D = Ok n /\ 0 <= n
        /\ Z.of_nat (List.length before) = 9 + n
        /\ e_ident_from_fd D host fd = Ok (h_e_ident h, bh ++ rest)
        /\ class_of D (h_e_ident h) = Ok c
        /\ Z.of_nat (List.length bh) = header_size c - 16
        /\ header_fields h = header_fields_at c bh
        /\ e_ehsize h = field_at LittleEndian bh (ehsize_offset c) 2
        /\ e_shentsize h = field_at LittleEndian bh (shentsize_offset c) 2
        /\ e_ehsize h = header_size c
        /\ e_shentsize h = section_entry_size c)
  /\ (forall fd ident c bh rest,
        e_ident_from_fd D host fd = Ok (ident, bh ++ rest) ->
        endianess D ident = Ok "<" ->
        class_of D ident = Ok c ->
        Z.of_nat (List.length bh) = header_size c - 16 ->
        let ty := field_at LittleEndian bh 0 2 in
        let ma := field_at LittleEndian bh 2 2 in
        let eh := field_at LittleEndian bh (ehsize_offset c) 2 in
        let se := field_at LittleEndian bh (shentsize_offset c) 2 in
        (eh <> header_size c \/ se <> section_entry_size c ->
         is_ok (ELFHeader_from_fd D host fd) = false)
        /\ (is_ok (from_value (ET D) ty) = true ->
            is_ok (from_value (EM D) ma) = true ->
            (eh <> header_size c ->
             ELFHeader_from_fd D host fd
             = Err (ELFException
                      ("Invalid e_ehsize, got `" +s+ str_int eh
                       +s+ "` but was expecting `"
                       +s+ str_int (header_size c) +s+ "`")))
            /\ (eh = header_size c ->
                se <> section_entry_size c ->
                ELFHeader_from_fd D host fd
                = Err (ELFException
                         ("Invalid e_shentsize, got `" +s+ str_int se
                          +s+ "` but was expecting `"
                          +s+ str_int (section_entry_size c) +s+ "`"))))
        /\ (forall e, from_value (ET D) ty = Err e ->
                      ELFHeader_from_fd D host fd = Err e)
        /\ (forall e, is_ok (from_value (ET D) ty) = true ->
                      from_value (EM D) ma = Err e ->
                      ELFHeader_from_fd D host fd = Err e))
  /\ (forall ident args h,
        ELFHeader_init D host ident args = Ok h ->
        exists c, class_of D ident = Ok c
                  /\ args = header_fields h
                  /\ e_ehsize h = header_size c
                  /\ e_shentsize h = section_entry_size c)
  /\ (forall ident c ty ma ve en po so fl eh pe pn se sn sx t m,
        class_of D ident = Ok c ->
        from_value (ET D) ty = Ok t ->
        from_value (EM D) ma = Ok m ->
        (eh <> header_size c ->
         ELFHeader_init D host ident [ty; ma; ve; en; po; so; fl; eh; pe; pn; se; sn; sx]
         = Err (ELFException
                  ("Invalid e_ehsize, got `" +s+ str_int eh
                   +s+ "` but was expecting `" +s+ str_int (header_size c) +s+ "`")))
        /\ (eh = header_size c ->
            endianess D ident = Ok "<" ->
            se <> section_entry_size c ->
            ELFHeader_init D host ident [ty; ma; ve; en; po; so; fl; eh; pe; pn; se; sn; sx]
            = Err (ELFException
                     ("Invalid e_shentsize, got `" +s+ str_int se
                      +s+ "` but was expecting `"
                      +s+ str_int (section_entry_size c) +s+ "`"))))
  /\ (forall ident ty ma ve en po so fl eh pe pn se sn sx e,
        from_value (ET D) ty = Err e ->
        ELFHeader_init D host ident [ty; ma; ve; en; po; so; fl; eh; pe; pn; se; sn; sx]
        = Err e).
Proof.
  split; [|split; [|split; [|split]]].
  - intros fd h rest H.
    destruct (ELFHeader_from_fd_inv D host fd rest h H)
      as (ident & fd1 & fmt & args & Hid & Hfmt & Hu & Hi).
    destruct (ELFHeader_init_inv D host ident args h Hi)
      as (c & Hc & He & E & Ha & H1 & H2).
    destruct (ELFHeader_format_inv D ident fmt Hfmt) as (c' & _ & Hc' & ->).
    assert (c' = c) as -> by congruence.
    destruct (_unpack_inv host _ _ _ _ Hu) as (l & bh & Hp & -> & Hne & Hlen & Hv).
    destruct (header_unpack_at c l bh Hp) as [Hf Hn].
    assert (Hfields : header_fields h = header_fields_at c bh) by congruence.
    destruct (e_ident_from_fd_inv D host fd (bh ++ rest) ident Hid)
      as (b5 & pad & n & Hfd & H5 & Hpl & H0 & Hpad & _).
    { destruct bh; [contradiction | discriminate]. }
    exists c, n, (ELFMAG ++ b5 ++ pad), bh. subst ident.
    split; [now rewrite <- !app_assoc|]. split; [exact Hpl|]. split; [exact H0|].
    split; [rewrite !length_app, H5, Hpad; simpl List.length; lia|].
    split; [exact Hid|]. split; [exact Hc|]. split; [lia|].
    split; [exact Hfields|].
    assert (e_ehsize h = field_at LittleEndian bh (ehsize_offset c) 2
            /\ e_shentsize h = field_at LittleEndian bh (shentsize_offset c) 2)
      as [E1 E2].
    { unfold header_fields in Hfields.
      destruct c; cbn [header_fields_at ehsize_offset shentsize_offset] in *;
        injection Hfields; intros; split; assumption. }
    auto.
  - intros fd ident c bh rest Hid He Hc Hl ty ma eh se.
    rewrite (ELFHeader_from_fd_fields fd ident c bh rest Hid He Hc Hl).
    assert (Hwe : is_ok (from_value (ET D) ty) = true ->
                  is_ok (from_value (EM D) ma) = true ->
                  eh <> header_size c ->
                  ELFHeader_init D host ident (header_fields_at c bh)
                  = Err (ELFException
                           ("Invalid e_ehsize, got `" +s+ str_int eh
                            +s+ "` but was expecting `"
                            +s+ str_int (header_size c) +s+ "`"))).
    { intros Ht Hm Hne. subst ty ma eh se.
      destruct c; cbn [header_fields_at ehsize_offset] in *;
        now apply ELFHeader_init_wrong_ehsize. }
    assert (Hws : is_ok (from_value (ET D) ty) = true ->
                  is_ok (from_value (EM D) ma) = true ->
                  eh = header_size c -> se <> section_entry_size c ->
                  ELFHeader_init D host ident (header_fields_at c bh)
                  = Err (ELFException
                           ("Invalid e_shentsize, got `" +s+ str_int se
                            +s+ "` but was expecting `"
                            +s+ str_int (section_entry_size c) +s+ "`"))).
    { intros Ht Hm Heq Hne. subst ty ma eh se.
      destruct c; cbn [header_fields_at ehsize_offset shentsize_offset] in *;
        now apply ELFHeader_init_wrong_shentsize. }
    assert (Hut : forall e, from_value (ET D) ty = Err e ->
                            ELFHeader_init D host ident (header_fields_at c bh) = Err e).
    { intros e Ht. subst ty ma eh se.
      destruct c; cbn [header_fields_at] in *;
        now apply ELFHeader_init_unknown_type. }
    assert (Hum : forall e, is_ok (from_value (ET D) ty) = true ->
                            from_value (EM D) ma = Err e ->
                            ELFHeader_init D host ident (header_fields_at c bh) = Err e).
    { intros e Ht Hm. subst ty ma eh se.
      destruct c; cbn [header_fields_at] in *;
        now apply ELFHeader_init_unknown_machine. }
    split; [|split; [|split]].
    + intros Hw.
      destruct (from_value (ET D) ty) as [t|e] eqn:Ht;
        [|now rewrite (Hut e eq_refl)].
      destruct (from_value (EM D) ma) as [m|e] eqn:Hm;
        [|now rewrite (Hum e eq_refl eq_refl)].
      destruct (Z.eq_dec eh (header_size c)) as [Heq|Hne].
      * destruct Hw as [Hw|Hw]; [contradiction|].
        now rewrite (Hws eq_refl eq_refl Heq Hw).
      * now rewrite (Hwe eq_refl eq_refl Hne).
    + intros Ht Hm. split.
      * intros Hne. now rewrite (Hwe Ht Hm Hne).
      * intros Heq Hne. now rewrite (Hws Ht Hm Heq Hne).
    + intros e Ht. now rewrite (Hut e Ht).
    + intros e Ht Hm. now rewrite (Hum e Ht Hm).
  - intros ident args h Hi.
    destruct (ELFHeader_init_inv D host ident args h Hi)
      as (c & Hc & _ & E & Ha & H1 & H2).
    exists c. auto.
  - intros ident c ty ma ve en po so fl eh pe pn se sn sx t m Hc Ht Hm. split.
    + intros Hne. apply ELFHeader_init_wrong_ehsize; auto.
      * now rewrite Ht.
      * now rewrite Hm.
    + intros Heq He Hne. apply ELFHeader_init_wrong_shentsize; auto.
      * now rewrite Ht.
      * now rewrite Hm.
  - intros ident ty ma ve en po so fl eh pe pn se sn sx e Ht.
    now apply ELFHeader_init_unknown_type.
Qed.

End HeaderSizes.

Lemma header_size_fields_validated_witness :
  ELFHeader_from_fd sample_data LittleEndian (header_with_sizes x34 x40)
  = Err (ELFException "Invalid e_ehsize, got `52` but was expecting `64`")
  /\ ELFHeader_from_fd sample_data LittleEndian (header_with_sizes x40 x28)
     = Err (ELFException "Invalid e_shentsize, got `40` but was expecting `64`")
  /\ is_ok (ELFHeader_from_fd sample_data LittleEndian (header_with_sizes x34 x40))
     = false
  /\ exists h c,
       ELFHeader_from_fd sample_data LittleEndian (header_with_sizes x40 x40)
       = Ok (h, [])
       /\ class_of sample_data (h_e_ident h) = Ok c
       /\ e_ehsize h = header_size c
       /\ e_shentsize h = section_entry_size c.
Proof.
  destruct (header_size_fields_validated sample_data LittleEndian)
    as (Hdec & H & _).
  split; [|split; [|split]].
  - destruct (H (header_with_sizes x34 x40) sample_ident Class64
                (fields_with_sizes x34 x40) [] eq_refl eq_refl eq_refl eq_refl)
      as (_ & H1 & _).
    destruct (H1 eq_refl eq_refl) as [H2 _].
    apply H2. vm_compute. discriminate.
  - destruct (H (header_with_sizes x40 x28) sample_ident Class64
                (fields_with_sizes x40 x28) [] eq_refl eq_refl eq_refl eq_refl)
      as (_ & H1 & _).
    destruct (H1 eq_refl eq_refl) as [_ H2].
    apply H2; [reflexivity | vm_compute; discriminate].
  - destruct (H (header_with_sizes x34 x40) sample_ident Class64
                (fields_with_sizes x34 x40) [] eq_refl eq_refl eq_refl eq_refl)
      as (H0 & _).
    apply H0. left. vm_compute. discriminate.
  - assert (Hh : exists h,
               ELFHeader_from_fd sample_data LittleEndian (header_with_sizes x40 x40)
               = Ok (h, []))
      by (eexists; vm_compute; reflexivity).
    destruct Hh as [h Hh].
    destruct (Hdec _ h [] Hh)
      as (c & n & before & bh & _ & _ & _ & _ & _ & Hc & _ & _ & _ & _ & H1 & H2).
    exists h, c. split; [exact Hh|]. split; [exact Hc|]. split; [exact H1 | exact H2].
Defined.
